(** * regulink-ai: the harvesting, refinement and classification pipeline

    A shallow embedding of the three agents of the repository
    ([agent_1_harvester.py], [agent_2_refiner.py], [agent_3_analyst.py])
    and the properties of their contracts.

    Conventions of the embedding.
    - A Python [str] is a Rocq [string], one [ascii] for each character:
      the strings of the model are the Python strings whose characters are
      the code points below U+0100.  On them the character-level operations
      ([len], [str.lower], [str.strip], the [\w], [\b] and [re.IGNORECASE]
      of module [re]) are those of Python 3; a text with a character from
      U+0100 on is outside the model.
    - Every call that leaves the process (network, browser, clock, file
      system, classification engine) is answered by an explicit environment
      record.  Its answers are indexed by a counter [tick] kept in the agent's
      state, so that two calls with the same arguments may be answered
      differently.
    - What an agent does to the outside world is recorded, newest first, in
      the [trace] of its state.
    - Directories are finite maps from file names to file contents. *)

From Stdlib Require Import ZArith String Ascii List Bool Lia DecimalString.
From stdpp Require Import base option list gmap strings fin_maps sorting.

Local Open Scope string_scope.
Local Open Scope list_scope.
Local Open Scope Z_scope.

(** ** Python strings *)

Module Py.

(** [str.lower] on one character: the capital letters below U+0100 are
    [A]-[Z], U+00C0-U+00D6 and U+00D8-U+00DE, each 32 places before its
    small letter. *)
Definition char_lower (c : ascii) : ascii :=
  let n := N_of_ascii c in
  if (((65 <=? n) && (n <=? 90)) || ((192 <=? n) && (n <=? 214)) ||
      ((216 <=? n) && (n <=? 222)))%N
  then ascii_of_N (n + 32) else c.

Fixpoint lower (s : string) : string :=
  match s with
  | EmptyString => EmptyString
  | String c s' => String (char_lower c) (lower s')
  end.

(** [needle in hay] for two strings. *)
Fixpoint contains (needle hay : string) : bool :=
  String.prefix needle hay ||
  match hay with
  | EmptyString => false
  | String _ hay' => contains needle hay'
  end.

(** [s[:n]] *)
Definition take (n : N) (s : string) : string :=
  String.substring 0 (N.to_nat n) s.

(** [not s] for a string. *)
Definition falsy (s : string) : bool :=
  match s with EmptyString => true | _ => false end.

(** [str(n)] for an integer. *)
Definition str_of_Z (n : Z) : string := NilZero.string_of_int (Z.to_int n).

(** [any(p(x) for x in l)] is [existsb]; [all] is [forallb]. *)

End Py.

(** ** The fragment of Python's [re] used by the Refiner *)

Module Re.

Inductive regex : Type :=
| Lit (c : ascii)            (* a literal character *)
| Cat (r1 r2 : regex)        (* r1 r2 *)
| Alt (r1 r2 : regex)        (* r1|r2 *)
| WordBoundary               (* \b *)
| Empty.

(** [\w] of a [str] pattern: the underscore and what Unicode counts as a
    letter or a number.  Below U+0100 these are the ASCII letters and
    digits, U+00AA, U+00B2, U+00B3, U+00B5, U+00B9, U+00BA, U+00BC-U+00BE,
    U+00C0-U+00D6, U+00D8-U+00F6 and U+00F8-U+00FF. *)
Definition is_word (c : ascii) : bool :=
  let n := N_of_ascii c in
  (((48 <=? n) && (n <=? 57)) || ((65 <=? n) && (n <=? 90)) ||
   ((97 <=? n) && (n <=? 122)) || (n =? 95) ||
   (n =? 170) || (n =? 178) || (n =? 179) || (n =? 181) ||
   (n =? 185) || (n =? 186) || ((188 <=? n) && (n <=? 190)) ||
   ((192 <=? n) && (n <=? 214)) || ((216 <=? n) && (n <=? 246)) ||
   (248 <=? n))%N.

(** [\b] holds between the previous character and the next one when exactly
    one of them is a word character; the two ends of the text count as
    non-word characters. *)
Definition at_boundary (prev : option ascii) (rest : string) : bool :=
  xorb (match prev with Some c => is_word c | None => false end)
       (match rest with String c _ => is_word c | EmptyString => false end).

(** A literal [c] of the pattern against the character [x] of the text.
    With [re.IGNORECASE] the two match when their small letters are the
    same; the other characters that Unicode folds onto a letter below
    U+0100 (U+017F onto [s], U+212A onto [k], ...) are from U+0100 on. *)
Definition char_eq (ignorecase : bool) (c x : ascii) : bool :=
  if ignorecase then bool_decide (Py.char_lower c = Py.char_lower x)
  else bool_decide (c = x).

(** Backtracking matcher: [match_at r prev s k] tries to match [r] at the
    head of [s] (with [prev] the character just before) and hands the
    position reached to the continuation [k]. *)
Fixpoint match_at (ignorecase : bool) (r : regex) (prev : option ascii)
    (s : string) (k : option ascii → string → bool) : bool :=
  match r with
  | Empty => k prev s
  | Lit c =>
      match s with
      | String x s' => char_eq ignorecase c x && k (Some x) s'
      | EmptyString => false
      end
  | Cat r1 r2 =>
      match_at ignorecase r1 prev s (λ p s', match_at ignorecase r2 p s' k)
  | Alt r1 r2 => match_at ignorecase r1 prev s k || match_at ignorecase r2 prev s k
  | WordBoundary => at_boundary prev s && k prev s
  end.

(** [re.search]: a match starting at some position of the text. *)
Fixpoint search_from (ignorecase : bool) (r : regex) (prev : option ascii)
    (s : string) : bool :=
  match_at ignorecase r prev s (λ _ _, true) ||
  match s with
  | EmptyString => false
  | String x s' => search_from ignorecase r (Some x) s'
  end.

Definition search (ignorecase : bool) (r : regex) (s : string) : bool :=
  search_from ignorecase r None s.

(** A literal word of the pattern. *)
Fixpoint word (w : string) : regex :=
  match w with
  | EmptyString => Empty
  | String c w' => Cat (Lit c) (word w')
  end.

End Re.

(** ** Exceptions and the [tenacity] retry decorator *)

Module Tenacity.

Inductive Outcome (E A : Type) : Type :=
| Returned (a : A)
| Raised (e : E).
Arguments Returned {E A} a.
Arguments Raised {E A} e.

Section Retry.
Context {E W A : Type}.
(** [isinstance(e, Exception)]: the default [retry_if_exception_type()]. *)
Variable is_Exception : E → bool.
(** [RetryError], raised when the attempts are used up ([reraise=False]). *)
Variable RetryError : E → E.
(** What happens between attempt number [k], failed with [e], and the next
    one: [before_sleep], then [sleep(wait(k))]. *)
Variable pause : nat → E → W → W.

(** [more] attempts remain after attempt number [k]. *)
Fixpoint attempt (more k : nat) (body : W → Outcome E A * W) (w : W)
    : Outcome E A * W :=
  match body w with
  | (Returned a, w') => (Returned a, w')
  | (Raised e, w') =>
      if is_Exception e then
        match more with
        | O => (Raised (RetryError e), w')
        | S more' => attempt more' (S k) body (pause k e w')
        end
      else (Raised e, w')
  end.

(** [@retry(stop=stop_after_attempt(n), ...)]: the first attempt is always
    made, and attempt [k] is the last one as soon as [k >= n]. *)
Definition retry (stop_after_attempt : nat) : (W → Outcome E A * W) → W → Outcome E A * W :=
  attempt (stop_after_attempt - 1) 1.

End Retry.

End Tenacity.

Import Tenacity.

(** ** JSON values and Python dictionaries *)

Module Json.

(** The values [json.load] builds (numbers are integers here). *)
#[warnings="-register-all"]
Inductive value : Type :=
| Null
| Bool (b : bool)
| Num (n : Z)
| Str (s : string)
| Arr (l : list value)
| Obj (o : list (string * value)).

(** A [dict] with string keys, in insertion order. *)
Definition dict : Type := list (string * value).

(** [d.get(k)] *)
Fixpoint get (k : string) (d : dict) : option value :=
  match d with
  | [] => None
  | (k', v) :: d' => if decide (k = k') then Some v else get k d'
  end.

(** [k in d] *)
Definition has (k : string) (d : dict) : bool :=
  match get k d with Some _ => true | None => false end.

(** [d[k] = v]: an existing key keeps its place, a new key goes last. *)
Fixpoint set (k : string) (v : value) (d : dict) : dict :=
  match d with
  | [] => [(k, v)]
  | (k', v') :: d' =>
      if decide (k = k') then (k, v) :: d' else (k', v') :: set k v d'
  end.

(** [{**d1, **d2}] *)
Definition update (d1 d2 : dict) : dict :=
  fold_left (λ d kv, set kv.1 kv.2 d) d2 d1.

(** [d.keys()] *)
Definition keys (d : dict) : list string := map fst d.

(** What is found in a [.json] file: a file that cannot be opened or whose
    bytes are no UTF-8 text, text that is no JSON, or a JSON value. *)
Inductive file : Type :=
| Unreadable (msg : string)  (* [open] or [read] raises: OSError, UnicodeDecodeError *)
| Corrupted                  (* [json.load] raises json.JSONDecodeError *)
| Parsed (v : value).

(** A file that holds a JSON object. *)
Abbreviation Object d := (Parsed (Obj d)).

End Json.

(** ** The source registry ([EU_Regulatory_Sources_Master.xlsx]) *)

Module Registry.

(** A row of the sheet.  An empty cell ([NaN]) of the columns
    [Target URL] and [Notes] is [None]. *)
Record Row : Type := {
  source_name : string;
  target_url : option string;
  extraction_strategy : string;
  notes : option string
}.

Definition set_notes (n : string) (r : Row) : Row :=
  {| source_name := source_name r; target_url := target_url r;
     extraction_strategy := extraction_strategy r; notes := Some n |}.

End Registry.

(** ** Agent 1: the Harvester ([agent_1_harvester.py]) *)

Module Harvester.

Import Registry.

Inductive Exn : Type :=
| ValueError (msg : string)
| AttributeError (msg : string)
| LibraryError (msg : string)      (* any other [Exception] of a library *)
| RetryError (last : Exn)          (* tenacity *)
| KeyboardInterrupt.               (* a [BaseException] that is no [Exception] *)

Definition is_Exception (e : Exn) : bool :=
  match e with KeyboardInterrupt => false | _ => true end.

(** What [feedparser.parse] hands back. *)
Record Entry : Type := { title : option string }.
Record Feed : Type := { entries : list Entry; status : option Z }.

Inductive ParseReply : Type :=
| Parsed (feed : Feed)
| ParseInterrupted.

(** What the browser does on [page.goto] and [page.title]. *)
Inductive PageReply : Type :=
| NoResponse
| TimedOut                          (* PlaywrightTimeout *)
| NavigationError (msg : string)    (* any other playwright error *)
| Loaded (page_title : string)
| NavigationInterrupted.

(** What Playwright does in [start_browser]. *)
Inductive LaunchReply : Type :=
| Launched
| LaunchFailed (msg : string)       (* sync_playwright().start() or launch raises *)
| ContextFailed (msg : string).     (* browser.new_context raises *)

(** What Playwright does in [stop_browser]. *)
Inductive CloseReply : Type :=
| Closed
| CloseFailed (msg : string).       (* browser.close() or playwright.stop() raises *)

(** What the file system does on [to_excel]. *)
Inductive WriteReply : Type :=
| Written
| PermissionDenied
| WriteFailed (msg : string).

Record Env : Type := {
  feedparser_parse : nat → string → ParseReply;
  launch : nat → LaunchReply;
  close : nat → CloseReply;
  page_goto : nat → string → PageReply;
  to_excel : nat → WriteReply;
  (** [datetime.now().strftime('%Y-%m-%d %H:%M')] *)
  now : nat → string;
  (** [str(e)] *)
  str_exn : Exn → string;
  (** [wait_exponential(multiplier, min, max)] at an attempt number *)
  wait_exponential : Z → Z → Z → nat → Z
}.

Inductive Event : Type :=
| EStartBrowser
| EStopBrowser
| EParseFeed (url : string)
| ENavigate (url : string)
| ESleep (seconds : Z)
| EUpdateRow (index : nat)           (* df.at[index, 'Notes'] = ... *)
| ESaveData (reply : WriteReply).    (* save_data(df) and what came of it *)

Inductive Level : Type := INFO | WARNING | ERROR.

Record State : Type := {
  disk : option (list Row);          (* the registry file, if there is one *)
  browser : bool;                    (* self.browser is set *)
  context : bool;                    (* self.context is set *)
  tick : nat;
  trace : list Event;
  log : list (Level * string)
}.

Definition emit (e : Event) (st : State) : State :=
  {| disk := disk st; browser := browser st; context := context st;
     tick := tick st; trace := e :: trace st; log := log st |}.

Definition logger (l : Level) (msg : string) (st : State) : State :=
  {| disk := disk st; browser := browser st; context := context st;
     tick := tick st; trace := trace st; log := (l, msg) :: log st |}.

Definition advance (st : State) : State :=
  {| disk := disk st; browser := browser st; context := context st;
     tick := S (tick st); trace := trace st; log := log st |}.

Definition set_browser (b c : bool) (st : State) : State :=
  {| disk := disk st; browser := b; context := c;
     tick := tick st; trace := trace st; log := log st |}.

Definition set_disk (d : list Row) (st : State) : State :=
  {| disk := Some d; browser := browser st; context := context st;
     tick := tick st; trace := trace st; log := log st |}.

(** [HarvesterAgent.__init__] *)
Definition init (registry_file : option (list Row)) : State :=
  logger INFO "Harvester Agent initialized."
    {| disk := registry_file; browser := false; context := false;
       tick := 0; trace := []; log := [] |}.

(** [self.browser] is set once the launch has returned, [self.context] once
    the context is made; an exception leaves what was assigned before it. *)
Definition start_browser (env : Env) (st : State) : Outcome Exn unit * State :=
  if browser st then (Returned (), st)
  else
    let st1 :=
      emit EStartBrowser (advance (logger INFO "Launching Headless Browser..." st)) in
    match launch env (tick st) with
    | Launched => (Returned (), set_browser true true st1)
    | LaunchFailed msg => (Raised (LibraryError msg), st1)
    | ContextFailed msg => (Raised (LibraryError msg), set_browser true (context st) st1)
    end.

(** [self.browser] is reset after the two calls that close it: it stays set
    when one of them raises. *)
Definition stop_browser (env : Env) (st : State) : Outcome Exn unit * State :=
  if browser st then
    let st1 :=
      emit EStopBrowser (advance (logger INFO "Closing Browser..." st)) in
    match close env (tick st) with
    | Closed => (Returned (), set_browser false (context st) st1)
    | CloseFailed msg => (Raised (LibraryError msg), st1)
    end
  else (Returned (), st).

Definition load_data (st : State) : option (list Row) * State :=
  match disk st with
  | None => (None, logger ERROR "Critical: File not found" st)
  | Some rows => (Some rows, st)
  end.

Definition save_data (env : Env) (df : list Row) (st : State) : State :=
  let reply := to_excel env (tick st) in
  let st := emit (ESaveData reply) (advance st) in
  match reply with
  | Written => logger INFO "Checkpoint saved." (set_disk df st)
  | PermissionDenied =>
      logger ERROR "[PERM ERROR] Could not save. Please close it in Excel!" st
  | WriteFailed msg => logger ERROR ("Save failed: " +:+ msg) st
  end.

(** The body of [_fetch_rss] once the feed is parsed. *)
Definition rss_result (feed : Feed) : Outcome Exn string :=
  match entries feed with
  | [] =>
      match status feed with
      | Some code =>
          if 400 <=? code
          then Raised (ValueError ("HTTP " +:+ Py.str_of_Z code +:+ " Error fetching RSS"))
          else Raised (ValueError "RSS parsed but found no entries (Empty Feed).")
      | None => Raised (ValueError "RSS parsed but found no entries (Empty Feed).")
      end
  | e :: _ =>
      match title e with
      | Some t => Returned t
      | None => Raised (AttributeError "title")
      end
  end.

Definition fetch_rss_body (env : Env) (url : string) (st : State)
    : Outcome Exn string * State :=
  let st' := emit (EParseFeed url) (advance st) in
  match feedparser_parse env (tick st) url with
  | Parsed feed => (rss_result feed, st')
  | ParseInterrupted => (Raised KeyboardInterrupt, st')
  end.

(** [before_sleep_log(logger, logging.WARNING)], then the sleep. *)
Definition pause (wait : nat → Z) (k : nat) (e : Exn) (st : State) : State :=
  emit (ESleep (wait k)) (logger WARNING "Retrying after a failed attempt" st).

Definition _fetch_rss (env : Env) (url : string) : State → Outcome Exn string * State :=
  retry is_Exception RetryError (pause (wait_exponential env 1 2 5)) 2
    (fetch_rss_body env url).

(** [page = self.context.new_page()] and what follows it. *)
Definition navigate (env : Env) (url : string) (st : State)
    : Outcome Exn string * State :=
  if context st then
    let st' := emit (ENavigate url) (advance st) in
    match page_goto env (tick st) url with
    | NoResponse => (Raised (ValueError "No response received from server."), st')
    | TimedOut => (Raised (ValueError "Page load timed out."), st')
    | NavigationError msg => (Raised (LibraryError msg), st')
    | Loaded page_title =>
        if Py.falsy page_title
        then (Raised (ValueError "Page loaded but title was empty."), st')
        else (Returned page_title, st')
    | NavigationInterrupted => (Raised KeyboardInterrupt, st')
    end
  else (Raised (AttributeError "'NoneType' object has no attribute 'new_page'"), st).

Definition scrape_web_body (env : Env) (url : string) (st : State)
    : Outcome Exn string * State :=
  if context st then navigate env url st
  else
    match start_browser env (logger WARNING "Browser context lost. Restarting..." st) with
    | (Returned _, st) => navigate env url st
    | (Raised e, st) => (Raised e, st)
    end.

Definition _scrape_web (env : Env) (url : string) : State → Outcome Exn string * State :=
  retry is_Exception RetryError (pause (wait_exponential env 2 4 10)) 2
    (scrape_web_body env url).

(** [str(e).replace('\n', ' ').replace('\r', '')] *)
Fixpoint clean (s : string) : string :=
  match s with
  | EmptyString => EmptyString
  | String c s' =>
      if bool_decide (c = "010"%char) then String " "%char (clean s')
      else if bool_decide (c = "013"%char) then clean s'
      else String c (clean s')
  end.

(** The [try] block of the loop body: the status and the note of the row,
    or the exception that left the block. *)
Definition dispatch (env : Env) (strategy url : string) (st : State)
    : Outcome Exn (string * string) * State :=
  if Py.contains "rss" strategy then
    match _fetch_rss env url st with
    | (Returned t, st') =>
        (Returned ("Success", "RSS OK: " +:+ Py.take 50%N t +:+ "..."), st')
    | (Raised e, st') => (Raised e, st')
    end
  else if Py.contains "scrape" strategy then
    match _scrape_web env url st with
    | (Returned t, st') =>
        (Returned ("Success", "Scrape OK: " +:+ Py.take 50%N t +:+ "..."),
         emit (ESleep 2) st')
    | (Raised e, st') => (Raised e, st')
    end
  else if Py.contains "api" strategy then
    (Returned ("Skipped", "API connector not built yet."), st)
  else
    (Returned ("Unknown Strategy", "Strategy '" +:+ strategy +:+ "' not recognized."), st).

(** The end of the loop body: the row's notes are overwritten and, every
    fifth index, the registry is saved. *)
Definition record_outcome (env : Env) (index : nat) (status note : string)
    (df : list Row) (st : State) : list Row * State :=
  let timestamp := now env (tick st) in
  let df :=
    alter (set_notes ("[" +:+ timestamp +:+ "] " +:+ status +:+ " - " +:+ note))
          index df in
  let st := emit (EUpdateRow index) (advance st) in
  if (index mod 5 =? 0)%nat then (df, save_data env df st) else (df, st).

(** One turn of the [for] loop.  The result is [Some e] when [e] leaves the
    loop. *)
Definition process_row (env : Env) (index : nat) (row : Row)
    (df : list Row) (st : State) : option Exn * list Row * State :=
  match target_url row with
  | None => (None, df, st)
  | Some url =>
      if Py.falsy url then (None, df, st)
      else
        let st := logger INFO ("Processing: " +:+ source_name row) st in
        let strategy := Py.lower (extraction_strategy row) in
        match dispatch env strategy url st with
        | (Returned (status, note), st) =>
            let '(df, st) := record_outcome env index status note df st in
            (None, df, st)
        | (Raised e, st) =>
            if is_Exception e then
              (* except Exception as e: *)
              let err_msg := clean (str_exn env e) in
              let st := logger ERROR ("Error: " +:+ Py.take 100%N err_msg) st in
              let '(df, st) :=
                record_outcome env index "Failed"
                  ("Error: " +:+ Py.take 100%N err_msg) df st in
              (None, df, st)
            else (Some e, df, st)
        end
  end.

(** [df.iterrows()]: the rows with their index, which counts from 0. *)
Fixpoint iterrows_from (index : nat) (df : list Row) : list (nat * Row) :=
  match df with
  | [] => []
  | row :: df' => (index, row) :: iterrows_from (S index) df'
  end.

Definition iterrows (df : list Row) : list (nat * Row) := iterrows_from 0 df.

(** [for index, row in df.iterrows()] *)
Fixpoint process_rows (env : Env) (rows : list (nat * Row))
    (df : list Row) (st : State) : option Exn * list Row * State :=
  match rows with
  | [] => (None, df, st)
  | (index, row) :: rows' =>
      match process_row env index row df st with
      | (None, df', st') => process_rows env rows' df' st'
      | (Some e, df', st') => (Some e, df', st')
      end
  end.

(** [HarvesterAgent.run]; the result is the exception that leaves [run], if
    any. *)
(** The [finally] block of [run]; [exn] is the exception that left the
    loop, if any, and an exception of the block itself takes its place. *)
Definition teardown (env : Env) (exn : option Exn) (df : list Row) (st : State)
    : option Exn * State :=
  match stop_browser env st with
  | (Returned _, st) =>
      let st := save_data env df st in
      (exn, logger INFO "Run complete." st)
  | (Raised e, st) => (Some e, st)
  end.

(** [df['Extraction Strategy'].astype(str).str.contains('scrape', case=False)]
    for one row. *)
Definition scrapes (row : Row) : bool :=
  Py.contains "scrape" (Py.lower (extraction_strategy row)).

(** [HarvesterAgent.run]; the result is the exception that leaves [run], if
    any.  The browser is started before the [try]: an exception of the launch
    leaves [run] at once. *)
Definition run (env : Env) (st : State) : option Exn * State :=
  match load_data st with
  | (None, st) => (None, st)
  | (Some df, st) =>
      let st := logger INFO "Loaded sources." st in
      match (if existsb scrapes df then start_browser env st else (Returned (), st)) with
      | (Raised e, st) => (Some e, st)
      | (Returned _, st) =>
          let '(exn, df, st) := process_rows env (iterrows df) df st in
          teardown env exn df st
      end
  end.

(** Rows whose new notes a crash would lose: the rows updated since the
    last [save_data] that reached the disk. *)
Fixpoint unsaved (t : list Event) : nat :=
  match t with
  | [] => 0
  | ESaveData Written :: _ => 0
  | EUpdateRow _ :: t' => S (unsaved t')
  | _ :: t' => unsaved t'
  end.

(** At whatever moment the process is killed, at most [bound] rows are
    lost: the trace at an earlier moment is a suffix of the trace. *)
Definition loses_at_most (bound : nat) (t : list Event) : Prop :=
  ∀ earlier, earlier `suffix_of` t → (unsaved earlier <= bound)%nat.

(** The row has a target URL, so that the loop does not skip it. *)
Definition has_url (row : Row) : Prop :=
  ∃ url, target_url row = Some url ∧ Py.falsy url = false.

(** Events that neither update a row nor save the registry. *)
Definition quiet (e : Event) : Prop :=
  match e with
  | EUpdateRow _ | ESaveData _ => False
  | _ => True
  end.

(** From [st] to [st'] the agent has only fetched: the events added are
    quiet. *)
Definition fetches (st st' : State) : Prop :=
  ∃ events, trace st' = events ++ trace st ∧ Forall quiet events.

End Harvester.

(** ** Agent 2: the Refiner ([agent_2_refiner.py]) *)

Module Refiner.

Import Registry.

(** Every exception of this agent's libraries is an [Exception]. *)
Inductive Exn : Type :=
| LibraryError (msg : string)
| HTTPError (status : Z)           (* resp.raise_for_status() *)
| ValueError (msg : string)
| OverflowError (msg : string)
| OSError (msg : string)
| RetryError (last : Exn).

Definition is_Exception (e : Exn) : bool := true.

(** [trafilatura.fetch_url] *)
Inductive FetchReply : Type :=
| Fetched (html : string)
| FetchedNothing                   (* returns None *)
| FetchFailed (msg : string).

(** [requests.get] *)
Inductive HttpReply : Type :=
| ConnectionFailed (msg : string)
| Response (status : Z) (text : string).

(** [os.getenv("REFINER_DELAY")] as [int] reads it. *)
Inductive DelaySetting : Type :=
| Unset
| Seconds (n : Z)
| NotANumber.

Record Env : Type := {
  (** [hashlib.md5(url.encode('utf-8')).hexdigest()] *)
  md5_hexdigest : string → string;
  (** the scheme and the netloc [urlparse] finds, [None] when it raises *)
  urlparse : string → option (string * string);
  fetch_url : nat → string → FetchReply;
  requests_get : nat → string → HttpReply;
  (** [trafilatura.extract] *)
  extract : string → Outcome Exn (option string);
  (** [datetime.now().isoformat()] *)
  now : nat → string;
  REFINER_DELAY : DelaySetting;
  (** the error of the operating system when it refuses to sleep for so
      many seconds, [None] when it sleeps *)
  nanosleep : Z → option string
}.

Inductive Event : Type :=
| EFetchUrl (url : string)
| ERequestsGet (url : string)
| EWriteFile (name : string)
| ESleep (seconds : Z).

Inductive Level : Type := INFO | WARNING | ERROR.

Record State : Type := {
  processed : gmap string Json.file;   (* data/processed *)
  tick : nat;
  trace : list Event;
  log : list (Level * string)
}.

Definition emit (e : Event) (st : State) : State :=
  {| processed := processed st; tick := tick st;
     trace := e :: trace st; log := log st |}.

Definition logger (l : Level) (msg : string) (st : State) : State :=
  {| processed := processed st; tick := tick st;
     trace := trace st; log := (l, msg) :: log st |}.

Definition advance (st : State) : State :=
  {| processed := processed st; tick := S (tick st);
     trace := trace st; log := log st |}.

Definition write_file (name : string) (f : Json.file) (st : State) : State :=
  emit (EWriteFile name)
    {| processed := <[name := f]> (processed st); tick := tick st;
       trace := trace st; log := log st |}.

(** [RefinerAgent.__init__], over the files [data/processed] holds. *)
Definition init (files : gmap string Json.file) : State :=
  {| processed := files; tick := 0; trace := [];
     log := [(INFO, "Refiner Agent initialized.")] |}.

Definition get_url_hash (env : Env) (url : string) : string :=
  md5_hexdigest env url.

(** [str(NaN)] is ["nan"], in which [urlparse] finds no scheme. *)
Definition is_valid_url (env : Env) (url : option string) : bool :=
  match url with
  | None => false
  | Some u =>
      match urlparse env u with
      | Some (scheme, netloc) => negb (Py.falsy scheme) && negb (Py.falsy netloc)
      | None => false
      end
  end.

(** [r"\b(success|rss ok|scrape ok)\b"] *)
Definition success_pattern : Re.regex :=
  Re.Cat Re.WordBoundary
    (Re.Cat (Re.Alt (Re.word "success")
               (Re.Alt (Re.word "rss ok") (Re.word "scrape ok")))
            Re.WordBoundary).

(** [re.search(..., status, re.IGNORECASE)] *)
Definition status_matches (status : string) : bool :=
  Re.search true success_pattern status.

(** [str(row.get('Notes', ''))] *)
Definition status_of (row : Row) : string :=
  match notes row with Some s => s | None => "nan" end.

(** [str.strip]: the white space below U+0100 is U+0009-U+000D,
    U+001C-U+0020, U+0085 and U+00A0. *)
Definition is_space (c : ascii) : bool :=
  let n := N_of_ascii c in
  (((9 <=? n) && (n <=? 13)) || ((28 <=? n) && (n <=? 32)) ||
   (n =? 133) || (n =? 160))%N.

Fixpoint lstrip (s : string) : string :=
  match s with
  | EmptyString => EmptyString
  | String c s' => if is_space c then lstrip s' else s
  end.

Definition strip (s : string) : string :=
  String.rev (lstrip (String.rev (lstrip s))).

(** The body of [_download_content]: its own [try]/[except Exception] turns
    every failure into [None]. *)
Definition download_body (env : Env) (url : string) (st : State)
    : Outcome Exn (option string) * State :=
  let st1 := emit (EFetchUrl url) (advance st) in
  let '(downloaded, st2) :=
    match fetch_url env (tick st) url with
    | Fetched html => (Returned html, st1)
    | FetchFailed msg => (Raised (LibraryError msg), st1)
    | FetchedNothing =>
        let st2 := emit (ERequestsGet url) (advance st1) in
        match requests_get env (tick st1) url with
        | ConnectionFailed msg => (Raised (LibraryError msg), st2)
        | Response status text =>
            if (400 <=? status) && (status <? 600)
            then (Raised (HTTPError status), st2)
            else (Returned text, st2)
        end
    end in
  let text :=
    match downloaded with
    | Returned html => extract env html
    | Raised e => Raised e
    end in
  match text with
  | Returned (Some t) =>
      if Py.falsy t then (Returned None, st2) else (Returned (Some (strip t)), st2)
  | Returned None => (Returned None, st2)
  | Raised e => (Returned None, logger WARNING "Download Engine Warning" st2)
  end.

(** [wait_fixed(2)] *)
Definition pause (k : nat) (e : Exn) (st : State) : State := emit (ESleep 2) st.

(** [@retry(stop=stop_after_attempt(2), wait=wait_fixed(2))] *)
Definition _download_content (env : Env) (url : string)
    : State → Outcome Exn (option string) * State :=
  retry is_Exception RetryError pause 2 (download_body env url).

(** The seconds that [_PyTime_t], a 64-bit count of nanoseconds, holds. *)
Definition PyTime_MAX : Z := 9223372036.

(** The exception of [time.sleep(n)] for an integer [n], if it raises: the
    duration is converted to [_PyTime_t] first, its sign is looked at next,
    and the system has the last word. *)
Definition sleep_error (env : Env) (n : Z) : option Exn :=
  if (n <? - PyTime_MAX) || (PyTime_MAX <? n)
  then Some (OverflowError "timestamp too large to convert to C _PyTime_t")
  else if n <? 0 then Some (ValueError "sleep length must be non-negative")
  else OSError <$> nanosleep env n.

Definition time_sleep (env : Env) (n : Z) (st : State) : Outcome Exn unit * State :=
  match sleep_error env n with
  | Some e => (Raised e, st)
  | None => (Returned (), emit (ESleep n) st)
  end.

(** [time.sleep(int(os.getenv("REFINER_DELAY", "1")))] *)
Definition polite_delay (env : Env) (st : State) : Outcome Exn unit * State :=
  match REFINER_DELAY env with
  | Unset => time_sleep env 1 st
  | Seconds n => time_sleep env n st
  | NotANumber => (Raised (ValueError "invalid literal for int()"), st)
  end.

(** [os.path.join(PROCESSED_DIR, f"{file_hash}.json")], within the
    directory. *)
Definition json_path (env : Env) (url : string) : string :=
  get_url_hash env url +:+ ".json".

Definition process_url (env : Env) (url source : string) (st : State) : State :=
  let json_path := json_path env url in
  (* 1. Idempotency Check *)
  match processed st !! json_path with
  | Some _ => logger INFO "Skipping (Already downloaded)." st
  | None =>
      let st := logger INFO "Extracting" st in
      (* 2. Download & Clean *)
      match _download_content env url st with
      | (Raised e, st) => logger ERROR "Failed" st
      | (Returned None, st) => logger WARNING "Content too short or empty" st
      | (Returned (Some content), st) =>
          if Py.falsy content || (String.length content <? 50)%nat
          then logger WARNING "Content too short or empty" st
          else
            (* 3. Save as clean JSON *)
            let data : Json.dict :=
              [("source", Json.Str source); ("url", Json.Str url);
               ("downloaded_at", Json.Str (now env (tick st)));
               ("content_clean", Json.Str content)] in
            let st := write_file json_path (Json.Object data) (advance st) in
            let st := logger INFO "Saved content" st in
            match polite_delay env st with
            | (Returned _, st) => st
            | (Raised e, st) => logger ERROR "Failed" st
            end
      end
  end.

(** One turn of the loop of [run]. *)
Definition visit (env : Env) (st : State) (row : Row) : State :=
  if status_matches (status_of row) then
    if is_valid_url env (target_url row)
    then process_url env (default "nan" (target_url row)) (source_name row) st
    else logger WARNING "Invalid URL format skipped" st
  else st.

(** [RefinerAgent.run]; [registry] is [None] when the master file is missing
    or cannot be read. *)
Definition run (env : Env) (registry : option (list Row)) (st : State) : State :=
  match registry with
  | None => logger ERROR "Master file not found or not loaded" st
  | Some df =>
      let st := logger INFO "Scanning sources for content to extract..." st in
      let st := fold_left (visit env) df st in
      logger INFO "Refiner run complete." st
  end.

(** The network calls of a trace. *)
Definition is_download (e : Event) : bool :=
  match e with
  | EFetchUrl _ | ERequestsGet _ => true
  | _ => false
  end.

Definition downloads (t : list Event) : list Event := filter is_download t.



End Refiner.

(** ** Agent 3: the Analyst ([agent_3_analyst.py]) *)

Module Analyst.

Inductive Engine : Type := MOCK | GEMINI | OPENAI.

Definition engine_name (e : Engine) : string :=
  match e with MOCK => "MOCK" | GEMINI => "GEMINI" | OPENAI => "OPENAI" end.

(** Every exception of this agent's libraries is an [Exception]. *)
Inductive Exn : Type :=
| LibraryError (msg : string)      (* the engine's client, json.loads *)
| TypeError (msg : string)
| AttributeError (msg : string)
| JSONDecodeError
| ReadError (msg : string)         (* OSError, UnicodeDecodeError *)
| RetryError (last : Exn).

Definition is_Exception (e : Exn) : bool := true.

(** [with open(path, 'r', encoding='utf-8') as f: json.load(f)] *)
Definition load (f : Json.file) : Outcome Exn Json.value :=
  match f with
  | Json.Unreadable msg => Raised (ReadError msg)
  | Json.Corrupted => Raised JSONDecodeError
  | Json.Parsed v => Returned v
  end.

(** What an engine call yields once [json.loads] has read the answer. *)
Inductive EngineReply : Type :=
| EngineFailed (msg : string)
| EngineAnswered (v : Json.value).

(** The table [to_csv] writes: the columns, and the rows in their order. *)
Record Report : Type := { columns : list string; rows : list Json.dict }.

Record Env : Type := {
  GEMINI_API_KEY : option string;
  OPENAI_API_KEY : option string;
  (** [model.generate_content], on the text that follows the prompt *)
  generate_content : nat → string → EngineReply;
  (** [client.chat.completions.create], on the user message *)
  chat_completions : nat → string → EngineReply;
  (** [datetime.now().isoformat()] *)
  now : nat → string;
  (** [datetime.now().strftime('%Y-%m-%d')] *)
  today : nat → string;
  (** [wait_exponential(multiplier, min, max)] at an attempt number, in ms *)
  wait_exponential : Z → Z → Z → nat → Z;
  (** what pandas makes of results that are not all dicts: the table that
      is written in the end, or the exception that [pd.DataFrame], the sort
      or [to_csv] raises *)
  irregular_frame : list Json.value → Outcome Exn Report
}.

(** The module-level selection of the engine. *)
Definition truthy (key : option string) : bool :=
  match key with Some k => negb (Py.falsy k) | None => false end.

Definition ENGINE (env : Env) : Engine :=
  if truthy (GEMINI_API_KEY env) then GEMINI
  else if truthy (OPENAI_API_KEY env) then OPENAI
  else MOCK.

Definition BLOCK_PHRASES : list string :=
  [ "access denied";
    "security check";
    "challenge-response";
    "verify you are human";
    "cloudflare";
    "403 forbidden";
    "suspected bot activity";
    "enable javascript";
    "captcha";
    "unusual traffic";
    "access to this page has been denied";
    "vpn/proxy";
    "malicious activity detected";
    "malicious behavior detected" ].

Inductive Event : Type :=
| EEngineCall (engine : Engine) (text : string)
| ESleep (milliseconds : Z)
| EWriteRecord (name : string)
| EWriteReport.

Inductive Level : Type := INFO | WARNING | ERROR.

Record State : Type := {
  intelligence : gmap string Json.file;   (* data/intelligence *)
  report : option Report;                 (* data/intelligence_report.csv *)
  tick : nat;
  trace : list Event;
  log : list (Level * string)
}.

Definition emit (e : Event) (st : State) : State :=
  {| intelligence := intelligence st; report := report st; tick := tick st;
     trace := e :: trace st; log := log st |}.

Definition logger (l : Level) (msg : string) (st : State) : State :=
  {| intelligence := intelligence st; report := report st; tick := tick st;
     trace := trace st; log := (l, msg) :: log st |}.

Definition advance (st : State) : State :=
  {| intelligence := intelligence st; report := report st; tick := S (tick st);
     trace := trace st; log := log st |}.

Definition write_record (name : string) (d : Json.dict) (st : State) : State :=
  emit (EWriteRecord name)
    {| intelligence := <[name := Json.Object d]> (intelligence st);
       report := report st; tick := tick st; trace := trace st; log := log st |}.

Definition write_report (r : Report) (st : State) : State :=
  emit EWriteReport
    {| intelligence := intelligence st; report := Some r; tick := tick st;
       trace := trace st; log := log st |}.

(** *** The engines *)

Definition engine_result (r : EngineReply) : Outcome Exn Json.value :=
  match r with
  | EngineFailed msg => Raised (LibraryError msg)
  | EngineAnswered v => Returned v
  end.

Definition gemini_body (env : Env) (text : string) (st : State)
    : Outcome Exn Json.value * State :=
  let truncated_text := Py.take 30000%N text in
  (engine_result (generate_content env (tick st) truncated_text),
   emit (EEngineCall GEMINI truncated_text) (advance st)).

Definition openai_body (env : Env) (text : string) (st : State)
    : Outcome Exn Json.value * State :=
  let truncated_text := Py.take 6000%N text in
  (engine_result (chat_completions env (tick st) truncated_text),
   emit (EEngineCall OPENAI truncated_text) (advance st)).

Definition pause (wait : nat → Z) (k : nat) (e : Exn) (st : State) : State :=
  emit (ESleep (wait k)) st.

(** [@retry(stop=stop_after_attempt(3),
            wait=wait_exponential(multiplier=2, min=2, max=20))] *)
Definition _analyze_with_gemini (env : Env) (text : string)
    : State → Outcome Exn Json.value * State :=
  retry is_Exception RetryError (pause (wait_exponential env 2 2 20)) 3
    (gemini_body env text).

Definition _analyze_with_openai (env : Env) (text : string)
    : State → Outcome Exn Json.value * State :=
  retry is_Exception RetryError (pause (wait_exponential env 2 2 20)) 3
    (openai_body env text).

Definition _mock_analysis (env : Env) (text : string) (st : State)
    : Outcome Exn Json.value * State :=
  let st := emit (ESleep 500) (emit (EEngineCall MOCK text) st) in
  (Returned (Json.Obj
     [("summary", Json.Str "Mock Summary: Regulatory update detected.");
      ("impact_score", Json.Num 5);
      ("tags", Json.Arr [Json.Str "Mock_Tag"]);
      ("date", Json.Str (today env (tick st)))]),
   advance st).

Definition analyze (env : Env) (content : string)
    : State → Outcome Exn Json.value * State :=
  match ENGINE env with
  | GEMINI => _analyze_with_gemini env content
  | OPENAI => _analyze_with_openai env content
  | MOCK => _mock_analysis env content
  end.

(** *** The filters *)

(** [content = data.get('content_clean', '')], as the two filters see it:
    [not content or len(content) < 100] decides for a falsy or a short
    value; [len] raises on a number, and [lower] on what is no string. *)
Inductive Screened : Type :=
| TooShort
| Text (content : string)
| Uncaught (e : Exn).

Definition screen_length (data : Json.dict) : Screened :=
  match default (Json.Str "") (Json.get "content_clean" data) with
  | Json.Str s =>
      if Py.falsy s || (String.length s <? 100)%nat then TooShort else Text s
  | Json.Null => TooShort
  | Json.Bool false => TooShort
  | Json.Bool true => Uncaught (TypeError "object of type 'bool' has no len()")
  | Json.Num n =>
      if n =? 0 then TooShort
      else Uncaught (TypeError "object of type 'int' has no len()")
  | Json.Arr l =>
      if (length l <? 100)%nat then TooShort
      else Uncaught (AttributeError "'list' object has no attribute 'lower'")
  | Json.Obj o =>
      if (length o <? 100)%nat then TooShort
      else Uncaught (AttributeError "'dict' object has no attribute 'lower'")
  end.

(** [any(phrase in content.lower() for phrase in BLOCK_PHRASES)] *)
Definition is_blocked (content : string) : bool :=
  existsb (λ phrase, Py.contains phrase (Py.lower content)) BLOCK_PHRASES.

(** *** The loop of [run] *)

Definition required_keys : list string :=
  ["summary"; "impact_score"; "tags"; "date"].

(** [{**data, **analysis, "analyzed_at": ..., "engine": ENGINE}] *)
Definition merge (data analysis : Json.dict) (analyzed_at : string)
    (engine : Engine) : Json.dict :=
  Json.update (Json.update data analysis)
    [("analyzed_at", Json.Str analyzed_at);
     ("engine", Json.Str (engine_name engine))].

(** The [try] block that classifies one document and saves the record. *)
Definition classify (env : Env) (filename : string) (data : Json.dict)
    (content : string) (results : list Json.value) (st : State)
    : list Json.value * State :=
  match analyze env content st with
  | (Returned (Json.Obj analysis), st) =>
      (* Validation *)
      let st :=
        if forallb (λ k, Json.has k analysis) required_keys then st
        else logger WARNING "Analysis missing keys" st in
      (* Merge *)
      let full_report := merge data analysis (now env (tick st)) (ENGINE env) in
      (* Save Report *)
      let st := write_record filename full_report (advance st) in
      let st := logger INFO "Insight generated." st in
      (results ++ [Json.Obj full_report], emit (ESleep 4000) st)
  | (Returned _, st) =>
      (* what is no dict raises in the validation or in the merge *)
      (results, logger ERROR "Analysis failed" st)
  | (Raised e, st) => (results, logger ERROR "Analysis failed" st)
  end.

(** The turn of the loop for a document that is loaded. *)
Definition analyse_document (env : Env) (filename : string) (data : Json.dict)
    (results : list Json.value) (st : State)
    : Outcome Exn (list Json.value) * State :=
  (* FILTER 1: Length Check *)
  match screen_length data with
  | Uncaught e => (Raised e, st)
  | TooShort => (Returned results, logger WARNING "Content too short." st)
  | Text content =>
      (* FILTER 2: Junk/Block Page Check *)
      if is_blocked content
      then (Returned results, logger WARNING "Detected Bot Block page." st)
      else
        let st := logger INFO "Analyzing" st in
        let '(results, st) := classify env filename data content results st in
        (Returned results, st)
  end.

(** One turn of the loop; [Raised e] when [e] leaves the loop.  Of the
    exceptions of [json.load] the loop catches [json.JSONDecodeError] only,
    and it appends whatever value the file of a record holds. *)
Definition analyse_file (env : Env) (filename : string) (file : Json.file)
    (results : list Json.value) (st : State)
    : Outcome Exn (list Json.value) * State :=
  match intelligence st !! filename with
  | Some output =>
      (* Idempotency check *)
      match load output with
      | Returned record => (Returned (results ++ [record]), st)
      | Raised JSONDecodeError =>
          (Returned results, logger ERROR "Corrupted output file" st)
      | Raised e => (Raised e, st)
      end
  | None =>
      (* Load Content *)
      match load file with
      | Returned (Json.Obj data) => analyse_document env filename data results st
      | Returned _ =>
          (* [data.get] of what is no dict *)
          (Raised (AttributeError "object has no attribute 'get'"), st)
      | Raised JSONDecodeError =>
          (Returned results, logger ERROR "Corrupted input file" st)
      | Raised e => (Raised e, st)
      end
  end.

Fixpoint analyse_files (env : Env) (files : list (string * Json.file))
    (results : list Json.value) (st : State)
    : Outcome Exn (list Json.value) * State :=
  match files with
  | [] => (Returned results, st)
  | (filename, file) :: files' =>
      match analyse_file env filename file results st with
      | (Returned results', st') => analyse_files env files' results' st'
      | (Raised e, st') => (Raised e, st')
      end
  end.

(** *** The report *)

(** The columns of [pd.DataFrame(results)]: the keys of the records, by
    first appearance. *)
Definition add_column (cols : list string) (k : string) : list string :=
  if bool_decide (k ∈ cols) then cols else cols ++ [k].

Definition dataframe_columns (results : list Json.dict) : list string :=
  fold_left add_column (concat (map Json.keys results)) [].

Definition priority_cols : list string :=
  ["date"; "source"; "impact_score"; "summary"; "tags"; "url"].

(** A cell of the column [impact_score]: a number, or [NaN] when the record
    has no score (or [null]).  A column with a cell of another kind is not
    ordered by the model. *)
Definition score (r : Json.dict) : option (option Z) :=
  match Json.get "impact_score" r with
  | None | Some Json.Null => Some None
  | Some (Json.Num n) => Some (Some n)
  | Some _ => None
  end.

Definition sort_key (r : Json.dict) : option Z := default None (score r).

(** [x] may come before [y] in descending order; [NaN] comes last. *)
Definition before (x y : Json.dict) : Prop :=
  match sort_key x, sort_key y with
  | _, None => True
  | None, Some _ => False
  | Some a, Some b => b ≤ a
  end.

#[global] Instance before_dec x y : Decision (before x y).
Proof. unfold before. destruct (sort_key x), (sort_key y); apply _. Defined.

(** [df.sort_values(by='impact_score', ascending=False)].  The order of rows
    with equal scores is the library's. *)
Definition sort_values (rows : list Json.dict) : list Json.dict :=
  merge_sort before rows.

(** The results as a list of dicts, when each of them is one. *)
Fixpoint records_of (results : list Json.value) : option (list Json.dict) :=
  match results with
  | [] => Some []
  | Json.Obj d :: results' => cons d <$> records_of results'
  | _ :: _ => None
  end.

(** [_generate_csv_report] from [df = pd.DataFrame(results)] on, for results
    that are dicts. *)
Definition report_of_records (records : list Json.dict) (st : State)
    : Outcome Exn unit * State :=
  let df_columns := dataframe_columns records in
  let existing_priority :=
    filter (λ c, c ∈ df_columns) priority_cols in
  let other_cols :=
    filter (λ c, c ∉ existing_priority) df_columns in
  let cols := existing_priority ++ other_cols in
  if bool_decide ("impact_score" ∈ df_columns) then
    if forallb (λ r, bool_decide (is_Some (score r))) records then
      let st := write_report {| columns := cols; rows := sort_values records |} st in
      (Returned (), logger INFO "Global Report updated" st)
    else (Raised (TypeError "impact_score cells that cannot be ordered"), st)
  else
    let st := write_report {| columns := cols; rows := records |} st in
    (Returned (), logger INFO "Global Report updated" st).

Definition _generate_csv_report (env : Env) (results : list Json.value) (st : State)
    : Outcome Exn unit * State :=
  match results with
  | [] => (Returned (), st)
  | _ =>
      match records_of results with
      | Some records => report_of_records records st
      | None =>
          match irregular_frame env results with
          | Returned table =>
              (Returned (), logger INFO "Global Report updated" (write_report table st))
          | Raised e => (Raised e, st)
          end
      end
  end.

(** [str.endswith] *)
Definition endswith (suffix s : string) : bool :=
  String.prefix (String.rev suffix) (String.rev s).

(** [AnalystAgent.run]; [processed] lists [data/processed] in the order of
    [os.listdir], and is [None] when the directory is missing. *)
Definition run (env : Env) (processed : option (list (string * Json.file)))
    (st : State) : Outcome Exn unit * State :=
  match processed with
  | None => (Returned (), logger ERROR "Processed directory not found" st)
  | Some listing =>
      let files := filter (λ f, endswith ".json" f.1) listing in
      match files with
      | [] => (Returned (), logger WARNING "No processed files found." st)
      | _ =>
          let st := logger INFO "Found articles to analyze." st in
          match analyse_files env files [] st with
          | (Returned results, st) => _generate_csv_report env results st
          | (Raised e, st) => (Raised e, st)
          end
      end
  end.

(** The engine's answer is a JSON object: what [classify] saves. *)
Definition is_object (r : Outcome Exn Json.value) : bool :=
  match r with
  | Returned (Json.Obj _) => true
  | _ => false
  end.

(** [AnalystAgent.__init__], over the files [data/intelligence] holds. *)
Definition init (env : Env) (records : gmap string Json.file) : State :=
  {| intelligence := records; report := None; tick := 0; trace := [];
     log := [(INFO, "Analyst Agent initialized in " +:+ engine_name (ENGINE env) +:+ " MODE")] |}.

(** The engine calls of a trace. *)
Definition is_engine_call (e : Event) : bool :=
  match e with EEngineCall _ _ => true | _ => false end.

Definition engine_calls (t : list Event) : list Event := filter is_engine_call t.

End Analyst.

(** ** The contracts as the specification words them *)

Module Stated.

(** The text contains a blocklisted phrase, whatever the case of its
    letters. *)
Definition mentions_block_phrase (content : string) : Prop :=
  ∃ phrase before found after,
    phrase ∈ Analyst.BLOCK_PHRASES ∧
    content = before +:+ found +:+ after ∧
    Py.lower found = phrase.

End Stated.

(** ** Concrete documents, replies and environments *)

Module Fixtures.

Definition article_text : string :=
  "The authority has published its final guidelines on the classification of crypto-assets under the new regulation, applicable from next quarter.".

Definition raw_document : Json.dict :=
  [("source", Json.Str "ESMA"); ("url", Json.Str "https://www.esma.europa.eu/news");
   ("downloaded_at", Json.Str "2025-01-01T10:00:00");
   ("content_clean", Json.Str article_text)].

(** An answer that names a field of the raw document and has no date. *)
Definition partial_answer : Json.dict :=
  [("summary", Json.Str "Guidelines published.");
   ("impact_score", Json.Num 7);
   ("tags", Json.Arr [Json.Str "MiCA"]);
   ("source", Json.Str "as the engine names it")].

(** A page served by an anti-bot wall. *)
Definition blocked_text : string :=
  "Attention Required! Access Denied. Please complete the security check to continue to the requested page of this site.".

Definition blocked_document : Json.dict :=
  [("source", Json.Str "EBA"); ("url", Json.Str "https://www.eba.europa.eu/news");
   ("downloaded_at", Json.Str "2025-01-01T10:00:00");
   ("content_clean", Json.Str blocked_text)].

(** Four classification records with the impact scores 3, 9, 0 and 7. *)
Definition scored (source : string) (impact : Z) : Json.dict :=
  [("source", Json.Str source); ("impact_score", Json.Num impact)].

Definition four_records : list Json.dict :=
  [scored "ESMA" 3; scored "EBA" 9; scored "SEC" 0; scored "ECB" 7].

Definition gemini_env (reply : nat → string → Analyst.EngineReply) : Analyst.Env :=
  {| Analyst.GEMINI_API_KEY := Some "key";
     Analyst.OPENAI_API_KEY := None;
     Analyst.generate_content := reply;
     Analyst.chat_completions := λ _ _, Analyst.EngineFailed "no client";
     Analyst.now := λ _, "2025-01-02T09:00:00";
     Analyst.today := λ _, "2025-01-02";
     Analyst.wait_exponential := λ _ lo _ _, lo;
     Analyst.irregular_frame := λ _, Raised (Analyst.LibraryError "irregular data") |}.

Definition analyst_start : Analyst.State :=
  {| Analyst.intelligence := ∅; Analyst.report := None; Analyst.tick := 0%nat;
     Analyst.trace := []; Analyst.log := [] |}.

(** A feed served with an HTTP error status that still carries an entry. *)
Definition feed_404 : Harvester.Feed :=
  {| Harvester.entries := [ {| Harvester.title := Some "Latest notice" |} ];
     Harvester.status := Some 404 |}.

Definition empty_feed : Harvester.Feed :=
  {| Harvester.entries := []; Harvester.status := Some 200 |}.

Fixpoint exn_text (e : Harvester.Exn) : string :=
  match e with
  | Harvester.ValueError msg => msg
  | Harvester.AttributeError msg => msg
  | Harvester.LibraryError msg => msg
  | Harvester.RetryError last => "RetryError[" +:+ exn_text last +:+ "]"
  | Harvester.KeyboardInterrupt => ""
  end.

Definition harvester_env (parse : nat → string → Harvester.ParseReply)
    (write : nat → Harvester.WriteReply) : Harvester.Env :=
  {| Harvester.feedparser_parse := parse;
     Harvester.launch := λ _, Harvester.Launched;
     Harvester.close := λ _, Harvester.Closed;
     Harvester.page_goto := λ _ _, Harvester.NoResponse;
     Harvester.to_excel := write;
     Harvester.now := λ _, "2025-01-01 10:00";
     Harvester.str_exn := exn_text;
     Harvester.wait_exponential := λ _ lo _ _, lo |}.

Definition rss_row (url : option string) : Registry.Row :=
  {| Registry.source_name := "ESMA"; Registry.target_url := url;
     Registry.extraction_strategy := "RSS"; Registry.notes := None |}.

(** A network whose plain HTTP fetch fails once and works from then on;
    [trafilatura.fetch_url] finds nothing. *)
Definition flaky_get (n : nat) (url : string) : Refiner.HttpReply :=
  if (n <? 2)%nat then Refiner.ConnectionFailed "connection reset"
  else Refiner.Response 200 article_text.

Definition refiner_env (get : nat → string → Refiner.HttpReply) : Refiner.Env :=
  {| Refiner.md5_hexdigest := λ url, "md5-of-" +:+ url;
     Refiner.urlparse := λ url,
       if String.prefix "https://" url then Some ("https", "host") else Some ("", "");
     Refiner.fetch_url := λ _ _, Refiner.FetchedNothing;
     Refiner.requests_get := get;
     Refiner.extract := λ html, Returned (Some html);
     Refiner.now := λ _, "2025-01-01T10:00:00";
     Refiner.REFINER_DELAY := Refiner.Unset;
     Refiner.nanosleep := λ _, None |}.


Definition full_answer : Json.dict :=
  [("summary", Json.Str "Guidelines published.");
   ("impact_score", Json.Num 7);
   ("tags", Json.Arr [Json.Str "MiCA"]);
   ("date", Json.Str "2025-01-01")].

(** An engine that is unavailable for its first three calls. *)
Definition flaky_engine (n : nat) (text : string) : Analyst.EngineReply :=
  if (n <? 3)%nat then Analyst.EngineFailed "503 Service Unavailable"
  else Analyst.EngineAnswered (Json.Obj full_answer).

(** A registry of 25 rows in which every fifth row, from the first on, has
    no target URL. *)
Definition api_row (url : option string) : Registry.Row :=
  {| Registry.source_name := "EBA"; Registry.target_url := url;
     Registry.extraction_strategy := "api"; Registry.notes := None |}.

Definition gap_block : list Registry.Row :=
  [api_row None; api_row (Some "https://a.example"); api_row (Some "https://b.example");
   api_row (Some "https://c.example"); api_row (Some "https://d.example")].

Definition gappy_registry : list Registry.Row :=
  gap_block ++ gap_block ++ gap_block ++ gap_block ++ gap_block.

(** A feed read that the operator interrupts at its third call. *)
Definition interrupted_parse (n : nat) (url : string) : Harvester.ParseReply :=
  if (n <? 4)%nat then Harvester.Parsed feed_404 else Harvester.ParseInterrupted.

Definition rss_registry : list Registry.Row :=
  [rss_row (Some "https://one.example/feed"); rss_row (Some "https://two.example/feed");
   rss_row (Some "https://three.example/feed"); rss_row (Some "https://four.example/feed")].

End Fixtures.

(** ** Whole words in a status note *)

Module Notes.

(** The tokens the Refiner looks for. *)
Definition success_tokens : list string := ["success"; "rss ok"; "scrape ok"].

(** The last character of a text, if it has one. *)
Fixpoint last_char (s : string) : option ascii :=
  match s with
  | EmptyString => None
  | String c EmptyString => Some c
  | String _ s' => last_char s'
  end.

(** The text ends, or begins, with a word character. *)
Definition ends_in_word (s : string) : bool :=
  match last_char s with Some c => Re.is_word c | None => false end.

Definition begins_with_word (s : string) : bool :=
  match s with String c _ => Re.is_word c | EmptyString => false end.

(** The note holds one of the tokens, in whatever case, as a whole word:
    what stands before it does not end with a word character and what stands
    after it does not begin with one. *)
Definition has_success_word (status : string) : Prop :=
  ∃ before token after,
    status = before +:+ token +:+ after ∧
    Py.lower token ∈ success_tokens ∧
    ends_in_word before = false ∧
    begins_with_word after = false.

(** The character that stands before the position reached after [s], when
    [prev] stood before [s]. *)
Definition after_text (prev : option ascii) (s : string) : option ascii :=
  match last_char s with Some c => Some c | None => prev end.

Definition word_before (prev : option ascii) : bool :=
  match prev with Some c => Re.is_word c | None => false end.

End Notes.

(** ** What the stores hold *)

Module Stored.

(** A file of [data/processed] as the Refiner writes it: the four fields of
    a raw document, under the content address of its URL, with a text of 50
    characters or more. *)
Definition raw_document (env : Refiner.Env) (name : string) (f : Json.file) : Prop :=
  ∃ source url downloaded_at content,
    f = Json.Object
          [("source", Json.Str source); ("url", Json.Str url);
           ("downloaded_at", Json.Str downloaded_at);
           ("content_clean", Json.Str content)] ∧
    name = Refiner.json_path env url ∧
    (50 <= String.length content)%nat.

(** Two rows of the sheet that differ in their notes at most. *)
Definition same_but_notes (r r' : Registry.Row) : Prop :=
  Registry.source_name r = Registry.source_name r' ∧
  Registry.target_url r = Registry.target_url r' ∧
  Registry.extraction_strategy r = Registry.extraction_strategy r'.

(** The registry in memory and the registry on disk differ from the rows
    loaded in their notes at most. *)
Definition notes_only (rows df : list Registry.Row) (st : Harvester.State) : Prop :=
  Forall2 same_but_notes rows df ∧
  ∃ d, Harvester.disk st = Some d ∧ Forall2 same_but_notes rows d.

(** How many times the browser was launched. *)
Fixpoint launches (t : list Harvester.Event) : nat :=
  match t with
  | [] => 0
  | Harvester.EStartBrowser :: t' => S (launches t')
  | _ :: t' => launches t'
  end.

(** From [st] to [st'] the agent has neither started nor stopped a
    browser. *)
Definition same_session (st st' : Harvester.State) : Prop :=
  Harvester.browser st' = Harvester.browser st ∧
  Harvester.context st' = Harvester.context st ∧
  launches (Harvester.trace st') = launches (Harvester.trace st).

(** Events of the registry itself: a row updated, the sheet saved. *)
Definition bookkeeping (e : Harvester.Event) : Prop :=
  match e with
  | Harvester.EUpdateRow _ | Harvester.ESaveData _ => True
  | _ => False
  end.

(** The strategy names neither a feed nor a page to scrape. *)
Definition never_fetched (row : Registry.Row) : Prop :=
  Py.contains "rss" (Py.lower (Registry.extraction_strategy row)) = false ∧
  Py.contains "scrape" (Py.lower (Registry.extraction_strategy row)) = false.

(** The text is on one line. *)
Definition one_line (s : string) : Prop :=
  Forall (λ c, c ≠ "010"%char ∧ c ≠ "013"%char) (list_ascii_of_string s).

(** The record is a file of [data/intelligence]. *)
Definition persisted (records : gmap string Json.file) (r : Json.dict) : Prop :=
  ∃ name, records !! name = Some (Json.Object r).

(** Every file of [data/intelligence] that parses holds a JSON object, as
    the files do that the analyst writes. *)
Definition object_records (records : gmap string Json.file) : Prop :=
  ∀ name v, records !! name = Some (Json.Parsed v) → ∃ r, v = Json.Obj r.

End Stored.

(** ** More concrete environments *)

Module Samples.

(** A feed that is empty at the first read and has an entry afterwards. *)
Definition late_feed (n : nat) (url : string) : Harvester.ParseReply :=
  match n with
  | O => Harvester.Parsed Fixtures.empty_feed
  | _ => Harvester.Parsed Fixtures.feed_404
  end.

(** A site that lets the navigations time out at first. *)
Definition slow_site (n : nat) (url : string) : Harvester.PageReply :=
  if (n <? 2)%nat then Harvester.TimedOut else Harvester.Loaded "Press releases".

Definition scraping_env (page : nat → string → Harvester.PageReply) : Harvester.Env :=
  {| Harvester.feedparser_parse := λ _ _, Harvester.Parsed Fixtures.empty_feed;
     Harvester.launch := λ _, Harvester.Launched;
     Harvester.close := λ _, Harvester.Closed;
     Harvester.page_goto := page;
     Harvester.to_excel := λ _, Harvester.Written;
     Harvester.now := λ _, "2025-01-01 10:00";
     Harvester.str_exn := Fixtures.exn_text;
     Harvester.wait_exponential := λ _ lo _ _, lo |}.

(** The agent once its browser is running. *)
Definition browsing : Harvester.State :=
  (Harvester.start_browser (scraping_env slow_site) (Harvester.init None)).2.

(** A page to scrape. *)
Definition scrape_row (url : string) : Registry.Row :=
  {| Registry.source_name := "DNB"; Registry.target_url := Some url;
     Registry.extraction_strategy := "Web Scrape"; Registry.notes := None |}.

(** A registry with a feed and a page to scrape. *)
Definition mixed_registry : list Registry.Row :=
  [Fixtures.rss_row (Some "https://one.example/feed");
   scrape_row "https://www.dnb.nl/en/news/"].

(** A network that serves every feed and every page, with a browser that
    starts and closes as given. *)
Definition browser_env (launch : nat → Harvester.LaunchReply)
    (close : nat → Harvester.CloseReply) : Harvester.Env :=
  {| Harvester.feedparser_parse := λ _ _, Harvester.Parsed Fixtures.feed_404;
     Harvester.launch := launch;
     Harvester.close := close;
     Harvester.page_goto := λ _ _, Harvester.Loaded "Press releases";
     Harvester.to_excel := λ _, Harvester.Written;
     Harvester.now := λ _, "2025-01-01 10:00";
     Harvester.str_exn := Fixtures.exn_text;
     Harvester.wait_exponential := λ _ lo _ _, lo |}.

(** Twelve feeds. *)
Definition long_registry : list Registry.Row :=
  (λ url, Fixtures.rss_row (Some url)) <$>
    ["https://a.example/feed"; "https://b.example/feed"; "https://c.example/feed";
     "https://d.example/feed"; "https://e.example/feed"; "https://f.example/feed";
     "https://g.example/feed"; "https://h.example/feed"; "https://i.example/feed";
     "https://j.example/feed"; "https://k.example/feed"; "https://l.example/feed"].

(** A feed read that the operator interrupts when the ninth feed is read. *)
Definition interrupted_late (n : nat) (url : string) : Harvester.ParseReply :=
  if (n <? 18)%nat then Harvester.Parsed Fixtures.feed_404
  else Harvester.ParseInterrupted.

(** A document with a text of 40 characters. *)
Definition short_document : Json.dict :=
  [("source", Json.Str "EBA"); ("url", Json.Str "https://www.eba.europa.eu/news");
   ("downloaded_at", Json.Str "2025-01-01T10:00:00");
   ("content_clean", Json.Str "Forty characters of text, not any more..")].

(** An engine that is unavailable for its first two calls. *)
Definition slow_engine (n : nat) (text : string) : Analyst.EngineReply :=
  if (n <? 2)%nat then Analyst.EngineFailed "503 Service Unavailable"
  else Analyst.EngineAnswered (Json.Obj Fixtures.full_answer).

(** No credentials at all. *)
Definition mock_env : Analyst.Env :=
  {| Analyst.GEMINI_API_KEY := None;
     Analyst.OPENAI_API_KEY := Some "";
     Analyst.generate_content := λ _ _, Analyst.EngineFailed "no client";
     Analyst.chat_completions := λ _ _, Analyst.EngineFailed "no client";
     Analyst.now := λ _, "2025-01-02T09:00:00";
     Analyst.today := λ _, "2025-01-02";
     Analyst.wait_exponential := λ _ lo _ _, lo;
     Analyst.irregular_frame := λ _, Raised (Analyst.LibraryError "irregular data") |}.

End Samples.

(** ** The patch of the registry ([update_urls.py]) *)

Module UpdateUrls.

Import Registry.

(** [updates], in the order of the dict. *)
Definition updates : list (string * string) :=
  [("European Parliament (Legislative Observatory)",
    "https://www.europarl.europa.eu/rss/doc/top-stories/en.xml");
   ("ECB (Banking Supervision)",
    "https://www.bankingsupervision.europa.eu/home/rss/html/rss_press.en.xml");
   ("BaFin (Germany)",
    "https://www.bafin.de/SiteGlobals/Functions/RSS/EN/Feed/RSS_Newsfeed_Expert_Articles.xml");
   ("CNMV (Spain)", "https://www.cnmv.es/portal/RSS/RSS.aspx?id=1");
   ("DNB (Netherlands)", "https://www.dnb.nl/en/news/");
   ("EBA (News & Press)", "https://www.eba.europa.eu/rss.xml")].

Definition set_url (u : string) (r : Row) : Row :=
  {| source_name := source_name r; target_url := Some u;
     extraction_strategy := extraction_strategy r; notes := notes r |}.

Definition set_strategy (s : string) (r : Row) : Row :=
  {| source_name := source_name r; target_url := target_url r;
     extraction_strategy := s; notes := notes r |}.

(** [df.loc[mask, column] = value] *)
Definition loc_set (mask : Row → bool) (set : Row → Row) (df : list Row) : list Row :=
  map (λ r, if mask r then set r else r) df.

(** One turn of the loop over [updates.items()]. *)
Definition apply_update (df : list Row) (update : string * string) : list Row :=
  let '(source, new_url) := update in
  let mask := λ r, bool_decide (source_name r = source) in
  if existsb mask df then
    let df := loc_set mask (set_url new_url) df in
    if bool_decide (source = "DNB (Netherlands)")
    then loc_set mask (set_strategy "Web Scrape") df
    else df
  else df.

(** The loop of the script, over the sheet as it was read. *)
Definition patch_with (updates : list (string * string)) (df : list Row) : list Row :=
  fold_left apply_update updates df.

Definition patch : list Row → list Row := patch_with updates.

(** The script: it leaves when the sheet is missing, and writes the patched
    sheet back otherwise. *)
Definition script (sheet : option (list Row)) : option (list Row) :=
  match sheet with
  | None => None
  | Some df => Some (patch df)
  end.

(** What the loop does to one row. *)
Definition update_row (r : Row) (update : string * string) : Row :=
  let '(source, new_url) := update in
  if bool_decide (source_name r = source) then
    let r := set_url new_url r in
    if bool_decide (source = "DNB (Netherlands)")
    then set_strategy "Web Scrape" r
    else r
  else r.

Definition patch_row (r : Row) : Row := fold_left update_row updates r.

End UpdateUrls.

(** * Properties *)

(** ** Strings and dictionaries *)

Section StringFacts.

Lemma append_nil (b : string) : "" +:+ b = b.
Proof. reflexivity. Qed.

Lemma append_cons (x : ascii) (a b : string) :
  String x a +:+ b = String x (a +:+ b).
Proof. reflexivity. Qed.

Lemma append_assoc (a b c : string) : (a +:+ b) +:+ c = a +:+ (b +:+ c).
Proof.
  induction a as [|x a IH]; [reflexivity|].
  rewrite !append_cons. now rewrite IH.
Qed.

Lemma lower_append (a b : string) :
  Py.lower (a +:+ b) = Py.lower a +:+ Py.lower b.
Proof.
  induction a as [|x a IH]; [reflexivity|].
  rewrite append_cons. simpl. rewrite append_cons. now rewrite IH.
Qed.

Lemma prefix_append (p rest : string) : String.prefix p (p +:+ rest) = true.
Proof.
  induction p as [|x p IH].
  - rewrite append_nil. now destruct rest.
  - rewrite append_cons. simpl.
    destruct (Ascii.ascii_dec x x); [assumption | contradiction].
Qed.

Lemma contains_unfold (p s : string) :
  Py.contains p s
  = String.prefix p s ||
    match s with EmptyString => false | String _ s' => Py.contains p s' end.
Proof. destruct s; reflexivity. Qed.

Lemma contains_append (p a b : string) : Py.contains p (a +:+ p +:+ b) = true.
Proof.
  induction a as [|x a IH].
  - rewrite append_nil, contains_unfold, prefix_append. reflexivity.
  - rewrite append_cons, contains_unfold, IH. apply orb_true_r.
Qed.

Lemma prefix_split (p s : string) :
  String.prefix p s = true → ∃ b, s = p +:+ b.
Proof.
  revert s. induction p as [|y p IH]; intros s H.
  - exists s. reflexivity.
  - destruct s as [|x s]; simpl in H; [discriminate|].
    destruct (Ascii.ascii_dec y x) as [->|]; [|discriminate].
    destruct (IH s H) as [b ->]. exists b. reflexivity.
Qed.

Lemma contains_split (p s : string) :
  Py.contains p s = true → ∃ a b, s = a +:+ p +:+ b.
Proof.
  induction s as [|x s IH]; rewrite contains_unfold; intros H.
  - rewrite orb_false_r in H. apply prefix_split in H as [b Hb].
    exists "", b. assumption.
  - apply orb_true_iff in H as [H|H].
    + apply prefix_split in H as [b Hb]. exists "", b. assumption.
    + destruct (IH H) as (a & b & ->). exists (String x a), b. reflexivity.
Qed.

End StringFacts.

Section DictFacts.

Lemma get_set_eq k v d : Json.get k (Json.set k v d) = Some v.
Proof.
  induction d as [|[k' v'] d IH]; simpl.
  - now rewrite decide_True.
  - destruct (decide (k = k')); simpl.
    + now rewrite decide_True.
    + now rewrite decide_False.
Qed.

Lemma get_set_ne k k' v d : k ≠ k' → Json.get k (Json.set k' v d) = Json.get k d.
Proof.
  intros Hne. induction d as [|[k0 v0] d IH]; simpl.
  - now rewrite decide_False.
  - destruct (decide (k' = k0)) as [->|]; simpl.
    + now rewrite !decide_False.
    + destruct (decide (k = k0)); [reflexivity | apply IH].
Qed.

(** In [{**d1, **d2}] the value of a key is that of [d2] when [d2] has the
    key, and that of [d1] otherwise. *)
Lemma get_update k d1 d2 :
  Json.get k (Json.update d1 d2)
  = match Json.get k (rev d2) with
    | Some v => Some v
    | None => Json.get k d1
    end.
Proof.
  unfold Json.update.
  induction d2 as [|[k' v'] l IH] using rev_ind; [reflexivity|].
  rewrite fold_left_app, rev_unit. simpl.
  destruct (decide (k = k')) as [->|Hne].
  - apply get_set_eq.
  - rewrite get_set_ne by assumption. apply IH.
Qed.

Lemma get_rev_None k d : Json.get k d = None → Json.get k (rev d) = None.
Proof.
  induction d as [|[k' v'] d IH]; simpl; [reflexivity|].
  destruct (decide (k = k')); [discriminate|]. intros H.
  specialize (IH H). clear H.
  induction (rev d) as [|[k0 v0] l IHl]; simpl in *.
  - now rewrite decide_False.
  - destruct (decide (k = k0)); [discriminate | auto].
Qed.

Lemma get_rev_Some k d : is_Some (Json.get k d) → is_Some (Json.get k (rev d)).
Proof.
  intros H.
  destruct (Json.get k (rev d)) eqn:E; [eauto|].
  apply get_rev_None in E. rewrite rev_involutive in E.
  rewrite E in H. destruct H; discriminate.
Qed.

End DictFacts.

Section DictUnique.

Lemma get_app k d1 d2 :
  Json.get k (d1 ++ d2)
  = match Json.get k d1 with Some v => Some v | None => Json.get k d2 end.
Proof.
  induction d1 as [|[k' v'] d1 IH]; simpl; [reflexivity|].
  destruct (decide (k = k')); [reflexivity | apply IH].
Qed.

Lemma get_None_keys k d : k ∉ Json.keys d → Json.get k d = None.
Proof.
  induction d as [|[k' v'] d IH]; simpl; [reflexivity|].
  intros H. apply not_elem_of_cons in H as [Hne H].
  rewrite decide_False by assumption. auto.
Qed.

(** A dictionary holds each key once, so that reading it from either end
    finds the same value. *)
Lemma get_rev k d : NoDup (Json.keys d) → Json.get k (rev d) = Json.get k d.
Proof.
  induction d as [|[k' v'] d IH]; simpl; [reflexivity|].
  intros Hnd. apply NoDup_cons in Hnd as [Hk Hnd].
  rewrite get_app, IH by assumption. simpl.
  destruct (decide (k = k')) as [->|]; [|now destruct (Json.get k d)].
  now rewrite get_None_keys.
Qed.

Lemma get_merge_engine k v data analysis ts engine :
  NoDup (Json.keys analysis) →
  Json.get k analysis = Some v → k ≠ "analyzed_at" → k ≠ "engine" →
  Json.get k (Analyst.merge data analysis ts engine) = Some v.
Proof.
  intros Hnd Hk H1 H2. unfold Analyst.merge.
  rewrite get_update. simpl. rewrite !decide_False by assumption.
  rewrite get_update, get_rev, Hk by assumption. reflexivity.
Qed.

Lemma get_merge_raw k data analysis ts engine :
  Json.get k analysis = None → k ≠ "analyzed_at" → k ≠ "engine" →
  Json.get k (Analyst.merge data analysis ts engine) = Json.get k data.
Proof.
  intros Hk H1 H2. unfold Analyst.merge.
  rewrite get_update. simpl. rewrite !decide_False by assumption.
  rewrite get_update, get_rev_None by assumption. reflexivity.
Qed.

Lemma get_merge_analyzed_at data analysis ts engine :
  Json.get "analyzed_at" (Analyst.merge data analysis ts engine) = Some (Json.Str ts).
Proof. unfold Analyst.merge. rewrite get_update. reflexivity. Qed.

Lemma get_merge_engine_name data analysis ts engine :
  Json.get "engine" (Analyst.merge data analysis ts engine)
  = Some (Json.Str (Analyst.engine_name engine)).
Proof. unfold Analyst.merge. rewrite get_update. reflexivity. Qed.

End DictUnique.

(** ** The Analyst: classification of one document *)

Section AnalystClassify.

Context (env : Analyst.Env).

(** What [classify] does with an answer that is a JSON object. *)
Lemma classify_object filename data content results st analysis st1 :
  Analyst.analyze env content st = (Returned (Json.Obj analysis), st1) →
  let warned :=
    if forallb (λ k, Json.has k analysis) Analyst.required_keys then st1
    else Analyst.logger Analyst.WARNING "Analysis missing keys" st1 in
  let record :=
    Analyst.merge data analysis (Analyst.now env (Analyst.tick st1)) (Analyst.ENGINE env) in
  Analyst.classify env filename data content results st
  = (results ++ [Json.Obj record],
     Analyst.emit (Analyst.ESleep 4000)
       (Analyst.logger Analyst.INFO "Insight generated."
          (Analyst.write_record filename record (Analyst.advance warned)))).
Proof.
  intros H. unfold Analyst.classify. rewrite H.
  destruct (forallb _ _); reflexivity.
Qed.

(** C10: the persisted record is the raw document overlaid with the
    engine's answer: for every key of the answer (other than [analyzed_at]
    and [engine]) the record holds the engine's value, also when the raw
    document has that key ([source], [url], [downloaded_at],
    [content_clean]); the keys the answer lacks keep the raw document's
    value; [analyzed_at] and [engine] are always the Analyst's own. *)
Theorem merged_record_prefers_engine filename data content results st analysis st1 :
  Analyst.analyze env content st = (Returned (Json.Obj analysis), st1) →
  NoDup (Json.keys analysis) →
  ∃ record st',
    Analyst.classify env filename data content results st
      = (results ++ [Json.Obj record], st') ∧
    Analyst.intelligence st' !! filename = Some (Json.Object record) ∧
    (∀ k v, Json.get k analysis = Some v → k ≠ "analyzed_at" → k ≠ "engine" →
            Json.get k record = Some v) ∧
    (∀ k, Json.get k analysis = None → k ≠ "analyzed_at" → k ≠ "engine" →
          Json.get k record = Json.get k data) ∧
    Json.get "analyzed_at" record
      = Some (Json.Str (Analyst.now env (Analyst.tick st1))) ∧
    Json.get "engine" record
      = Some (Json.Str (Analyst.engine_name (Analyst.ENGINE env))).
Proof.
  intros H Hnd. eexists _, _. split; [apply classify_object, H|].
  split; [simpl; apply lookup_insert_eq|].
  repeat split.
  - intros k v Hk H1 H2. now apply get_merge_engine.
  - intros k Hk H1 H2. now apply get_merge_raw.
  - apply get_merge_analyzed_at.
  - apply get_merge_engine_name.
Qed.

End AnalystClassify.

Lemma merged_record_prefers_engine_witness :
  let env := Fixtures.gemini_env (λ _ _, Analyst.EngineAnswered (Json.Obj Fixtures.partial_answer)) in
  ∃ record st',
    Analyst.classify env "a.json" Fixtures.raw_document Fixtures.article_text []
      Fixtures.analyst_start = ([] ++ [Json.Obj record], st') ∧
    Analyst.intelligence st' !! "a.json" = Some (Json.Object record) ∧
    Json.get "source" record = Some (Json.Str "as the engine names it") ∧
    Json.get "url" record = Some (Json.Str "https://www.esma.europa.eu/news").
Proof.
  intros env.
  destruct (merged_record_prefers_engine env "a.json" Fixtures.raw_document
              Fixtures.article_text [] Fixtures.analyst_start Fixtures.partial_answer
              (Analyst.emit (Analyst.EEngineCall Analyst.GEMINI Fixtures.article_text)
                 (Analyst.advance Fixtures.analyst_start)))
    as (record & st' & Hc & Hs & He & Hr & _).
  - reflexivity.
  - compute_done.
  - exists record, st'. repeat split; try assumption.
    + apply He; [reflexivity | discriminate | discriminate].
    + rewrite Hr; [reflexivity | reflexivity | discriminate | discriminate].
Defined.

(** ** The Analyst: the loop over the documents *)

Section AnalystLoop.

Context (env : Analyst.Env).

Lemma mentions_block_phrase_blocked content :
  Stated.mentions_block_phrase content → Analyst.is_blocked content = true.
Proof.
  intros (phrase & before & found & after & Hin & -> & Hlow).
  unfold Analyst.is_blocked. apply existsb_exists.
  exists phrase. split; [now apply list_elem_of_In|].
  rewrite !lower_append, Hlow. apply contains_append.
Qed.

(** The required keys are not those the Analyst adds. *)
Lemma required_key_of_engine k :
  k ∈ Analyst.required_keys → k ≠ "analyzed_at" ∧ k ≠ "engine".
Proof.
  unfold Analyst.required_keys. rewrite !elem_of_cons, elem_of_nil.
  intros [->|[->|[->|[->|[]]]]]; split; discriminate.
Qed.

(** A document without a record goes through the filters. *)
Lemma analyse_file_new filename data results st :
  Analyst.intelligence st !! filename = None →
  Analyst.analyse_file env filename (Json.Object data) results st
  = Analyst.analyse_document env filename data results st.
Proof. intros H. unfold Analyst.analyse_file. now rewrite H. Qed.

(** C5: a document whose text contains a blocklisted phrase, in whatever
    case, goes through its turn of the loop without any effect on the
    world: no engine call, no record written, the clock untouched; a short
    text and a long one alike.  The turn returns, unless a record of the
    document exists and cannot be read. *)
Theorem blocked_document_never_classified filename data content results st :
  Json.get "content_clean" data = Some (Json.Str content) →
  Stated.mentions_block_phrase content →
  ∃ outcome st',
    Analyst.analyse_file env filename (Json.Object data) results st = (outcome, st') ∧
    match Analyst.intelligence st !! filename with
    | Some (Json.Unreadable msg) => outcome = Raised (Analyst.ReadError msg)
    | _ => ∃ results', outcome = Returned results'
    end ∧
    Analyst.trace st' = Analyst.trace st ∧
    Analyst.engine_calls (Analyst.trace st') = Analyst.engine_calls (Analyst.trace st) ∧
    Analyst.intelligence st' = Analyst.intelligence st ∧
    Analyst.tick st' = Analyst.tick st.
Proof.
  intros Hget Hblock. apply mentions_block_phrase_blocked in Hblock.
  destruct (Analyst.intelligence st !! filename) as [[msg| |record]|] eqn:Hfile.
  - unfold Analyst.analyse_file. rewrite Hfile. eexists _, _. repeat split.
  - unfold Analyst.analyse_file. rewrite Hfile. eexists _, _. repeat split. eauto.
  - unfold Analyst.analyse_file. rewrite Hfile. eexists _, _. repeat split. eauto.
  - rewrite (analyse_file_new filename data results st Hfile).
    unfold Analyst.analyse_document, Analyst.screen_length. rewrite Hget. simpl.
    destruct (Py.falsy content || _).
    + eexists _, _. repeat split. eauto.
    + rewrite Hblock. eexists _, _. repeat split. eauto.
Qed.

(** C9: when the engine answers with an object that lacks a required field,
    the Analyst logs a warning, saves the merged record all the same and
    goes on with the rest of the batch.  The record saved holds every field
    of the answer with the engine's value, next to the fields of the raw
    document that the answer does not name; a required field that neither
    of them has is missing in the record too. *)
Theorem partial_answer_is_persisted filename data content analysis rest results st st1 :
  Analyst.intelligence st !! filename = None →
  Analyst.screen_length data = Analyst.Text content →
  Analyst.is_blocked content = false →
  Analyst.analyze env content (Analyst.logger Analyst.INFO "Analyzing" st)
    = (Returned (Json.Obj analysis), st1) →
  NoDup (Json.keys analysis) →
  (∃ k, k ∈ Analyst.required_keys ∧ Json.has k analysis = false) →
  ∃ record st',
    Analyst.analyse_file env filename (Json.Object data) results st
      = (Returned (results ++ [Json.Obj record]), st') ∧
    Analyst.intelligence st' !! filename = Some (Json.Object record) ∧
    (∀ k v, Json.get k analysis = Some v → k ≠ "analyzed_at" → k ≠ "engine" →
            Json.get k record = Some v) ∧
    (∀ k, Json.get k analysis = None → k ≠ "analyzed_at" → k ≠ "engine" →
          Json.get k record = Json.get k data) ∧
    (∀ k, k ∈ Analyst.required_keys → Json.has k analysis = false →
          Json.get k record = Json.get k data) ∧
    (Analyst.WARNING, "Analysis missing keys") ∈ Analyst.log st' ∧
    Analyst.analyse_files env ((filename, Json.Object data) :: rest) results st
      = Analyst.analyse_files env rest (results ++ [Json.Obj record]) st'.
Proof.
  intros Hnew Hlen Hok Han Hnd (k & Hk & Hmiss).
  assert (Hall : forallb (λ k, Json.has k analysis) Analyst.required_keys = false).
  { apply not_true_is_false. intros Hall.
    rewrite forallb_forall in Hall.
    apply list_elem_of_In in Hk. specialize (Hall k Hk). congruence. }
  set (record := Analyst.merge data analysis (Analyst.now env (Analyst.tick st1))
                  (Analyst.ENGINE env)).
  set (st' := Analyst.emit (Analyst.ESleep 4000)
                (Analyst.logger Analyst.INFO "Insight generated."
                   (Analyst.write_record filename record
                      (Analyst.advance
                         (Analyst.logger Analyst.WARNING "Analysis missing keys" st1))))).
  assert (Hfile :
    Analyst.analyse_file env filename (Json.Object data) results st
    = (Returned (results ++ [Json.Obj record]), st')).
  { rewrite (analyse_file_new filename data results st Hnew).
    unfold Analyst.analyse_document. rewrite Hlen, Hok.
    rewrite (classify_object env filename data content results _ analysis st1 Han).
    rewrite Hall. reflexivity. }
  exists record, st'. split; [exact Hfile|].
  split; [simpl; apply lookup_insert_eq|].
  split; [intros k' v Hk' H1 H2; now apply get_merge_engine|].
  split; [intros k' Hk' H1 H2; now apply get_merge_raw|].
  split.
  { intros k' Hreq Hno. apply get_merge_raw.
    - unfold Json.has in Hno. now destruct (Json.get k' analysis).
    - now apply required_key_of_engine.
    - now apply required_key_of_engine. }
  split.
  - simpl. apply list_elem_of_further, list_elem_of_here.
  - simpl Analyst.analyse_files. rewrite Hfile. reflexivity.
Qed.

End AnalystLoop.

Lemma blocked_document_never_classified_witness :
  let env := Fixtures.gemini_env (λ _ _, Analyst.EngineAnswered (Json.Obj Fixtures.partial_answer)) in
  Stated.mentions_block_phrase Fixtures.blocked_text ∧
  ∃ results' st',
    Analyst.analyse_file env "b.json" (Json.Object Fixtures.blocked_document) []
      Fixtures.analyst_start = (Returned results', st') ∧
    Analyst.trace st' = [] ∧
    Analyst.intelligence st' = ∅.
Proof.
  intros env.
  assert (H : Stated.mentions_block_phrase Fixtures.blocked_text).
  { exists "access denied", "Attention Required! ", "Access Denied",
      ". Please complete the security check to continue to the requested page of this site.".
    split; [compute_done|]. split; reflexivity. }
  split; [exact H|].
  destruct (blocked_document_never_classified env "b.json" Fixtures.blocked_document
              Fixtures.blocked_text [] Fixtures.analyst_start eq_refl H)
    as (outcome & st' & Hrun & [results' ->] & Htrace & _ & Hstore & _).
  exists results', st'. auto.
Defined.

Lemma partial_answer_is_persisted_witness :
  let env := Fixtures.gemini_env (λ _ _, Analyst.EngineAnswered (Json.Obj Fixtures.partial_answer)) in
  Json.has "date" Fixtures.partial_answer = false ∧
  ∃ record st',
    Analyst.analyse_files env [("a.json", Json.Object Fixtures.raw_document)] []
      Fixtures.analyst_start = (Returned [Json.Obj record], st') ∧
    Analyst.intelligence st' !! "a.json" = Some (Json.Object record) ∧
    Json.get "summary" record = Some (Json.Str "Guidelines published.") ∧
    Json.get "impact_score" record = Some (Json.Num 7) ∧
    Json.get "url" record = Some (Json.Str "https://www.esma.europa.eu/news") ∧
    Json.get "date" record = None ∧
    (Analyst.WARNING, "Analysis missing keys") ∈ Analyst.log st'.
Proof.
  intros env. split; [reflexivity|].
  destruct (partial_answer_is_persisted env "a.json" Fixtures.raw_document
              Fixtures.article_text Fixtures.partial_answer [] [] Fixtures.analyst_start
              (Analyst.emit (Analyst.EEngineCall Analyst.GEMINI Fixtures.article_text)
                 (Analyst.advance (Analyst.logger Analyst.INFO "Analyzing" Fixtures.analyst_start))))
    as (record & st' & Hfile & Hstore & Hengine & Hraw & Hmissing & Hlog & Hrest).
  - reflexivity.
  - reflexivity.
  - reflexivity.
  - reflexivity.
  - compute_done.
  - exists "date". split; [compute_done | reflexivity].
  - exists record, st'. split; [exact Hrest|]. split; [exact Hstore|].
    split; [apply Hengine; [reflexivity | discriminate..]|].
    split; [apply Hengine; [reflexivity | discriminate..]|].
    split; [rewrite Hraw; [reflexivity | reflexivity | discriminate..]|].
    split; [rewrite Hmissing; [reflexivity | compute_done | reflexivity]|].
    exact Hlog.
Defined.

(** ** The report *)

Section ReportOrder.

#[local] Instance before_total : Total Analyst.before.
Proof.
  intros x y. unfold Analyst.before.
  destruct (Analyst.sort_key x), (Analyst.sort_key y); auto; lia.
Qed.

#[local] Instance before_transitive : Transitive Analyst.before.
Proof.
  intros x y z. unfold Analyst.before.
  destruct (Analyst.sort_key x), (Analyst.sort_key y), (Analyst.sort_key z);
    auto; try tauto; lia.
Qed.

Lemma StronglySorted_lookup {A} (R : relation A) (l : list A) i j x y :
  StronglySorted R l → l !! i = Some x → l !! j = Some y → (i < j)%nat → R x y.
Proof.
  intros Hs. revert i j. induction Hs as [|a l Hs IH Hall]; intros i j Hi Hj Hlt.
  - discriminate.
  - destruct j as [|j]; [lia|]. destruct i as [|i]; simpl in *.
    + injection Hi as <-. rewrite Forall_forall in Hall.
      apply Hall. eapply list_elem_of_lookup_2, Hj.
    + apply (IH i j); [assumption.. | lia].
Qed.

Lemma sort_key_score r n :
  Json.get "impact_score" r = Some (Json.Num n) → Analyst.sort_key r = Some n.
Proof. unfold Analyst.sort_key, Analyst.score. now intros ->. Qed.

(** In a strongly sorted table a higher score stands before a lower one. *)
Lemma sorted_rows_descending (rows : list Json.dict) i j r1 r2 a b :
  StronglySorted Analyst.before rows →
  rows !! i = Some r1 → rows !! j = Some r2 →
  Json.get "impact_score" r1 = Some (Json.Num a) →
  Json.get "impact_score" r2 = Some (Json.Num b) →
  b < a → (i < j)%nat.
Proof.
  intros Hs Hi Hj Ha Hb Hlt.
  apply sort_key_score in Ha, Hb.
  destruct (decide (i < j)%nat) as [|Hge]; [assumption|exfalso].
  destruct (decide (i = j)) as [->|Hne].
  - rewrite Hi in Hj. injection Hj as ->. rewrite Ha in Hb. injection Hb. lia.
  - assert (H : Analyst.before r2 r1).
    { apply (StronglySorted_lookup _ rows j i); [assumption..|lia]. }
    unfold Analyst.before in H. rewrite Ha, Hb in H. lia.
Qed.

Lemma elem_of_add_columns k l acc :
  k ∈ fold_left Analyst.add_column l acc ↔ k ∈ acc ∨ k ∈ l.
Proof.
  revert acc. induction l as [|x l IH]; intros acc; simpl.
  - rewrite elem_of_nil. tauto.
  - rewrite IH. unfold Analyst.add_column. rewrite elem_of_cons.
    case_bool_decide as Hx.
    + split; [tauto|]. intros [?|[->|?]]; auto.
    + rewrite elem_of_app, list_elem_of_singleton. tauto.
Qed.

Lemma get_Some_keys k v (d : Json.dict) : Json.get k d = Some v → k ∈ Json.keys d.
Proof.
  induction d as [|[k' v'] d IH]; simpl; [discriminate|].
  destruct (decide (k = k')) as [->|]; intros H.
  - apply list_elem_of_here.
  - apply list_elem_of_further, IH, H.
Qed.

Lemma column_of_record k v r results :
  r ∈ results → Json.get k r = Some v → k ∈ Analyst.dataframe_columns results.
Proof.
  intros Hr Hk. unfold Analyst.dataframe_columns.
  apply elem_of_add_columns. right.
  apply list_elem_of_In, in_concat. exists (Json.keys r). split.
  - apply in_map, list_elem_of_In, Hr.
  - eapply list_elem_of_In, get_Some_keys, Hk.
Qed.

Lemma records_of_fmap records : Analyst.records_of (Json.Obj <$> records) = Some records.
Proof.
  induction records as [|r records IH]; [reflexivity|].
  cbn. now rewrite IH.
Qed.

Lemma records_of_Some results records :
  Analyst.records_of results = Some records → results = Json.Obj <$> records.
Proof.
  revert records. induction results as [|v results IH]; intros records; cbn.
  - now intros [= <-].
  - destruct v; try discriminate.
    destruct (Analyst.records_of results) as [rs|]; [|discriminate].
    intros [= <-]. cbn. now rewrite (IH rs eq_refl).
Qed.

(** The report of results that are dicts. *)
Lemma generate_csv_report_records env records st :
  records ≠ [] →
  Analyst._generate_csv_report env (Json.Obj <$> records) st
  = Analyst.report_of_records records st.
Proof.
  intros Hne. unfold Analyst._generate_csv_report.
  rewrite records_of_fmap. destruct records; [contradiction | reflexivity].
Qed.

(** C6: the rows of the report are the records given, with every record of
    a higher impact score before every record of a lower one; records with
    the scores 3, 9, 0, 7 are listed in the order 9, 7, 3, 0. *)
Theorem report_sorted_by_impact env :
  (∀ results st,
     results ≠ [] →
     Forall (λ r, is_Some (Analyst.score r)) results →
     ∃ table st',
       Analyst._generate_csv_report env (Json.Obj <$> results) st = (Returned (), st') ∧
       Analyst.report st' = Some table ∧
       Analyst.rows table ≡ₚ results ∧
       ∀ i j r1 r2 a b,
         Analyst.rows table !! i = Some r1 →
         Analyst.rows table !! j = Some r2 →
         Json.get "impact_score" r1 = Some (Json.Num a) →
         Json.get "impact_score" r2 = Some (Json.Num b) →
         b < a → (i < j)%nat) ∧
  (∀ st, ∃ table st',
     Analyst._generate_csv_report env (Json.Obj <$> Fixtures.four_records) st
       = (Returned (), st') ∧
     Analyst.report st' = Some table ∧
     Analyst.rows table
     = [Fixtures.scored "EBA" 9; Fixtures.scored "ECB" 7;
        Fixtures.scored "ESMA" 3; Fixtures.scored "SEC" 0]).
Proof.
  split.
  - intros results st Hne Hscores.
    rewrite (generate_csv_report_records env results st Hne).
    unfold Analyst.report_of_records.
    case_bool_decide as Hcol.
    + assert (Hall : forallb (λ r, bool_decide (is_Some (Analyst.score r))) results = true).
      { apply forallb_forall. intros r Hr. apply bool_decide_eq_true.
        rewrite Forall_forall in Hscores. apply Hscores. now apply list_elem_of_In. }
      rewrite Hall. eexists _, _. split; [reflexivity|]. split; [reflexivity|].
      simpl. split; [apply merge_sort_Permutation|].
      intros i j r1 r2 a b. apply sorted_rows_descending.
      apply StronglySorted_merge_sort; apply _.
    + eexists _, _. split; [reflexivity|]. split; [reflexivity|].
      simpl. split; [reflexivity|].
      intros i j r1 r2 a b Hi Hj Ha _ _. exfalso. apply Hcol.
      eapply column_of_record; [|exact Ha].
      eapply list_elem_of_lookup_2, Hi.
  - intros st. eexists _, _. split; [reflexivity|]. split; reflexivity.
Qed.

End ReportOrder.

Lemma report_sorted_by_impact_witness :
  let env := Fixtures.gemini_env (λ _ _, Analyst.EngineFailed "no call") in
  Fixtures.four_records ≠ [] ∧
  Forall (λ r, is_Some (Analyst.score r)) Fixtures.four_records ∧
  ∃ table st',
    Analyst._generate_csv_report env (Json.Obj <$> Fixtures.four_records)
      Fixtures.analyst_start
      = (Returned (), st') ∧
    Analyst.report st' = Some table ∧
    Analyst.rows table ≡ₚ Fixtures.four_records.
Proof.
  intros env.
  assert (H1 : Fixtures.four_records ≠ []) by discriminate.
  assert (H2 : Forall (λ r, is_Some (Analyst.score r)) Fixtures.four_records).
  { repeat constructor; eexists; reflexivity. }
  split; [exact H1|]. split; [exact H2|].
  destruct (proj1 (report_sorted_by_impact env) Fixtures.four_records
              Fixtures.analyst_start H1 H2)
    as (table & st' & Hrun & Hrep & Hperm & _).
  exists table, st'. auto.
Defined.

(** ** The Refiner's status check *)

(** C1: the status check accepts the note "Scrape OK", and it accepts the
    note "Not Success" as well: in it the word "Success" stands between a
    space and the end of the text, which are two word boundaries. *)
Theorem status_check_accepts_not_success :
  Refiner.status_matches "Scrape OK" = true ∧
  Refiner.status_matches "Not Success" = true ∧
  Refiner.status_matches "Unsuccessful" = false.
Proof. repeat split; vm_compute; reflexivity. Qed.

(** ** The Harvester's feed fetch *)

Section HarvesterRss.

Import Registry Harvester.

Context (env : Env).

Lemma fetch_rss_first_attempt url st feed t :
  feedparser_parse env (tick st) url = Parsed feed →
  rss_result feed = Returned t →
  _fetch_rss env url st = (Returned t, emit (EParseFeed url) (advance st)).
Proof.
  intros Hp Hr. unfold _fetch_rss, retry. simpl.
  unfold fetch_rss_body. now rewrite Hp, Hr.
Qed.

Lemma fetch_rss_two_failures url st feed1 feed2 e1 e2 :
  feedparser_parse env (tick st) url = Parsed feed1 →
  feedparser_parse env (S (tick st)) url = Parsed feed2 →
  rss_result feed1 = Raised e1 → is_Exception e1 = true →
  rss_result feed2 = Raised e2 → is_Exception e2 = true →
  ∃ st', _fetch_rss env url st = (Raised (RetryError e2), st').
Proof.
  intros Hp1 Hp2 Hr1 He1 Hr2 He2. unfold _fetch_rss, retry. simpl.
  unfold fetch_rss_body at 1. rewrite Hp1, Hr1, He1.
  unfold fetch_rss_body. simpl. rewrite Hp2, Hr2, He2. eauto.
Qed.

Lemma rss_result_empty feed :
  entries feed = [] →
  rss_result feed
  = Raised (ValueError
      (match status feed with
       | Some code =>
           if 400 <=? code then "HTTP " +:+ Py.str_of_Z code +:+ " Error fetching RSS"
           else "RSS parsed but found no entries (Empty Feed)."
       | None => "RSS parsed but found no entries (Empty Feed)."
       end)).
Proof.
  intros H. unfold rss_result. rewrite H.
  destruct (status feed) as [code|]; [|reflexivity].
  now destruct (400 <=? code).
Qed.

(** C2, as the code has it: an attempt fails when the feed has no entry,
    with the HTTP status in the message when the transport reported one of
    400 or more and with the message of the empty feed otherwise; a feed
    with an entry yields its first title whatever the HTTP status; after two
    failed attempts the row is recorded as failed, with the error of the
    second attempt in its note. *)
Theorem fetch_rss_contract url st :
  (∀ feed code, entries feed = [] → status feed = Some code → 400 ≤ code →
     rss_result feed
     = Raised (ValueError ("HTTP " +:+ Py.str_of_Z code +:+ " Error fetching RSS"))) ∧
  (∀ feed, entries feed = [] →
     (∀ code, status feed = Some code → code < 400) →
     rss_result feed
     = Raised (ValueError "RSS parsed but found no entries (Empty Feed).")) ∧
  (∀ feed e rest t, entries feed = e :: rest → title e = Some t →
     rss_result feed = Returned t) ∧
  (∀ feed e rest t,
     feedparser_parse env (tick st) url = Parsed feed →
     entries feed = e :: rest → title e = Some t →
     _fetch_rss env url st = (Returned t, emit (EParseFeed url) (advance st))) ∧
  (∀ feed1 feed2,
     feedparser_parse env (tick st) url = Parsed feed1 →
     feedparser_parse env (S (tick st)) url = Parsed feed2 →
     entries feed1 = [] → entries feed2 = [] →
     ∃ e2,
       rss_result feed2 = Raised e2 ∧
       (∃ st', _fetch_rss env url st = (Raised (RetryError e2), st')) ∧
       ∀ index row df,
         target_url row = Some url → Py.falsy url = false →
         Py.contains "rss" (Py.lower (extraction_strategy row)) = true →
         ∃ df' st',
           process_row env index row df st = (None, df', st') ∧
           df' = alter (set_notes
                          ("[" +:+ now env (S (S (tick st))) +:+ "] Failed - Error: "
                           +:+ Py.take 100%N (clean (str_exn env (RetryError e2)))))
                   index df).
Proof.
  split; [|split; [|split; [|split]]].
  - intros feed code H Hs Hc. rewrite (rss_result_empty feed H), Hs.
    apply Z.leb_le in Hc. now rewrite Hc.
  - intros feed H Hs. rewrite (rss_result_empty feed H).
    destruct (status feed) as [code|]; [|reflexivity].
    specialize (Hs code eq_refl).
    replace (400 <=? code) with false by (symmetry; apply Z.leb_gt; lia).
    reflexivity.
  - intros feed e rest t H Ht. unfold rss_result. now rewrite H, Ht.
  - intros feed e rest t Hp H Ht. apply (fetch_rss_first_attempt url st feed); [assumption|].
    unfold rss_result. now rewrite H, Ht.
  - intros feed1 feed2 Hp1 Hp2 H1 H2.
    pose proof (rss_result_empty feed1 H1) as Hr1.
    pose proof (rss_result_empty feed2 H2) as Hr2.
    eexists. split; [exact Hr2|].
    split.
    { apply (fetch_rss_two_failures url st feed1 feed2 _ _ Hp1 Hp2 Hr1 eq_refl Hr2 eq_refl). }
    intros index row df Hurl Hne Hrss.
    unfold process_row. rewrite Hurl, Hne. unfold dispatch. rewrite Hrss.
    assert (Hf' : ∃ st'', _fetch_rss env url
                (logger INFO ("Processing: " +:+ source_name row) st)
              = (Raised (RetryError (ValueError
                   match status feed2 with
                   | Some code =>
                       if 400 <=? code
                       then "HTTP " +:+ Py.str_of_Z code +:+ " Error fetching RSS"
                       else "RSS parsed but found no entries (Empty Feed)."
                   | None => "RSS parsed but found no entries (Empty Feed)."
                   end)), st'') ∧ tick st'' = S (S (tick st))).
    { unfold _fetch_rss, retry. simpl. unfold fetch_rss_body at 1. simpl.
      rewrite Hp1, Hr1. simpl.
      unfold fetch_rss_body. simpl. rewrite Hp2, Hr2. simpl.
      eauto. }
    destruct Hf' as (st'' & -> & Htick).
    cbn [is_Exception]. unfold record_outcome. cbn [tick logger]. rewrite Htick.
    destruct (index mod 5 =? 0)%nat;
      eexists _, _; (split; [reflexivity|]); reflexivity.
Qed.

End HarvesterRss.

Lemma fetch_rss_contract_witness :
  let env := Fixtures.harvester_env (λ _ _, Harvester.Parsed Fixtures.empty_feed)
               (λ _, Harvester.Written) in
  ∃ df' st',
    Harvester.process_row env 0 (Fixtures.rss_row (Some "https://example.org/feed"))
      [Fixtures.rss_row (Some "https://example.org/feed")] (Harvester.init None)
    = (None, df', st') ∧
    df' = [Registry.set_notes
             "[2025-01-01 10:00] Failed - Error: RetryError[RSS parsed but found no entries (Empty Feed).]"
             (Fixtures.rss_row (Some "https://example.org/feed"))].
Proof.
  intros env.
  destruct (fetch_rss_contract env "https://example.org/feed" (Harvester.init None))
    as (_ & Hempty & _ & _ & H).
  destruct (H Fixtures.empty_feed Fixtures.empty_feed eq_refl eq_refl eq_refl eq_refl)
    as (e2 & He2 & _ & Hrow).
  rewrite (Hempty Fixtures.empty_feed eq_refl) in He2.
  2:{ intros code [= <-]. reflexivity. }
  injection He2 as <-.
  destruct (Hrow 0%nat (Fixtures.rss_row (Some "https://example.org/feed"))
              [Fixtures.rss_row (Some "https://example.org/feed")]
              eq_refl eq_refl eq_refl)
    as (df' & st' & Hp & Hdf).
  exists df', st'. split; [exact Hp | exact Hdf].
Defined.

(** C2, as it is worded, fails on a feed that comes with the HTTP status 404
    and an entry: the fetch returns the entry's title at the first attempt
    and the row is recorded as a success. *)
Lemma fetch_rss_http_error_with_entry :
  let env := Fixtures.harvester_env (λ _ _, Harvester.Parsed Fixtures.feed_404)
               (λ _, Harvester.Written) in
  Harvester.status Fixtures.feed_404 = Some 404 ∧
  (Harvester._fetch_rss env "https://example.org/feed" (Harvester.init None)).1
    = Returned "Latest notice" ∧
  (Harvester.process_row env 0 (Fixtures.rss_row (Some "https://example.org/feed"))
     [Fixtures.rss_row (Some "https://example.org/feed")] (Harvester.init None)).1.2
    = [Registry.set_notes "[2025-01-01 10:00] Success - RSS OK: Latest notice..."
         (Fixtures.rss_row (Some "https://example.org/feed"))].
Proof. repeat split. Qed.

(** ** The Refiner: downloads *)

Section RefinerDownload.

Import Refiner.

Context (env : Env).

Lemma download_body_returns url st :
  ∃ content st', download_body env url st = (Returned content, st').
Proof.
  unfold download_body.
  destruct (fetch_url env (tick st) url) as [html| |msg].
  - destruct (extract env html) as [[t|]|e]; [destruct (Py.falsy t)|..]; eauto.
  - destruct (requests_get env _ url) as [msg|code text]; [eauto|].
    destruct ((400 <=? code) && (code <? 600)); [eauto|].
    destruct (extract env text) as [[t|]|e]; [destruct (Py.falsy t)|..]; eauto.
  - eauto.
Qed.

(** The decorated function is its body: the body hands every failure back
    as [None], so that [tenacity] never sees an exception. *)
Lemma download_content_body url st :
  _download_content env url st = download_body env url st.
Proof.
  unfold _download_content, retry. simpl.
  destruct (download_body_returns url st) as (content & st' & ->). reflexivity.
Qed.




(** No [ESleep] separates two attempts, because there never are two. *)
Lemma download_body_trace url st :
  ∃ calls,
    trace (download_body env url st).2 = calls ++ trace st ∧
    (calls = [EFetchUrl url] ∨ calls = [ERequestsGet url; EFetchUrl url]).
Proof.
  unfold download_body.
  destruct (fetch_url env (tick st) url) as [html| |msg].
  - exists [EFetchUrl url].
    destruct (extract env html) as [[t|]|e]; [destruct (Py.falsy t)|..]; auto.
  - exists [ERequestsGet url; EFetchUrl url].
    destruct (requests_get env _ url) as [msg|code text]; [auto|].
    destruct ((400 <=? code) && (code <? 600)); [auto|].
    destruct (extract env text) as [[t|]|e]; [destruct (Py.falsy t)|..]; auto.
  - exists [EFetchUrl url]. auto.
Qed.

End RefinerDownload.

(** C8: the download is made once.  [_download_content] equals its
    undecorated body on every input, and its trace grows by the calls of one
    attempt; with a network that refuses the first connection and would
    serve the page at the next one, the document is given up after that one
    attempt. *)
Theorem download_never_retried :
  (∀ env url st,
     Refiner._download_content env url st = Refiner.download_body env url st ∧
     ∃ calls,
       Refiner.trace (Refiner._download_content env url st).2
         = calls ++ Refiner.trace st ∧
       (calls = [Refiner.EFetchUrl url] ∨
        calls = [Refiner.ERequestsGet url; Refiner.EFetchUrl url])) ∧
  (let env := Fixtures.refiner_env Fixtures.flaky_get in
   let url := "https://www.esma.europa.eu/news" in
   let st := Refiner.process_url env url "ESMA" (Refiner.init ∅) in
   Refiner.processed st = ∅ ∧
   Refiner.trace st = [Refiner.ERequestsGet url; Refiner.EFetchUrl url] ∧
   (Refiner.download_body env url st).1 = Returned (Some Fixtures.article_text)).
Proof.
  split.
  - intros env url st. split; [apply download_content_body|].
    rewrite download_content_body. apply download_body_trace.
  - repeat split.
Qed.

(** ** The Refiner: idempotence *)

Section RefinerIdempotence.

Import Registry Refiner.

Context (env : Env).








(** *** With a network that answers the same at every moment *)

Hypothesis steady_fetch : ∀ n m url, fetch_url env n url = fetch_url env m url.
Hypothesis steady_get : ∀ n m url, requests_get env n url = requests_get env m url.









End RefinerIdempotence.




(** ** The retry decorator *)

Section RetryFacts.

Context {E W A B : Type}.
Context (is_Exception : E → bool) (RetryError : E → E) (pause : nat → E → W → W).
Context (body : W → Outcome E A * W).

(** What neither the body nor the pause changes, the retried call does not
    change. *)
Lemma attempt_preserves (f : W → B) more k w :
  (∀ w, f (body w).2 = f w) →
  (∀ k e w, f (pause k e w) = f w) →
  f (attempt is_Exception RetryError pause more k body w).2 = f w.
Proof.
  intros Hbody Hpause. revert k w.
  induction more as [|more IH]; intros k w; simpl;
    specialize (Hbody w); destruct (body w) as [[a|e] w']; simpl in *;
    try assumption; destruct (is_Exception e); simpl; try assumption.
  rewrite IH, Hpause. assumption.
Qed.


(** What the body and the pause keep true, the retried call keeps true. *)
Lemma attempt_invariant (P : W → Prop) more k w :
  (∀ w, P w → P (body w).2) →
  (∀ k e w, P w → P (pause k e w)) →
  P w → P (attempt is_Exception RetryError pause more k body w).2.
Proof.
  intros Hbody Hpause. revert k w.
  induction more as [|more IH]; intros k w Hw; simpl;
    specialize (Hbody w Hw); destruct (body w) as [[a|e] w']; simpl in *;
    try assumption; destruct (is_Exception e); simpl; try assumption.
  apply IH, Hpause, Hbody.
Qed.

End RetryFacts.

(** ** The Analyst: idempotence *)

Section AnalystIdempotence.

Import Analyst.

Context (env : Env).


(** Whatever the file at the address of the record holds, the turn of the
    loop leaves the records as they are. *)
Lemma analyse_file_with_output filename file results st output :
  intelligence st !! filename = Some output →
  intelligence (analyse_file env filename file results st).2 = intelligence st.
Proof.
  intros H. unfold analyse_file. rewrite H.
  destruct (load output) as [v|e]; [reflexivity|]. now destruct e.
Qed.

Lemma analyze_intelligence content st :
  intelligence (analyze env content st).2 = intelligence st.
Proof.
  unfold analyze, _analyze_with_gemini, _analyze_with_openai, retry.
  destruct (ENGINE env); [reflexivity|..];
    apply (attempt_preserves _ _ _ _ intelligence); reflexivity.
Qed.

(** [classify] writes the record of its document when the engine answers
    with an object, and nothing otherwise. *)
Lemma classify_intelligence filename data content results st :
  if is_object (analyze env content st).1
  then ∃ record,
         intelligence (classify env filename data content results st).2
         = <[filename := Json.Object record]> (intelligence st)
  else intelligence (classify env filename data content results st).2
       = intelligence st.
Proof.
  pose proof (analyze_intelligence content st) as Hi.
  unfold classify.
  destruct (analyze env content st) as [[v|e] st1]; cbn [fst snd is_object] in *;
    [|assumption].
  destruct v; cbn [snd]; try assumption.
  eexists. destruct (forallb _ required_keys); cbn; now rewrite Hi.
Qed.

Lemma analyse_document_intelligence filename data results st :
  intelligence (analyse_document env filename data results st).2 = intelligence st ∨
  ∃ record,
    intelligence (analyse_document env filename data results st).2
    = <[filename := Json.Object record]> (intelligence st).
Proof.
  unfold analyse_document.
  destruct (screen_length data) as [|content|e]; [now left| |now left].
  destruct (is_blocked content); [now left|].
  pose proof (classify_intelligence filename data content results
                (logger INFO "Analyzing" st)) as Hc.
  destruct (classify env filename data content results (logger INFO "Analyzing" st))
    as [results' st'] eqn:Hcl.
  simpl in *. destruct (is_object _); [right | now left]. exact Hc.
Qed.

(** A turn of the loop keeps the records, or adds the one of its file at
    an address that had none. *)
Lemma analyse_file_intelligence filename file results st :
  intelligence (analyse_file env filename file results st).2 = intelligence st ∨
  (intelligence st !! filename = None ∧
   ∃ record,
     intelligence (analyse_file env filename file results st).2
     = <[filename := Json.Object record]> (intelligence st)).
Proof.
  destruct (intelligence st !! filename) as [output|] eqn:Hfile.
  { left. now apply (analyse_file_with_output _ _ _ _ output). }
  unfold analyse_file. rewrite Hfile.
  destruct (load file) as [v|e]; [|left; now destruct e].
  destruct v; try now left.
  destruct (analyse_document_intelligence filename o results st) as [H|H];
    [now left | right; now split].
Qed.



Lemma analyse_file_grows filename file results st :
  intelligence st ⊆ intelligence (analyse_file env filename file results st).2.
Proof.
  destruct (analyse_file_intelligence filename file results st)
    as [->|(Hnone & record & ->)]; [reflexivity|].
  now apply insert_subseteq.
Qed.


Lemma report_of_records_intelligence records st :
  intelligence (report_of_records records st).2 = intelligence st.
Proof.
  unfold report_of_records.
  case_bool_decide; [destruct (forallb _ _)|]; reflexivity.
Qed.

Lemma generate_csv_report_intelligence results st :
  intelligence (_generate_csv_report env results st).2 = intelligence st.
Proof.
  unfold _generate_csv_report. destruct results as [|v results]; [reflexivity|].
  destruct (records_of (v :: results)) as [records|].
  - apply report_of_records_intelligence.
  - now destruct (irregular_frame env (v :: results)).
Qed.



(** *** With an engine that answers the same at every moment *)

Hypothesis steady_gemini :
  ∀ n m text, generate_content env n text = generate_content env m text.
Hypothesis steady_openai :
  ∀ n m text, chat_completions env n text = chat_completions env m text.






End AnalystIdempotence.




(** ** The Harvester: checkpoints *)

Section HarvesterCheckpoint.

Import Registry Harvester.

Context (env : Env).

Lemma fetches_refl st : fetches st st.
Proof. exists []. split; [reflexivity | constructor]. Qed.

Lemma fetches_trans st1 st2 st3 : fetches st1 st2 → fetches st2 st3 → fetches st1 st3.
Proof.
  intros (ev1 & Ht1 & Hq1) (ev2 & Ht2 & Hq2).
  exists (ev2 ++ ev1). split; [now rewrite Ht2, Ht1, app_assoc | now apply Forall_app].
Qed.

Lemma fetches_emit e st : quiet e → fetches st (emit e st).
Proof. intros Hq. exists [e]. split; [reflexivity | now repeat constructor]. Qed.

Lemma fetches_logger l msg st : fetches st (logger l msg st).
Proof. exists []. split; [reflexivity | constructor]. Qed.

Lemma fetches_advance st : fetches st (advance st).
Proof. exists []. split; [reflexivity | constructor]. Qed.

Lemma fetches_start_browser st : fetches st (start_browser env st).2.
Proof.
  unfold start_browser. destruct (browser st); [apply fetches_refl|].
  destruct (launch env (tick st)); exists [EStartBrowser];
    (split; [reflexivity | now repeat constructor]).
Qed.

Lemma fetches_pause wait k e st : fetches st (pause wait k e st).
Proof.
  unfold pause. eapply fetches_trans; [apply fetches_logger|].
  now apply fetches_emit.
Qed.

Lemma fetches_fetch_rss url st : fetches st (_fetch_rss env url st).2.
Proof.
  unfold _fetch_rss, retry.
  apply (attempt_invariant _ _ _ _ (fetches st)); [| |apply fetches_refl].
  - intros w Hw. eapply fetches_trans; [exact Hw|].
    unfold fetch_rss_body.
    assert (fetches w (emit (EParseFeed url) (advance w))).
    { eapply fetches_trans; [apply fetches_advance | now apply fetches_emit]. }
    now destruct (feedparser_parse env (tick w) url).
  - intros k e w Hw. eapply fetches_trans; [exact Hw | apply fetches_pause].
Qed.

Lemma fetches_navigate url st : fetches st (navigate env url st).2.
Proof.
  unfold navigate. destruct (context st); [|apply fetches_refl].
  assert (H : fetches st (emit (ENavigate url) (advance st))).
  { eapply fetches_trans; [apply fetches_advance | now apply fetches_emit]. }
  destruct (page_goto env (tick st) url) as [| | |page_title|]; try exact H.
  now destruct (Py.falsy page_title).
Qed.

Lemma fetches_scrape_web_body url st : fetches st (scrape_web_body env url st).2.
Proof.
  unfold scrape_web_body. destruct (context st); [apply fetches_navigate|].
  pose proof (fetches_start_browser
                (logger WARNING "Browser context lost. Restarting..." st)) as H.
  assert (H' : fetches st (start_browser env
                 (logger WARNING "Browser context lost. Restarting..." st)).2).
  { eapply fetches_trans; [apply fetches_logger | exact H]. }
  destruct (start_browser env _) as [[u|e] st1]; cbn [snd] in *; [|exact H'].
  eapply fetches_trans; [exact H' | apply fetches_navigate].
Qed.

Lemma fetches_scrape_web url st : fetches st (_scrape_web env url st).2.
Proof.
  unfold _scrape_web, retry.
  apply (attempt_invariant _ _ _ _ (fetches st)); [| |apply fetches_refl].
  - intros w Hw. eapply fetches_trans; [exact Hw | apply fetches_scrape_web_body].
  - intros k e w Hw. eapply fetches_trans; [exact Hw | apply fetches_pause].
Qed.

Lemma fetches_dispatch strategy url st : fetches st (dispatch env strategy url st).2.
Proof.
  unfold dispatch.
  destruct (Py.contains "rss" strategy).
  { pose proof (fetches_fetch_rss url st) as H.
    now destruct (_fetch_rss env url st) as [[t|e] st']. }
  destruct (Py.contains "scrape" strategy).
  { pose proof (fetches_scrape_web url st) as H.
    destruct (_scrape_web env url st) as [[t|e] st']; [|exact H].
    eapply fetches_trans; [exact H | now apply fetches_emit]. }
  destruct (Py.contains "api" strategy); apply fetches_refl.
Qed.

(** *** One turn of the loop *)

Lemma record_outcome_state index status note df st :
  browser (record_outcome env index status note df st).2 = browser st ∧
  context (record_outcome env index status note df st).2 = context st ∧
  trace (record_outcome env index status note df st).2
  = (if (index mod 5 =? 0)%nat
     then [ESaveData (to_excel env (S (tick st)))] else [])
    ++ EUpdateRow index :: trace st.
Proof.
  unfold record_outcome.
  destruct (index mod 5 =? 0)%nat; [|auto].
  unfold save_data. now destruct (to_excel env _).
Qed.

(** A turn skips the row, or fetches and then is left by an exception, or
    fetches and then records the outcome. *)
Lemma process_row_cases index row df st :
  (¬ has_url row ∧ process_row env index row df st = (None, df, st)) ∨
  (has_url row ∧
   ∃ mid, fetches st mid ∧
     ((∃ e, process_row env index row df st = (Some e, df, mid)) ∨
      (∃ status note,
         process_row env index row df st
         = (None, (record_outcome env index status note df mid).1,
                  (record_outcome env index status note df mid).2)))).
Proof.
  unfold process_row, has_url.
  destruct (target_url row) as [url|]; [|left; split; [|reflexivity]].
  2:{ intros (url & Hu & _). discriminate. }
  destruct (Py.falsy url) eqn:Hfalsy; [left; split; [|reflexivity]|].
  { intros (url' & [= <-] & Hu). congruence. }
  right. split; [eauto|].
  set (st1 := logger INFO _ st).
  pose proof (fetches_dispatch (Py.lower (extraction_strategy row)) url st1) as Hd.
  assert (Hst1 : fetches st st1) by apply fetches_logger.
  destruct (dispatch env _ url st1) as [[[status note]|e] mid]; simpl in Hd.
  - exists mid. split; [eapply fetches_trans; eassumption|]. right.
    exists status, note. now destruct (record_outcome env index status note df mid).
  - destruct (is_Exception e).
    + exists (logger ERROR ("Error: " +:+ Py.take 100%N (clean (str_exn env e))) mid).
      split.
      { eapply fetches_trans; [exact Hst1|].
        eapply fetches_trans; [exact Hd | apply fetches_logger]. }
      right. exists "Failed", ("Error: " +:+ Py.take 100%N (clean (str_exn env e))).
      now destruct (record_outcome env index "Failed" _ df _).
    + exists mid. split; [eapply fetches_trans; eassumption|]. left. eauto.
Qed.

(** *** What a crash loses *)

Lemma unsaved_quiet events t :
  Forall quiet events → unsaved (events ++ t) = unsaved t.
Proof.
  induction 1 as [|e events He _ IH]; [reflexivity|].
  destruct e; simpl in *; try contradiction; exact IH.
Qed.

Lemma loses_at_most_now bound t : loses_at_most bound t → (unsaved t <= bound)%nat.
Proof. intros H. now apply H. Qed.

Lemma loses_at_most_cons bound e t :
  loses_at_most bound t → (unsaved (e :: t) <= bound)%nat →
  loses_at_most bound (e :: t).
Proof.
  intros Ht He earlier [[|x later] Hsuf]; simpl in Hsuf.
  - now subst earlier.
  - injection Hsuf as _ ->. apply Ht. now exists later.
Qed.

Lemma loses_at_most_quiet bound events t :
  loses_at_most bound t → Forall quiet events → loses_at_most bound (events ++ t).
Proof.
  intros Ht. induction 1 as [|e events He Hq IH]; [exact Ht|].
  simpl. apply loses_at_most_cons; [exact IH|].
  change (e :: events ++ t) with ((e :: events) ++ t).
  rewrite (unsaved_quiet (e :: events) t) by now constructor.
  now apply loses_at_most_now.
Qed.

Lemma loses_at_most_fetches bound st st' :
  fetches st st' → loses_at_most bound (trace st) → loses_at_most bound (trace st').
Proof. intros (events & -> & Hq) H. now apply loses_at_most_quiet. Qed.

Lemma next_index_bound index :
  (index mod 5 ≠ 0)%nat → S ((index + 4) mod 5) = ((S index + 4) mod 5)%nat.
Proof.
  intros H.
  replace (S index + 4)%nat with (index + 1 * 5)%nat by lia.
  rewrite Nat.Div0.mod_add, (Nat.Div0.add_mod index 4 5).
  assert (Hlt := Nat.mod_upper_bound index 5 ltac:(lia)).
  destruct (index mod 5)%nat as [|[|[|[|[|m]]]]]; try reflexivity; lia.
Qed.

Lemma index_bound_le index : ((index + 4) mod 5 <= 4)%nat.
Proof. assert (Hlt := Nat.mod_upper_bound (index + 4) 5 ltac:(lia)). lia. Qed.

Hypothesis writes_accepted : ∀ n, to_excel env n = Written.

(** While every row has a URL and every write is accepted, the rows not
    yet saved are those since the last multiple of five. *)
Lemma process_rows_bounded rows :
  Forall has_url rows →
  ∀ index df st,
    loses_at_most 5 (trace st) →
    (unsaved (trace st) <= (index + 4) mod 5)%nat →
    loses_at_most 5 (trace (process_rows env (iterrows_from index rows) df st).2).
Proof.
  induction 1 as [|row rows Hrow _ IH]; intros index df st Hsafe Hnow; simpl;
    [exact Hsafe|].
  destruct (process_row_cases index row df st)
    as [[Hno _]|(_ & mid & (events & Ht & Hq) & [(e & ->)|(status & note & ->)])];
    [contradiction| |].
  - simpl. rewrite Ht. now apply loses_at_most_quiet.
  - destruct (record_outcome_state index status note df mid) as (_ & _ & Htrace).
    rewrite writes_accepted, Ht in Htrace.
    pose proof (index_bound_le index) as Hle.
    assert (Hmid : loses_at_most 5 (events ++ trace st))
      by now apply loses_at_most_quiet.
    assert (Hupd : loses_at_most 5 (EUpdateRow index :: events ++ trace st)).
    { apply loses_at_most_cons; [exact Hmid|]. simpl.
      rewrite unsaved_quiet by assumption. lia. }
    apply IH; rewrite Htrace.
    + destruct (Nat.eqb_spec (index mod 5) 0); simpl app; [|exact Hupd].
      apply loses_at_most_cons; [exact Hupd | simpl; lia].
    + destruct (Nat.eqb_spec (index mod 5) 0) as [|Hne]; cbn [unsaved app]; [lia|].
      rewrite unsaved_quiet by assumption.
      rewrite <- (next_index_bound index Hne). lia.
Qed.

End HarvesterCheckpoint.

(** ** The Harvester: the end of a run *)

Section HarvesterRun.

Import Registry Harvester.

Context (env : Env).

Lemma save_data_state df st :
  trace (save_data env df st) = ESaveData (to_excel env (tick st)) :: trace st ∧
  browser (save_data env df st) = browser st ∧
  (to_excel env (tick st) = Written → disk (save_data env df st) = Some df).
Proof.
  unfold save_data. destruct (to_excel env (tick st)); repeat split; discriminate.
Qed.

(** [stop_browser] does nothing without a browser; with one it closes it,
    or is left by the exception of the close with the browser still set. *)
Lemma stop_browser_cases st :
  (browser st = false ∧ stop_browser env st = (Returned (), st)) ∨
  (browser st = true ∧
   ∃ st1,
     trace st1 = EStopBrowser :: trace st ∧ disk st1 = disk st ∧
     tick st1 = S (tick st) ∧
     ((close env (tick st) = Closed ∧ browser st1 = false ∧
       stop_browser env st = (Returned (), st1)) ∨
      (∃ msg, close env (tick st) = CloseFailed msg ∧ browser st1 = true ∧
              stop_browser env st = (Raised (LibraryError msg), st1)))).
Proof.
  unfold stop_browser. destruct (browser st) eqn:Hb; [right | now left].
  split; [reflexivity|].
  set (st1 := emit EStopBrowser (advance (logger INFO "Closing Browser..." st))).
  destruct (close env (tick st)) as [|msg].
  - exists (set_browser false (context st) st1). repeat split. left. auto.
  - exists st1. repeat split. right. exists msg. auto.
Qed.

Lemma run_loaded rows :
  run env (init (Some rows))
  = match (if existsb scrapes rows
           then start_browser env (logger INFO "Loaded sources." (init (Some rows)))
           else (Returned (), logger INFO "Loaded sources." (init (Some rows)))) with
    | (Raised e, st) => (Some e, st)
    | (Returned _, st) =>
        let '(exn, df, st) := process_rows env (iterrows rows) rows st in
        teardown env exn df st
    end.
Proof. reflexivity. Qed.

(** The teardown adds the close of the browser, if one is held, and then,
    unless the close raises, the save of the registry. *)
Lemma teardown_trace exn df st :
  ∃ events,
    trace (teardown env exn df st).2 = events ++ trace st ∧
    (events = [EStopBrowser] ∨
     ∃ reply, events = ESaveData reply :: (if browser st then [EStopBrowser] else [])).
Proof.
  unfold teardown.
  destruct (stop_browser_cases st)
    as [[Hb ->]|(Hb & st1 & Ht & _ & _ & [(_ & _ & ->)|(msg & _ & _ & ->)])];
    rewrite Hb; cbn [snd trace logger].
  - destruct (save_data_state df st) as (-> & _). eexists. split; [|right; eauto].
    reflexivity.
  - destruct (save_data_state df st1) as (-> & _). rewrite Ht.
    eexists. split; [|right; eauto]. reflexivity.
  - rewrite Ht. exists [EStopBrowser]. split; [reflexivity | now left].
Qed.

End HarvesterRun.

(** C7: the checkpoint inside the loop is skipped together with the row.
    On a registry in which every fifth row, from the first on, has no target
    URL, the loop leaves these rows before it reaches the checkpoint, and
    they are the only rows whose index is a multiple of five: no row is
    saved before the end of the run.  With 25 rows the notes of 20 rows are
    in memory only when the loop ends, so that a crash then loses them all,
    and more than the five rows between two checkpoints. *)
Theorem harvester_gaps_lose_rows :
  let env := Fixtures.harvester_env (λ _ _, Harvester.Parsed Fixtures.empty_feed)
               (λ _, Harvester.Written) in
  let final := (Harvester.run env (Harvester.init (Some Fixtures.gappy_registry))).2 in
  Harvester.unsaved (tail (Harvester.trace final)) = 20%nat ∧
  ¬ Harvester.loses_at_most 5 (Harvester.trace final).
Proof.
  intros env final.
  assert (H : Harvester.unsaved (tail (Harvester.trace final)) = 20%nat)
    by (vm_compute; reflexivity).
  assert (Hsuf : tail (Harvester.trace final) `suffix_of` Harvester.trace final).
  { exists [Harvester.ESaveData Harvester.Written]. vm_compute. reflexivity. }
  clearbody final.
  split; [exact H|].
  intros Hsafe.
  specialize (Hsafe (tail (Harvester.trace final)) Hsuf). lia.
Qed.

(** * Further properties of the code *)

(** ** The status check matches whole words *)

Section StatusWords.

Import Notes.

Lemma at_boundary_xorb prev rest :
  Re.at_boundary prev rest = xorb (word_before prev) (begins_with_word rest).
Proof. reflexivity. Qed.

Lemma last_char_cons x s : is_Some (last_char (String x s)).
Proof.
  revert x. induction s as [|y s IH]; intros x; [now eexists|].
  change (last_char (String x (String y s))) with (last_char (String y s)). apply IH.
Qed.

Lemma after_text_cons prev x s :
  after_text prev (String x s) = after_text (Some x) s.
Proof.
  unfold after_text. destruct s as [|y s]; [reflexivity|].
  change (last_char (String x (String y s))) with (last_char (String y s)).
  now destruct (last_char_cons y s) as [c ->].
Qed.

Lemma is_word_lower x : Re.is_word (Py.char_lower x) = Re.is_word x.
Proof. destruct x as [[] [] [] [] [] [] [] []]; reflexivity. Qed.

Lemma char_lower_idem x : Py.char_lower (Py.char_lower x) = Py.char_lower x.
Proof. destruct x as [[] [] [] [] [] [] [] []]; reflexivity. Qed.

Lemma lower_idem s : Py.lower (Py.lower s) = Py.lower s.
Proof. induction s as [|x s IH]; simpl; [reflexivity|]. now rewrite char_lower_idem, IH. Qed.

(** A literal word of the pattern matches, letter by letter and in whatever
    case, at the head of the text. *)
Lemma match_word w : ∀ prev s k,
  Re.match_at true (Re.word w) prev s k = true ↔
  ∃ token rest,
    s = token +:+ rest ∧ Py.lower token = Py.lower w ∧
    k (after_text prev token) rest = true.
Proof.
  induction w as [|c w IH]; intros prev s k; simpl.
  - split.
    + intros H. exists "", s. auto.
    + intros (token & rest & -> & Hlow & Hk). destruct token; [exact Hk | discriminate].
  - destruct s as [|x s].
    + split; [discriminate|].
      intros (token & rest & Hs & Hlow & _). destruct token; discriminate.
    + rewrite andb_true_iff, IH. unfold Re.char_eq. rewrite bool_decide_eq_true.
      split.
      * intros (Hc & token & rest & -> & Hlow & Hk).
        exists (String x token), rest. rewrite after_text_cons. simpl.
        repeat split; [congruence | exact Hk].
      * intros (token & rest & Hs & Hlow & Hk).
        destruct token as [|y token]; [discriminate|].
        rewrite append_cons in Hs. injection Hs as -> ->.
        simpl in Hlow. injection Hlow as Hc Hlow.
        rewrite after_text_cons in Hk. split; [congruence | eauto].
Qed.

(** [re.search] finds a match that starts after some part of the text. *)
Lemma search_from_split r : ∀ s prev,
  Re.search_from true r prev s = true ↔
  ∃ before rest,
    s = before +:+ rest ∧
    Re.match_at true r (after_text prev before) rest (λ _ _, true) = true.
Proof.
  induction s as [|x s IH]; intros prev; simpl.
  - rewrite orb_false_r. split.
    + intros H. exists "", "". auto.
    + intros (before & rest & Hs & H).
      destruct before; [|discriminate]. rewrite append_nil in Hs. now subst rest.
  - rewrite orb_true_iff, IH. split.
    + intros [H|(before & rest & -> & H)].
      * exists "", (String x s). auto.
      * exists (String x before), rest. now rewrite after_text_cons.
    + intros (before & rest & Hs & H). destruct before as [|y before].
      * left. rewrite append_nil in Hs. now subst rest.
      * right. rewrite append_cons in Hs. injection Hs as -> ->.
        rewrite after_text_cons in H. eauto.
Qed.

(** Two texts that differ in case only begin and end alike. *)
Lemma begins_with_word_lower token rest :
  token ≠ "" →
  begins_with_word (token +:+ rest) = begins_with_word (Py.lower token).
Proof.
  destruct token as [|x token]; [contradiction|]. intros _.
  rewrite append_cons. simpl. now rewrite is_word_lower.
Qed.

Lemma word_before_after_lower token : ∀ prev,
  token ≠ "" →
  word_before (after_text prev token) = ends_in_word (Py.lower token).
Proof.
  induction token as [|x token IH]; intros prev Hne; [contradiction|].
  rewrite after_text_cons. destruct token as [|y token].
  - unfold ends_in_word. simpl. now rewrite is_word_lower.
  - rewrite IH by discriminate. unfold ends_in_word. reflexivity.
Qed.

Lemma word_before_last before :
  word_before (after_text None before) = ends_in_word before.
Proof. unfold after_text, ends_in_word. now destruct (last_char before). Qed.

(** Every token begins and ends with a word character. *)
Lemma token_shape w :
  w ∈ success_tokens → w ≠ "" ∧ begins_with_word w = true ∧ ends_in_word w = true.
Proof.
  unfold success_tokens. rewrite !elem_of_cons, elem_of_nil.
  intros [->|[->|[->|[]]]]; repeat split; discriminate.
Qed.

Lemma lower_nonempty token w : Py.lower token = w → w ≠ "" → token ≠ "".
Proof. intros <- H ->. now apply H. Qed.

(** What the pattern asks of a token found after [prev]. *)
Lemma match_token w prev s :
  w ∈ success_tokens →
  Re.match_at true
    (Re.Cat Re.WordBoundary (Re.Cat (Re.word w) Re.WordBoundary)) prev s (λ _ _, true)
  = true ↔
  ∃ token after,
    s = token +:+ after ∧ Py.lower token = w ∧
    word_before prev = false ∧ begins_with_word after = false.
Proof.
  intros Hw. destruct (token_shape w Hw) as (Hne & Hb & He).
  assert (Hlw : Py.lower w = w).
  { revert Hw. unfold success_tokens. rewrite !elem_of_cons, elem_of_nil.
    intros [->|[->|[->|[]]]]; reflexivity. }
  cbn [Re.match_at]. rewrite andb_true_iff, match_word. split.
  - intros (Hstart & token & after & -> & Hlow & Hend).
    rewrite Hlw in Hlow.
    pose proof (lower_nonempty token w Hlow Hne) as Htok.
    rewrite andb_true_r in Hend.
    rewrite at_boundary_xorb, begins_with_word_lower, Hlow, Hb in Hstart by assumption.
    rewrite at_boundary_xorb, word_before_after_lower, Hlow, He in Hend by assumption.
    exists token, after. repeat split; [assumption| |].
    + now destruct (word_before prev).
    + now destruct (begins_with_word after).
  - intros (token & after & -> & Hlow & Hp & Ha).
    pose proof (lower_nonempty token w Hlow Hne) as Htok.
    split.
    + now rewrite at_boundary_xorb, begins_with_word_lower, Hlow, Hb, Hp.
    + exists token, after. rewrite Hlw. repeat split; [assumption|].
      now rewrite andb_true_r, at_boundary_xorb, word_before_after_lower, Hlow, He, Ha.
Qed.

Lemma match_success_pattern prev s :
  Re.match_at true Refiner.success_pattern prev s (λ _ _, true) = true ↔
  ∃ w, w ∈ success_tokens ∧
    Re.match_at true
      (Re.Cat Re.WordBoundary (Re.Cat (Re.word w) Re.WordBoundary)) prev s (λ _ _, true)
    = true.
Proof.
  unfold Refiner.success_pattern, success_tokens.
  cbn [Re.match_at]. rewrite !andb_true_iff, !orb_true_iff. split.
  - intros [Hb [H|[H|H]]].
    + exists "success". split; [set_solver|]. rewrite andb_true_iff. auto.
    + exists "rss ok". split; [set_solver|]. rewrite andb_true_iff. auto.
    + exists "scrape ok". split; [set_solver|]. rewrite andb_true_iff. auto.
  - intros (w & Hw & H).
    rewrite !elem_of_cons, elem_of_nil in Hw.
    rewrite andb_true_iff in H. destruct H as [Hb H].
    split; [exact Hb|].
    destruct Hw as [->|[->|[->|[]]]]; auto.
Qed.

(** A note that the status check accepts holds a token as a whole word. *)
Lemma accepted_note_has_word status :
  Refiner.status_matches status = true → has_success_word status.
Proof.
  unfold Refiner.status_matches, Re.search, has_success_word.
  rewrite search_from_split.
  intros (before & rest & -> & H).
  apply match_success_pattern in H as (w & Hw & H).
  apply (match_token w _ _ Hw) in H as (token & after & -> & Hlow & Hp & Ha).
  exists before, token, after. rewrite word_before_last in Hp.
  repeat split; [now rewrite Hlow | assumption..].
Qed.

(** A note that holds a token as a whole word is accepted. *)
Lemma note_with_word_accepted status :
  has_success_word status → Refiner.status_matches status = true.
Proof.
  unfold Refiner.status_matches, Re.search, has_success_word.
  rewrite search_from_split.
  intros (before & token & after & -> & Hlow & Hp & Ha).
  exists before, (token +:+ after). split; [reflexivity|].
  apply match_success_pattern. exists (Py.lower token). split; [exact Hlow|].
  apply (match_token _ _ _ Hlow). exists token, after.
  rewrite word_before_last. auto.
Qed.

(** X1: for every note whose characters are below U+0100, the status check
    accepts the note exactly when the note holds one of the tokens
    "success", "rss ok", "scrape ok", in whatever case, as a whole word:
    with no letter, digit or underscore (those of Unicode, among them the
    accented letters) right before it or right after it.  So the note
    U+00E9 "success", with an accented letter before the token, is refused,
    and the note U+00D7 "success", with a multiplication sign before it, is
    accepted. *)
Theorem status_matches_whole_word :
  (∀ status, Refiner.status_matches status = true ↔ has_success_word status) ∧
  Refiner.status_matches (String "233" "success") = false ∧
  Refiner.status_matches (String "215" "success") = true.
Proof.
  split; [|split; vm_compute; reflexivity].
  intros status. split.
  - apply accepted_note_has_word.
  - apply note_with_word_accepted.
Qed.

End StatusWords.

(** ** From the Harvester's notes to the Refiner's check *)

Section HarvestedNotes.

Import Registry Notes.

Lemma last_char_append a b : b ≠ "" → last_char (a +:+ b) = last_char b.
Proof.
  intros Hb. induction a as [|x a IH]; [reflexivity|].
  rewrite append_cons. destruct (a +:+ b) as [|y ab] eqn:Hab.
  - destruct a; [|discriminate]. rewrite append_nil in Hab. contradiction.
  - exact IH.
Qed.

(** A note that the Harvester writes with the status "Success" passes the
    status check, whatever its timestamp and its diagnostic. *)
Lemma success_note_matches timestamp note :
  Refiner.status_matches ("[" +:+ timestamp +:+ "] " +:+ "Success" +:+ " - " +:+ note)
  = true.
Proof.
  apply note_with_word_accepted.
  exists ("[" +:+ timestamp +:+ "] "), "Success", (" - " +:+ note).
  split; [now rewrite !append_assoc|].
  split; [unfold success_tokens; set_solver|].
  split; [|reflexivity].
  unfold ends_in_word. rewrite <- append_assoc, last_char_append by discriminate.
  reflexivity.
Qed.

(** X2: a row for which the fetch succeeds is recorded with a note that the
    Refiner's status check accepts, whatever the clock and the title
    fetched. *)
Theorem harvested_success_is_selected env index row df st url note st1 :
  df !! index = Some row →
  target_url row = Some url → Py.falsy url = false →
  Harvester.dispatch env (Py.lower (extraction_strategy row)) url
    (Harvester.logger Harvester.INFO ("Processing: " +:+ source_name row) st)
  = (Returned ("Success", note), st1) →
  ∃ df' st' row',
    Harvester.process_row env index row df st = (None, df', st') ∧
    df' !! index = Some row' ∧
    Stored.same_but_notes row row' ∧
    Refiner.status_matches (Refiner.status_of row') = true.
Proof.
  intros Hrow Hurl Hfalsy Hdispatch.
  unfold Harvester.process_row. rewrite Hurl, Hfalsy, Hdispatch.
  unfold Harvester.record_outcome.
  set (n := "[" +:+ _ +:+ "] " +:+ "Success" +:+ " - " +:+ note).
  exists (alter (set_notes n) index df).
  assert (Hlookup : alter (set_notes n) index df !! index = Some (set_notes n row)).
  { now rewrite list_lookup_alter_eq, Hrow. }
  assert (Hmatch : Refiner.status_matches (Refiner.status_of (set_notes n row)) = true).
  { apply success_note_matches. }
  destruct (index mod 5 =? 0)%nat; eexists _, (set_notes n row);
    (split; [reflexivity|]); (split; [exact Hlookup|]);
    (split; [now repeat split | exact Hmatch]).
Qed.

End HarvestedNotes.

Lemma harvested_success_is_selected_witness :
  let env := Fixtures.harvester_env (λ _ _, Harvester.Parsed Fixtures.feed_404)
               (λ _, Harvester.Written) in
  let row := Fixtures.rss_row (Some "https://example.org/feed") in
  ∃ df' st' row',
    Harvester.process_row env 0 row [row] (Harvester.init None) = (None, df', st') ∧
    df' !! 0%nat = Some row' ∧
    Refiner.status_matches (Refiner.status_of row') = true.
Proof.
  intros env row.
  destruct (harvested_success_is_selected env 0%nat row [row] (Harvester.init None)
              "https://example.org/feed" "RSS OK: Latest notice..."
              (Harvester.emit (Harvester.EParseFeed "https://example.org/feed")
                 (Harvester.advance
                    (Harvester.logger Harvester.INFO "Processing: ESMA" (Harvester.init None)))))
    as (df' & st' & row' & Hp & Hl & _ & Hm).
  - reflexivity.
  - reflexivity.
  - reflexivity.
  - vm_compute. reflexivity.
  - exists df', st', row'. auto.
Defined.

(** ** The Refiner: rows it leaves alone *)

Section RefinerUnselected.

Import Registry Refiner.

Context (env : Env).

Lemma visit_unselected st row :
  ¬ Notes.has_success_word (status_of row) → visit env st row = st.
Proof.
  intros H. unfold visit.
  destruct (status_matches (status_of row)) eqn:Hm; [|reflexivity].
  apply accepted_note_has_word in Hm. contradiction.
Qed.

Lemma visit_invalid_url st row :
  is_valid_url env (target_url row) = false →
  processed (visit env st row) = processed st ∧
  trace (visit env st row) = trace st ∧
  tick (visit env st row) = tick st.
Proof.
  intros H. unfold visit. rewrite H.
  now destruct (status_matches (status_of row)).
Qed.

(** X3: a run over a registry in which no row has both a note with a
    success word and a URL with a scheme and a host touches nothing: no
    download, no file written, the clock untouched. *)
Theorem refiner_touches_selected_rows_only df st :
  Forall (λ row, ¬ Notes.has_success_word (status_of row) ∨
                 is_valid_url env (target_url row) = false) df →
  processed (run env (Some df) st) = processed st ∧
  trace (run env (Some df) st) = trace st ∧
  tick (run env (Some df) st) = tick st.
Proof.
  intros Hall. unfold run. cbn [processed trace tick logger].
  set (st0 := logger INFO "Scanning sources for content to extract..." st).
  change (processed st) with (processed st0).
  change (trace st) with (trace st0). change (tick st) with (tick st0).
  clearbody st0. revert st0.
  induction Hall as [|row df Hrow _ IH]; intros st0; simpl; [auto|].
  destruct (IH (visit env st0 row)) as (-> & -> & ->).
  destruct Hrow as [Hrow|Hrow].
  - now rewrite (visit_unselected st0 row Hrow).
  - now apply visit_invalid_url.
Qed.

End RefinerUnselected.

Lemma refiner_touches_selected_rows_only_witness :
  let env := Fixtures.refiner_env (λ _ _, Refiner.Response 200 Fixtures.article_text) in
  let df := [Fixtures.api_row (Some "https://a.example"); Fixtures.rss_row None] in
  Refiner.processed (Refiner.run env (Some df) (Refiner.init ∅)) = ∅ ∧
  Refiner.trace (Refiner.run env (Some df) (Refiner.init ∅)) = [].
Proof.
  intros env df.
  destruct (refiner_touches_selected_rows_only env df (Refiner.init ∅)) as (Hp & Ht & _).
  - constructor; [|constructor; [|constructor]].
    + left. intros H. apply note_with_word_accepted in H. discriminate.
    + right. reflexivity.
  - split; [exact Hp | exact Ht].
Defined.

(** ** The Refiner: what it stores *)

Section RefinerStore.

Import Registry Refiner.

Context (env : Env).

Lemma long_text_kept content :
  (Py.falsy content || (String.length content <? 50)%nat) = false ↔
  (50 <= String.length content)%nat.
Proof.
  rewrite orb_false_iff, Nat.ltb_ge. split; [tauto|].
  intros H. split; [|exact H]. destruct content; [simpl in H; lia | reflexivity].
Qed.

(** The state after a download that is kept. *)
Lemma process_url_stores url source st content st1 :
  processed st !! json_path env url = None →
  download_body env url (logger INFO "Extracting" st) = (Returned (Some content), st1) →
  (50 <= String.length content)%nat →
  let document : Json.dict :=
    [("source", Json.Str source); ("url", Json.Str url);
     ("downloaded_at", Json.Str (now env (tick st1)));
     ("content_clean", Json.Str content)] in
  let saved :=
    logger INFO "Saved content"
      (write_file (json_path env url) (Json.Object document) (advance st1)) in
  process_url env url source st
  = match polite_delay env saved with
    | (Returned _, st') => st'
    | (Raised _, st') => logger ERROR "Failed" st'
    end.
Proof.
  intros Hnone Hbody Hlen. unfold process_url.
  rewrite Hnone, download_content_body, Hbody.
  apply long_text_kept in Hlen. now rewrite Hlen.
Qed.




(** X5: a text that is kept is saved before the politeness delay is read:
    whatever [REFINER_DELAY] holds and whatever [time.sleep] makes of it, the
    document is in the store.  The agent sleeps for the seconds set (for one
    second when nothing is set) when they are not negative, fit the time
    type of the interpreter and are accepted by the system; a value that is
    no number, a negative one, one beyond the time type, or one that the
    system refuses gives an error in the log and no delay. *)
Theorem refiner_saves_before_delay url source st content st1 :
  processed st !! json_path env url = None →
  download_body env url (logger INFO "Extracting" st) = (Returned (Some content), st1) →
  (50 <= String.length content)%nat →
  let st' := process_url env url source st in
  let slept n :=
    trace st' = ESleep n :: EWriteFile (json_path env url) :: trace st1 in
  let failed :=
    trace st' = EWriteFile (json_path env url) :: trace st1 ∧
    (ERROR, "Failed") ∈ log st' in
  is_Some (processed st' !! json_path env url) ∧
  match REFINER_DELAY env with
  | Unset => if nanosleep env 1 is None then slept 1 else failed
  | Seconds n =>
      if bool_decide (0 ≤ n ≤ PyTime_MAX)
      then if nanosleep env n is None then slept n else failed
      else failed
  | NotANumber => failed
  end.
Proof.
  intros Hnone Hbody Hlen st' slept failed. subst st' slept failed.
  rewrite (process_url_stores url source st content st1 Hnone Hbody Hlen).
  set (saved := logger INFO "Saved content" _).
  assert (Hcase : ∀ u,
    let st' := match time_sleep env u saved with
               | (Returned _, st') => st'
               | (Raised _, st') => logger ERROR "Failed" st'
               end in
    is_Some (processed st' !! json_path env url) ∧
    if bool_decide (0 ≤ u ≤ PyTime_MAX)
    then if nanosleep env u is None
         then trace st' = ESleep u :: EWriteFile (json_path env url) :: trace st1
         else trace st' = EWriteFile (json_path env url) :: trace st1 ∧
              (ERROR, "Failed") ∈ log st'
    else trace st' = EWriteFile (json_path env url) :: trace st1 ∧
         (ERROR, "Failed") ∈ log st').
  { intros u. unfold time_sleep, sleep_error.
    assert (Hin : is_Some (processed saved !! json_path env url)).
    { subst saved. cbn. rewrite lookup_insert_eq. eauto. }
    case_bool_decide as Hu.
    - replace ((u <? - PyTime_MAX) || (PyTime_MAX <? u)) with false
        by (unfold PyTime_MAX in *; symmetry; apply orb_false_iff; split;
            [apply Z.ltb_ge | apply Z.ltb_ge]; lia).
      replace (u <? 0) with false by (symmetry; apply Z.ltb_ge; lia).
      destruct (nanosleep env u) as [msg|]; cbn;
        (split; [exact Hin|]); [split; [reflexivity | apply list_elem_of_here] | reflexivity].
    - destruct ((u <? - PyTime_MAX) || (PyTime_MAX <? u)) eqn:Hrange; cbn.
      { split; [exact Hin|]. split; [reflexivity | apply list_elem_of_here]. }
      apply orb_false_iff in Hrange as [H1 H2].
      apply Z.ltb_ge in H1, H2.
      replace (u <? 0) with true by (symmetry; apply Z.ltb_lt; lia).
      cbn. split; [exact Hin|]. split; [reflexivity | apply list_elem_of_here]. }
  unfold polite_delay. destruct (REFINER_DELAY env) as [|n|].
  - destruct (Hcase 1) as [H1 H2]. split; [exact H1|].
    rewrite bool_decide_eq_true_2 in H2 by (unfold PyTime_MAX; lia). exact H2.
  - apply Hcase.
  - cbn. split; [subst saved; cbn; rewrite lookup_insert_eq; eauto|].
    split; [reflexivity | apply list_elem_of_here].
Qed.

End RefinerStore.


Lemma refiner_saves_before_delay_witness :
  let env := Fixtures.refiner_env (λ _ _, Refiner.Response 200 Fixtures.article_text) in
  let url := "https://www.esma.europa.eu/news" in
  let st' := Refiner.process_url env url "ESMA" (Refiner.init ∅) in
  is_Some (Refiner.processed st' !! Refiner.json_path env url) ∧
  Refiner.trace st'
  = [Refiner.ESleep 1; Refiner.EWriteFile (Refiner.json_path env url);
     Refiner.ERequestsGet url; Refiner.EFetchUrl url].
Proof.
  intros env url st'.
  destruct (refiner_saves_before_delay env url "ESMA" (Refiner.init ∅)
              Fixtures.article_text
              (Refiner.download_body env url
                 (Refiner.logger Refiner.INFO "Extracting" (Refiner.init ∅))).2)
    as [Hstored Htrace].
  - reflexivity.
  - vm_compute. reflexivity.
  - apply Nat.leb_le. vm_compute. reflexivity.
  - split; [exact Hstored | exact Htrace].
Defined.

(** ** The Harvester: what a run changes in the registry *)

Section HarvesterFrame.

Import Registry Harvester.

Context (env : Env).

Lemma same_but_notes_refl rows : Forall2 Stored.same_but_notes rows rows.
Proof. induction rows; constructor; [now repeat split | assumption]. Qed.

Lemma same_but_notes_alter n index df :
  Forall2 Stored.same_but_notes df (alter (set_notes n) index df).
Proof.
  revert index. induction df as [|row df IH]; intros index; [constructor|].
  destruct index as [|index]; simpl; constructor;
    try apply IH; try apply same_but_notes_refl; now repeat split.
Qed.

Lemma same_but_notes_trans rows df df' :
  Forall2 Stored.same_but_notes rows df →
  Forall2 Stored.same_but_notes df df' →
  Forall2 Stored.same_but_notes rows df'.
Proof.
  intros H. revert df'. induction H as [|r r' rows df Hr _ IH]; intros df' H';
    inversion H' as [|r0 r'' df0 df'' Hr' Hrest]; subst; constructor; [|now apply IH].
  destruct Hr as (? & ? & ?), Hr' as (? & ? & ?). repeat split; congruence.
Qed.

Lemma start_browser_disk st : disk (start_browser env st).2 = disk st.
Proof.
  unfold start_browser. destruct (browser st); [reflexivity|].
  now destruct (launch env (tick st)).
Qed.

Lemma stop_browser_disk st : disk (stop_browser env st).2 = disk st.
Proof.
  unfold stop_browser. destruct (browser st); [|reflexivity].
  now destruct (close env (tick st)).
Qed.

Lemma navigate_disk url st : disk (navigate env url st).2 = disk st.
Proof.
  unfold navigate. destruct (context st); [|reflexivity].
  destruct (page_goto env (tick st) url) as [| | |page_title|]; try reflexivity.
  now destruct (Py.falsy page_title).
Qed.

Lemma scrape_web_body_disk url st : disk (scrape_web_body env url st).2 = disk st.
Proof.
  unfold scrape_web_body. destruct (context st); [apply navigate_disk|].
  pose proof (start_browser_disk
                (logger WARNING "Browser context lost. Restarting..." st)) as H.
  destruct (start_browser env _) as [[u|e] st1]; cbn [snd] in *; [|exact H].
  now rewrite navigate_disk.
Qed.

Lemma dispatch_disk strategy url st : disk (dispatch env strategy url st).2 = disk st.
Proof.
  unfold dispatch, _fetch_rss, _scrape_web, retry.
  destruct (Py.contains "rss" strategy).
  { pose proof (attempt_preserves is_Exception RetryError
                  (pause (wait_exponential env 1 2 5)) (fetch_rss_body env url) disk 1 1 st) as H.
    destruct (attempt _ _ _ _ _ _ st) as [[t|e] st']; apply H;
      try reflexivity; intros w; unfold fetch_rss_body;
      now destruct (feedparser_parse env (tick w) url). }
  destruct (Py.contains "scrape" strategy).
  { pose proof (attempt_preserves is_Exception RetryError
                  (pause (wait_exponential env 2 4 10)) (scrape_web_body env url) disk 1 1 st) as H.
    destruct (attempt _ _ _ _ _ _ st) as [[t|e] st']; apply H;
      try reflexivity; apply scrape_web_body_disk. }
  now destruct (Py.contains "api" strategy).
Qed.

Lemma save_data_disk df st :
  disk (save_data env df st) = Some df ∨ disk (save_data env df st) = disk st.
Proof. unfold save_data. destruct (to_excel env (tick st)); auto. Qed.

Lemma record_outcome_notes_only rows index status note df st :
  Stored.notes_only rows df st →
  Stored.notes_only rows (record_outcome env index status note df st).1
    (record_outcome env index status note df st).2.
Proof.
  intros [Hdf Hdisk]. unfold record_outcome.
  set (n := "[" +:+ _ +:+ "] " +:+ status +:+ " - " +:+ note).
  assert (Hdf' : Forall2 Stored.same_but_notes rows (alter (set_notes n) index df)).
  { eapply same_but_notes_trans; [exact Hdf | apply same_but_notes_alter]. }
  destruct (index mod 5 =? 0)%nat; (split; [exact Hdf'|]); [|exact Hdisk].
  cbn [snd].
  destruct (save_data_disk (alter (set_notes n) index df)
              (emit (EUpdateRow index) (advance st))) as [->| ->]; [eauto | exact Hdisk].
Qed.

Lemma process_row_notes_only rows index row df st :
  Stored.notes_only rows df st →
  Stored.notes_only rows (process_row env index row df st).1.2
    (process_row env index row df st).2.
Proof.
  intros H. unfold process_row.
  destruct (target_url row) as [url|]; [|exact H].
  destruct (Py.falsy url); [exact H|].
  set (st1 := logger INFO _ st).
  pose proof (dispatch_disk (Py.lower (extraction_strategy row)) url st1) as Hd.
  destruct (dispatch env _ url st1) as [[[status note]|e] mid]; cbn [snd] in Hd.
  - pose proof (record_outcome_notes_only rows index status note df mid) as Hr.
    destruct (record_outcome env index status note df mid) as [df' st'].
    apply Hr. destruct H as [Hdf Hdisk]. split; [exact Hdf|]. now rewrite Hd.
  - destruct (is_Exception e).
    + set (mid' := logger ERROR _ mid).
      pose proof (record_outcome_notes_only rows index "Failed"
                    ("Error: " +:+ Py.take 100%N (clean (str_exn env e))) df mid') as Hr.
      destruct (record_outcome env index "Failed" _ df mid') as [df' st'].
      apply Hr. destruct H as [Hdf Hdisk]. split; [exact Hdf|].
      subst mid'. cbn [disk logger]. now rewrite Hd.
    + destruct H as [Hdf Hdisk]. split; [exact Hdf|]. cbn [snd]. now rewrite Hd.
Qed.

Lemma process_rows_notes_only rows indexed df st :
  Stored.notes_only rows df st →
  Stored.notes_only rows (process_rows env indexed df st).1.2
    (process_rows env indexed df st).2.
Proof.
  revert df st. induction indexed as [|[index row] indexed IH]; intros df st H;
    simpl; [exact H|].
  pose proof (process_row_notes_only rows index row df st H) as Hrow.
  destruct (process_row env index row df st) as [[[e|] df'] st']; [exact Hrow|].
  now apply IH.
Qed.

(** X6: a run changes the notes of the registry and nothing else: the file
    on disk after the run has the rows that were loaded, in their order,
    each with its source name, its URL and its strategy. *)
Theorem harvester_changes_notes_only rows :
  ∃ saved,
    disk (run env (init (Some rows))).2 = Some saved ∧
    Forall2 Stored.same_but_notes rows saved.
Proof.
  rewrite (run_loaded env).
  set (st := logger INFO "Loaded sources." (init (Some rows))).
  assert (Hstart : disk (if existsb scrapes rows then start_browser env st
                         else (Returned (), st)).2 = Some rows).
  { destruct (existsb scrapes rows); [|reflexivity]. now rewrite start_browser_disk. }
  destruct (if existsb scrapes rows then _ else _) as [[u|e] st0]; cbn [snd] in Hstart.
  2:{ exists rows. split; [exact Hstart | apply same_but_notes_refl]. }
  assert (H0 : Stored.notes_only rows rows st0).
  { split; [apply same_but_notes_refl|]. exists rows.
    split; [exact Hstart | apply same_but_notes_refl]. }
  pose proof (process_rows_notes_only rows (iterrows rows) rows st0 H0) as [Hdf Hdisk].
  destruct (process_rows env (iterrows rows) rows st0) as [[exn df] st_loop].
  cbn [fst snd] in *. destruct Hdisk as (d & Hd & Hsame).
  unfold teardown.
  pose proof (stop_browser_disk st_loop) as Hstop.
  destruct (stop_browser env st_loop) as [[u'|e] st1]; cbn [snd] in *.
  - cbn [disk logger].
    destruct (save_data_disk df st1) as [->| ->]; [eauto|].
    rewrite Hstop. eauto.
  - rewrite Hstop. eauto.
Qed.

End HarvesterFrame.

(** ** The Harvester: one browser session *)

Section HarvesterSession.

Import Registry Harvester.

Context (env : Env).

Lemma same_session_refl st : Stored.same_session st st.
Proof. now repeat split. Qed.

Lemma same_session_trans st1 st2 st3 :
  Stored.same_session st1 st2 → Stored.same_session st2 st3 →
  Stored.same_session st1 st3.
Proof. intros (? & ? & ?) (? & ? & ?). repeat split; congruence. Qed.

Lemma same_session_emit e st :
  e ≠ EStartBrowser → Stored.same_session st (emit e st).
Proof. intros He. repeat split. destruct e; try reflexivity. contradiction. Qed.

Lemma same_session_pause wait k e st : Stored.same_session st (pause wait k e st).
Proof. now repeat split. Qed.

Lemma same_session_fetch_rss url st : Stored.same_session st (_fetch_rss env url st).2.
Proof.
  unfold _fetch_rss, retry.
  apply (attempt_invariant _ _ _ _ (Stored.same_session st));
    [| |apply same_session_refl].
  - intros w Hw. eapply same_session_trans; [exact Hw|].
    unfold fetch_rss_body.
    now destruct (feedparser_parse env (tick w) url).
  - intros k e w Hw. eapply same_session_trans; [exact Hw | apply same_session_pause].
Qed.

Lemma same_session_navigate url st : Stored.same_session st (navigate env url st).2.
Proof.
  unfold navigate. destruct (context st); [|apply same_session_refl].
  destruct (page_goto env (tick st) url) as [| | |page_title|];
    try (now repeat split).
  destruct (Py.falsy page_title); now repeat split.
Qed.

(** With a context at hand a scrape does not start a browser. *)
Lemma same_session_scrape_web url st :
  context st = true → Stored.same_session st (_scrape_web env url st).2.
Proof.
  intros Hc. unfold _scrape_web, retry.
  apply (attempt_invariant _ _ _ _ (Stored.same_session st));
    [| |apply same_session_refl].
  - intros w Hw. eapply same_session_trans; [exact Hw|].
    unfold scrape_web_body.
    destruct Hw as (_ & -> & _). rewrite Hc. apply same_session_navigate.
  - intros k e w Hw. eapply same_session_trans; [exact Hw | apply same_session_pause].
Qed.

Lemma same_session_dispatch strategy url st :
  context st = true ∨ Py.contains "scrape" strategy = false →
  Stored.same_session st (dispatch env strategy url st).2.
Proof.
  intros H. unfold dispatch.
  destruct (Py.contains "rss" strategy).
  { pose proof (same_session_fetch_rss url st) as Hr.
    now destruct (_fetch_rss env url st) as [[t|e] st']. }
  destruct (Py.contains "scrape" strategy).
  { destruct H as [Hc|]; [|discriminate].
    pose proof (same_session_scrape_web url st Hc) as Hr.
    destruct (_scrape_web env url st) as [[t|e] st']; [|exact Hr].
    eapply same_session_trans; [exact Hr | now apply same_session_emit]. }
  destruct (Py.contains "api" strategy); apply same_session_refl.
Qed.

Lemma same_session_record_outcome index status note df st :
  Stored.same_session st (record_outcome env index status note df st).2.
Proof.
  unfold record_outcome.
  destruct (index mod 5 =? 0)%nat; [|now repeat split].
  cbn [snd]. unfold save_data. destruct (to_excel env _); now repeat split.
Qed.

Lemma same_session_process_row index row df st :
  context st = true ∨ scrapes row = false →
  Stored.same_session st (process_row env index row df st).2.
Proof.
  intros H. unfold process_row.
  destruct (target_url row) as [url|]; [|apply same_session_refl].
  destruct (Py.falsy url); [apply same_session_refl|].
  set (st1 := logger INFO _ st).
  pose proof (same_session_dispatch (Py.lower (extraction_strategy row)) url st1 H) as Hd.
  destruct (dispatch env _ url st1) as [[[status note]|e] mid]; cbn [snd] in Hd.
  - pose proof (same_session_record_outcome index status note df mid) as Hr.
    destruct (record_outcome env index status note df mid) as [df' st']. cbn [snd] in *.
    eapply same_session_trans; [|exact Hr]. exact Hd.
  - destruct (is_Exception e); [|exact Hd].
    set (mid' := logger ERROR _ mid).
    pose proof (same_session_record_outcome index "Failed"
                  ("Error: " +:+ Py.take 100%N (clean (str_exn env e))) df mid') as Hr.
    destruct (record_outcome env index "Failed" _ df mid') as [df' st']. cbn [snd] in *.
    eapply same_session_trans; [|exact Hr]. exact Hd.
Qed.

(** The loop neither starts nor stops a browser when it has a context, or
    when no row is scraped. *)
Lemma same_session_process_rows indexed df st :
  context st = true ∨ Forall (λ ir, scrapes ir.2 = false) indexed →
  Stored.same_session st (process_rows env indexed df st).2.
Proof.
  revert df st. induction indexed as [|[index row] indexed IH]; intros df st H;
    simpl; [apply same_session_refl|].
  assert (Hrow : context st = true ∨ scrapes row = false).
  { destruct H as [?|H]; [now left | right]. now inversion H. }
  pose proof (same_session_process_row index row df st Hrow) as Hs.
  destruct (process_row env index row df st) as [[[e|] df'] st']; [exact Hs|].
  cbn [snd] in Hs. eapply same_session_trans; [exact Hs|].
  apply IH. destruct H as [Hc|H]; [left | right; now inversion H].
  destruct Hs as (_ & -> & _). exact Hc.
Qed.

Lemma teardown_launches exn df st :
  Stored.launches (trace (teardown env exn df st).2) = Stored.launches (trace st).
Proof.
  destruct (teardown_trace env exn df st) as (events & -> & [->|[reply ->]]);
    [reflexivity|].
  now destruct (browser st).
Qed.

Lemma not_scraped rows :
  existsb scrapes rows = false →
  Forall (λ ir : nat * Row, scrapes ir.2 = false) (iterrows rows).
Proof.
  unfold iterrows. generalize 0%nat.
  induction rows as [|row rows IH]; intros index H; simpl in *; [constructor|].
  apply orb_false_iff in H as [Hrow Hrows]. constructor; [exact Hrow | now apply IH].
Qed.

(** X7: a run launches the browser once at most, however many rows are
    scraped and however often a scrape is tried again. *)
Theorem harvester_launches_one_browser registry_file :
  (Stored.launches (trace (run env (init registry_file)).2) <= 1)%nat.
Proof.
  destruct registry_file as [rows|]; [|cbn; lia].
  rewrite (run_loaded env).
  set (st := logger INFO "Loaded sources." (init (Some rows))).
  assert (Hloop : ∀ st0,
    (Stored.launches (trace st0) <= 1)%nat →
    context st0 = true ∨ existsb scrapes rows = false →
    (Stored.launches
       (trace (let '(exn, df, st) := process_rows env (iterrows rows) rows st0 in
               teardown env exn df st).2) <= 1)%nat).
  { intros st0 Hle Hc.
    assert (Hs : Stored.same_session st0 (process_rows env (iterrows rows) rows st0).2).
    { apply same_session_process_rows.
      destruct Hc as [?|Hno]; [now left | right; now apply not_scraped]. }
    destruct (process_rows env (iterrows rows) rows st0) as [[exn df] st_loop].
    cbn [snd] in Hs. destruct Hs as (_ & _ & Hl).
    rewrite teardown_launches, Hl. exact Hle. }
  destruct (existsb scrapes rows) eqn:Hany.
  - unfold start_browser. cbn [browser st init logger].
    destruct (launch env _) as [|msg|msg]; [|cbn; lia..].
    apply Hloop; [cbn; lia | now left].
  - apply Hloop; [cbn; lia | now right].
Qed.

End HarvesterSession.

(** ** The Harvester: attempts *)

Section HarvesterAttempts.

Import Registry Harvester.

Context (env : Env).

Lemma rss_result_Exception feed e : rss_result feed = Raised e → is_Exception e = true.
Proof.
  unfold rss_result. destruct (entries feed) as [|entry rest].
  - destruct (status feed) as [code|]; [destruct (400 <=? code)|]; now intros [= <-].
  - destruct (title entry); [discriminate | now intros [= <-]].
Qed.

(** X8: the feed fetch is tried a second time after a failed attempt, with
    one pause between the two, and returns what the second attempt finds;
    an interruption of the first attempt is not tried again. *)
Theorem fetch_rss_second_attempt url st :
  (∀ feed1 feed2 e1 t,
     feedparser_parse env (tick st) url = Parsed feed1 →
     rss_result feed1 = Raised e1 →
     feedparser_parse env (S (tick st)) url = Parsed feed2 →
     rss_result feed2 = Returned t →
     ∃ st',
       _fetch_rss env url st = (Returned t, st') ∧
       trace st'
       = EParseFeed url :: ESleep (wait_exponential env 1 2 5 1)
           :: EParseFeed url :: trace st) ∧
  (feedparser_parse env (tick st) url = ParseInterrupted →
   _fetch_rss env url st
   = (Raised KeyboardInterrupt, emit (EParseFeed url) (advance st))).
Proof.
  split.
  - intros feed1 feed2 e1 t Hp1 Hr1 Hp2 Hr2.
    unfold _fetch_rss, retry. simpl.
    unfold fetch_rss_body at 1. rewrite Hp1, Hr1, (rss_result_Exception feed1 e1 Hr1).
    unfold fetch_rss_body. cbn [tick pause emit logger advance].
    rewrite Hp2, Hr2. eexists. split; reflexivity.
  - intros Hp. unfold _fetch_rss, retry. simpl.
    unfold fetch_rss_body. now rewrite Hp.
Qed.

(** X9: the page scrape is tried a second time after a navigation that
    timed out, and returns the title the second navigation finds. *)
Theorem scrape_web_second_attempt url st page_title :
  context st = true →
  page_goto env (tick st) url = TimedOut →
  page_goto env (S (tick st)) url = Loaded page_title →
  Py.falsy page_title = false →
  ∃ st',
    _scrape_web env url st = (Returned page_title, st') ∧
    trace st'
    = ENavigate url :: ESleep (wait_exponential env 2 4 10 1)
        :: ENavigate url :: trace st.
Proof.
  intros Hc Hp1 Hp2 Ht.
  unfold _scrape_web, retry. simpl.
  unfold scrape_web_body at 1. unfold navigate at 1. rewrite Hc, Hp1. cbn [is_Exception].
  unfold scrape_web_body, navigate. cbn [context pause emit logger advance].
  rewrite Hc. cbn [tick pause emit logger advance].
  rewrite Hp2, Ht. eexists. split; reflexivity.
Qed.

(** *** Rows that are not fetched *)

Lemma dispatch_never_fetched row url st :
  Stored.never_fetched row →
  ∃ status note,
    dispatch env (Py.lower (extraction_strategy row)) url st
    = (Returned (status, note), st).
Proof.
  intros [Hrss Hscrape]. unfold dispatch. rewrite Hrss, Hscrape.
  destruct (Py.contains "api" _); eauto.
Qed.

Lemma process_rows_never_fetched rows : ∀ index df st,
  Forall Stored.never_fetched rows →
  Forall Stored.bookkeeping (trace st) →
  (process_rows env (iterrows_from index rows) df st).1.1 = None ∧
  browser (process_rows env (iterrows_from index rows) df st).2 = browser st ∧
  Forall Stored.bookkeeping (trace (process_rows env (iterrows_from index rows) df st).2).
Proof.
  induction rows as [|row rows IH]; intros index df st Hrows Hst; simpl; [auto|].
  apply Forall_cons in Hrows as [Hrow Hrows].
  assert (Hstep : ∃ df' st', process_row env index row df st = (None, df', st') ∧
                             browser st' = browser st ∧
                             Forall Stored.bookkeeping (trace st')).
  { unfold process_row. destruct (target_url row) as [url|]; [|eauto].
    destruct (Py.falsy url); [eauto|].
    destruct (dispatch_never_fetched row url
                (logger INFO ("Processing: " +:+ source_name row) st) Hrow)
      as (status & note & ->).
    destruct (record_outcome_state env index status note df
                (logger INFO ("Processing: " +:+ source_name row) st)) as (Hb & _ & Ht).
    destruct (record_outcome env index status note df _) as [df' st'].
    exists df', st'. split; [reflexivity|]. cbn [snd] in Ht, Hb.
    split; [exact Hb|]. rewrite Ht.
    destruct (index mod 5 =? 0)%nat; repeat constructor; exact Hst. }
  destruct Hstep as (df' & st' & -> & Hb & Hst').
  rewrite <- Hb. now apply IH.
Qed.

(** X10: a run over a registry whose strategies name neither a feed nor a
    page to scrape reaches no network and launches no browser: it only
    updates rows and saves the sheet, and no exception leaves it. *)
Theorem harvester_fetches_nothing_unasked rows :
  Forall Stored.never_fetched rows →
  (run env (init (Some rows))).1 = None ∧
  Forall Stored.bookkeeping (trace (run env (init (Some rows))).2).
Proof.
  intros Hrows. rewrite (run_loaded env).
  assert (Hno : existsb scrapes rows = false).
  { apply not_true_is_false. intros H. apply existsb_exists in H as (r & Hr & Hc).
    rewrite Forall_forall in Hrows. apply list_elem_of_In in Hr.
    destruct (Hrows r Hr) as [_ Hs]. unfold scrapes in Hc. congruence. }
  rewrite Hno.
  set (st := logger INFO "Loaded sources." _).
  destruct (process_rows_never_fetched rows 0 rows st Hrows) as (Hexn & Hb & Htrace);
    [constructor|].
  fold (iterrows rows) in Hexn, Hb, Htrace.
  destruct (process_rows env (iterrows rows) rows st) as [[exn df] st_loop].
  cbn [fst snd] in *. subst exn.
  unfold teardown.
  destruct (stop_browser_cases env st_loop) as [[_ ->]|[Hheld _]];
    [|rewrite Hb in Hheld; discriminate].
  split; [reflexivity|]. cbn [snd trace logger].
  destruct (save_data_state env df st_loop) as (-> & _).
  constructor; [exact I | exact Htrace].
Qed.

End HarvesterAttempts.

Lemma fetch_rss_second_attempt_witness :
  let env := Fixtures.harvester_env Samples.late_feed (λ _, Harvester.Written) in
  ∃ st',
    Harvester._fetch_rss env "https://example.org/feed" (Harvester.init None)
    = (Returned "Latest notice", st') ∧
    Harvester.trace st'
    = [Harvester.EParseFeed "https://example.org/feed"; Harvester.ESleep 2;
       Harvester.EParseFeed "https://example.org/feed"].
Proof.
  intros env.
  destruct (fetch_rss_second_attempt env "https://example.org/feed" (Harvester.init None))
    as [Hsecond _].
  apply (Hsecond Fixtures.empty_feed Fixtures.feed_404
           (Harvester.ValueError "RSS parsed but found no entries (Empty Feed).")
           "Latest notice"); reflexivity.
Defined.

Lemma scrape_web_second_attempt_witness :
  let env := Samples.scraping_env Samples.slow_site in
  ∃ st',
    Harvester._scrape_web env "https://www.dnb.nl/en/news/" Samples.browsing
    = (Returned "Press releases", st') ∧
    Harvester.trace st'
    = [Harvester.ENavigate "https://www.dnb.nl/en/news/"; Harvester.ESleep 4;
       Harvester.ENavigate "https://www.dnb.nl/en/news/"; Harvester.EStartBrowser].
Proof.
  intros env.
  apply (scrape_web_second_attempt env "https://www.dnb.nl/en/news/" Samples.browsing
           "Press releases"); reflexivity.
Defined.

Lemma harvester_fetches_nothing_unasked_witness :
  let env := Fixtures.harvester_env (λ _ _, Harvester.ParseInterrupted)
               (λ _, Harvester.Written) in
  (Harvester.run env (Harvester.init (Some Fixtures.gap_block))).1 = None ∧
  Forall Stored.bookkeeping
    (Harvester.trace (Harvester.run env (Harvester.init (Some Fixtures.gap_block))).2).
Proof.
  intros env.
  apply (harvester_fetches_nothing_unasked env Fixtures.gap_block).
  repeat constructor.
Defined.

(** ** The Harvester: checkpoints and teardown *)

Section HarvesterTeardown.

Import Registry Harvester.

Context (env : Env).

(** X21: the registry is saved after every updated row whose index is a
    multiple of five, and when every row has a target URL and the writes are
    accepted, a crash at any moment of a run loses the notes of at most five
    rows, whatever the browser does. *)
Theorem harvester_checkpoints_bound_loss :
  (∀ index status note df st,
     (index mod 5 = 0)%nat →
     trace (record_outcome env index status note df st).2
     = ESaveData (to_excel env (S (tick st))) :: EUpdateRow index :: trace st) ∧
  ((∀ n, to_excel env n = Written) →
   ∀ rows,
     Forall has_url rows →
     loses_at_most 5 (trace (run env (init (Some rows))).2)).
Proof.
  split.
  - intros index status note df st Hidx.
    destruct (record_outcome_state env index status note df st) as (_ & _ & ->).
    now rewrite Hidx.
  - intros Hwrites rows Hrows. rewrite (run_loaded env).
    set (st := logger INFO "Loaded sources." (init (Some rows))).
    assert (Hst : loses_at_most 5 (trace st)).
    { intros earlier Hsuf. apply suffix_nil_inv in Hsuf as ->. simpl. lia. }
    assert (Hstart : fetches st (if existsb scrapes rows then start_browser env st
                                 else (Returned (), st)).2).
    { destruct (existsb scrapes rows); [apply fetches_start_browser | apply fetches_refl]. }
    destruct (if existsb scrapes rows then _ else _) as [[u|e] st0]; cbn [snd] in *.
    2:{ eapply loses_at_most_fetches; eassumption. }
    pose proof (process_rows_bounded env Hwrites rows Hrows 0 rows st0) as Hsafe.
    fold (iterrows rows) in Hsafe.
    destruct (process_rows env (iterrows rows) rows st0) as [[exn df] st_loop].
    cbn [snd] in Hsafe.
    assert (Hloop : loses_at_most 5 (trace st_loop)).
    { apply Hsafe; [eapply loses_at_most_fetches; eassumption|].
      destruct Hstart as (events & -> & Hq). rewrite unsaved_quiet by assumption.
      simpl. lia. }
    destruct (teardown_trace env exn df st_loop) as (events & -> & [->|[reply ->]]).
    + apply (loses_at_most_quiet 5 [EStopBrowser]); [exact Hloop | now repeat constructor].
    + cbn [app]. apply loses_at_most_cons.
      * apply loses_at_most_quiet; [exact Hloop|].
        destruct (browser st_loop); now repeat constructor.
      * destruct reply; simpl; try lia.
        all: destruct (browser st_loop); simpl;
          apply (loses_at_most_now 5 _ Hloop).
Qed.

(** The loop keeps the browser it was given. *)
Lemma process_rows_keep_session rows st :
  context st = true →
  browser (process_rows env (iterrows rows) rows st).2 = browser st.
Proof.
  intros Hc.
  destruct (same_session_process_rows env (iterrows rows) rows st) as (Hb & _);
    [now left | exact Hb].
Qed.

(** The state in which the loop starts. *)
Lemma run_starts rows :
  (∀ n, launch env n = Launched) →
  ∃ st0,
    (if existsb scrapes rows
     then start_browser env (logger INFO "Loaded sources." (init (Some rows)))
     else (Returned (), logger INFO "Loaded sources." (init (Some rows))))
    = (Returned (), st0) ∧
    browser st0 = existsb scrapes rows ∧
    context st0 = existsb scrapes rows.
Proof.
  intros Hlaunch. destruct (existsb scrapes rows).
  - unfold start_browser. cbn [browser init logger]. rewrite Hlaunch.
    eexists. repeat split.
  - eexists. repeat split.
Qed.

(** X22: when the browser starts and closes without an error, a run ends
    by closing the browser it holds and then saving the registry as the loop
    left it, also when an exception leaves the loop: the exception leaves
    the run after the save, and the file holds the rows of the loop when the
    write is accepted. *)
Theorem harvester_saves_at_run_end rows :
  (∀ n, launch env n = Launched) →
  (∀ n, close env n = Closed) →
  ∃ st0 exn df st_loop,
    process_rows env (iterrows rows) rows st0 = (exn, df, st_loop) ∧
    (run env (init (Some rows))).1 = exn ∧
    browser (run env (init (Some rows))).2 = false ∧
    let saved_at := (if browser st_loop then S (tick st_loop) else tick st_loop) in
    trace (run env (init (Some rows))).2
    = ESaveData (to_excel env saved_at)
        :: (if browser st_loop then [EStopBrowser] else []) ++ trace st_loop ∧
    (to_excel env saved_at = Written →
     disk (run env (init (Some rows))).2 = Some df).
Proof.
  intros Hlaunch Hclose. rewrite (run_loaded env).
  destruct (run_starts rows Hlaunch) as (st0 & -> & _).
  destruct (process_rows env (iterrows rows) rows st0) as [[exn df] st_loop] eqn:Hloop.
  exists st0, exn, df, st_loop. split; [exact Hloop|].
  unfold teardown.
  destruct (stop_browser_cases env st_loop)
    as [[Hb ->]|(Hb & st1 & Ht & _ & Htick & [(_ & Hb1 & ->)|(msg & Hfail & _)])];
    [| |rewrite Hclose in Hfail; discriminate]; rewrite Hb; cbn [fst snd].
  - destruct (save_data_state env df st_loop) as (Ht & Hbr & Hd).
    split; [reflexivity|]. split; [cbn [browser logger]; congruence|].
    split; [cbn [trace logger]; exact Ht | exact Hd].
  - destruct (save_data_state env df st1) as (Ht1 & Hbr & Hd).
    rewrite Htick in *.
    split; [reflexivity|]. split; [cbn [browser logger]; congruence|].
    split; [cbn [trace logger]; now rewrite Ht1, Ht | exact Hd].
Qed.

(** X23: when the close of the browser raises, the run is left by this
    exception before the registry is saved: the last thing the run does is
    the attempt to close, the file stays as the last checkpoint of the loop
    left it, and an exception that had left the loop is lost. *)
Theorem failed_close_skips_final_save rows msg :
  existsb scrapes rows = true →
  (∀ n, launch env n = Launched) →
  (∀ n, close env n = CloseFailed msg) →
  ∃ st0 exn df st_loop,
    process_rows env (iterrows rows) rows st0 = (exn, df, st_loop) ∧
    (run env (init (Some rows))).1 = Some (LibraryError msg) ∧
    trace (run env (init (Some rows))).2 = EStopBrowser :: trace st_loop ∧
    disk (run env (init (Some rows))).2 = disk st_loop.
Proof.
  intros Hany Hlaunch Hclose. rewrite (run_loaded env).
  destruct (run_starts rows Hlaunch) as (st0 & -> & Hb0 & Hc0).
  rewrite Hany in Hb0, Hc0.
  pose proof (process_rows_keep_session rows st0 Hc0) as Hkept.
  destruct (process_rows env (iterrows rows) rows st0) as [[exn df] st_loop] eqn:Hloop.
  cbn [snd] in Hkept. rewrite Hb0 in Hkept.
  exists st0, exn, df, st_loop. split; [exact Hloop|].
  unfold teardown.
  destruct (stop_browser_cases env st_loop)
    as [[Hb _]|(_ & st1 & Ht & Hd & _ & [(Hok & _)|(msg' & Hfail & _ & ->)])].
  - congruence.
  - rewrite Hclose in Hok. discriminate.
  - rewrite Hclose in Hfail. injection Hfail as <-. auto.
Qed.

(** X24: when the launch of the browser raises, the run is left at once:
    the browser is started before the [try], so that no row is processed
    and nothing is saved. *)
Theorem failed_launch_ends_run rows msg :
  existsb scrapes rows = true →
  launch env 0 = LaunchFailed msg ∨ launch env 0 = ContextFailed msg →
  (run env (init (Some rows))).1 = Some (LibraryError msg) ∧
  trace (run env (init (Some rows))).2 = [EStartBrowser] ∧
  disk (run env (init (Some rows))).2 = Some rows.
Proof.
  intros Hany Hfail. rewrite (run_loaded env), Hany.
  unfold start_browser. cbn [browser tick init logger].
  destruct Hfail as [-> | ->]; repeat split.
Qed.

End HarvesterTeardown.

Lemma harvester_checkpoints_bound_loss_witness :
  let env := Fixtures.harvester_env Samples.interrupted_late (λ _, Harvester.Written) in
  let result := Harvester.run env (Harvester.init (Some Samples.long_registry)) in
  result.1 = Some Harvester.KeyboardInterrupt ∧
  Harvester.unsaved (tail (Harvester.trace result.2)) = 2%nat ∧
  Harvester.loses_at_most 5 (Harvester.trace result.2).
Proof.
  intros env result.
  destruct (harvester_checkpoints_bound_loss env) as [_ Hcrash].
  split; [vm_compute; reflexivity|]. split; [vm_compute; reflexivity|].
  apply Hcrash; [reflexivity|].
  repeat constructor; eexists; split; reflexivity.
Defined.

Lemma harvester_saves_at_run_end_witness :
  let env := Fixtures.harvester_env Samples.interrupted_late (λ _, Harvester.Written) in
  let result := Harvester.run env (Harvester.init (Some Samples.long_registry)) in
  result.1 = Some Harvester.KeyboardInterrupt ∧
  Harvester.browser result.2 = false ∧
  ∃ saved,
    Harvester.disk result.2 = Some saved ∧
    Registry.notes <$> saved !! 7%nat
    = Some (Some "[2025-01-01 10:00] Success - RSS OK: Latest notice...") ∧
    Registry.notes <$> saved !! 8%nat = Some None.
Proof.
  intros env result.
  destruct (harvester_saves_at_run_end env Samples.long_registry)
    as (st0 & exn & df & st_loop & _ & _ & Hbrowser & _); [reflexivity..|].
  split; [vm_compute; reflexivity|]. split; [exact Hbrowser|].
  eexists. split; [vm_compute; reflexivity|]. split; reflexivity.
Defined.

Lemma failed_close_skips_final_save_witness :
  let env := Samples.browser_env (λ _, Harvester.Launched)
               (λ _, Harvester.CloseFailed "Target closed") in
  let result := Harvester.run env (Harvester.init (Some Samples.mixed_registry)) in
  result.1 = Some (Harvester.LibraryError "Target closed") ∧
  head (Harvester.trace result.2) = Some Harvester.EStopBrowser ∧
  Harvester.disk result.2
  = Some [Registry.set_notes "[2025-01-01 10:00] Success - RSS OK: Latest notice..."
            (Fixtures.rss_row (Some "https://one.example/feed"));
          Samples.scrape_row "https://www.dnb.nl/en/news/"].
Proof.
  intros env result.
  destruct (failed_close_skips_final_save env Samples.mixed_registry "Target closed")
    as (st0 & exn & df & st_loop & _ & Hexn & Htrace & _); [reflexivity..|].
  split; [exact Hexn|]. split; [unfold result; now rewrite Htrace|].
  vm_compute. reflexivity.
Defined.

Lemma failed_launch_ends_run_witness :
  let env := Samples.browser_env (λ _, Harvester.LaunchFailed "Executable doesn't exist")
               (λ _, Harvester.Closed) in
  let result := Harvester.run env (Harvester.init (Some Samples.mixed_registry)) in
  result.1 = Some (Harvester.LibraryError "Executable doesn't exist") ∧
  Harvester.trace result.2 = [Harvester.EStartBrowser] ∧
  Harvester.disk result.2 = Some Samples.mixed_registry.
Proof.
  intros env result.
  apply (failed_launch_ends_run env Samples.mixed_registry "Executable doesn't exist");
    [reflexivity | now left].
Defined.

(** ** The Harvester: the note of a failed row *)

Section HarvesterDiagnostic.

Import Registry Harvester.

Context (env : Env).

Lemma clean_one_line s : Stored.one_line (clean s).
Proof.
  unfold Stored.one_line. induction s as [|c s IH]; simpl; [constructor|].
  case_bool_decide as Hn; [constructor; [split; discriminate | exact IH]|].
  case_bool_decide as Hr; [exact IH|].
  constructor; [split; assumption | exact IH].
Qed.

Lemma take_one_line n s : Stored.one_line s → Stored.one_line (Py.take n s).
Proof.
  unfold Stored.one_line, Py.take. generalize (N.to_nat n). clear n.
  intros n. revert n. induction s as [|c s IH]; intros n H.
  - destruct n; constructor.
  - destruct n as [|n]; simpl; [constructor|].
    inversion H as [|? ? Hc Hs]; subst. constructor; [exact Hc | now apply IH].
Qed.

Lemma take_length n s : (String.length (Py.take n s) <= N.to_nat n)%nat.
Proof.
  unfold Py.take. generalize (N.to_nat n). clear n.
  intros n. revert n. induction s as [|c s IH]; intros n.
  - destruct n; simpl; lia.
  - destruct n as [|n]; simpl; [lia|]. specialize (IH n). lia.
Qed.

Lemma append_length a b :
  String.length (a +:+ b) = (String.length a + String.length b)%nat.
Proof.
  induction a as [|c a IH]; [reflexivity|].
  rewrite append_cons. simpl. now rewrite IH.
Qed.

Lemma append_one_line a b :
  Stored.one_line a → Stored.one_line b → Stored.one_line (a +:+ b).
Proof.
  unfold Stored.one_line. intros Ha Hb.
  induction a as [|c a IH]; [exact Hb|].
  rewrite append_cons. simpl in *.
  inversion Ha; subst. constructor; auto.
Qed.

(** X11: when the fetch of a row fails, the row is recorded as failed with
    a diagnostic that is on one line and has at most 107 characters,
    whatever the text of the exception. *)
Theorem failed_row_note_one_line index row df st url e st1 :
  df !! index = Some row →
  target_url row = Some url → Py.falsy url = false →
  dispatch env (Py.lower (extraction_strategy row)) url
    (logger INFO ("Processing: " +:+ source_name row) st) = (Raised e, st1) →
  is_Exception e = true →
  ∃ df' st' diagnostic,
    process_row env index row df st = (None, df', st') ∧
    notes <$> df' !! index
    = Some (Some ("[" +:+ now env (tick st1) +:+ "] Failed - " +:+ diagnostic)) ∧
    Stored.one_line diagnostic ∧
    (String.length diagnostic <= 107)%nat.
Proof.
  intros Hrow Hurl Hfalsy Hdispatch He.
  unfold process_row. rewrite Hurl, Hfalsy, Hdispatch, He.
  unfold record_outcome. cbn [tick logger].
  set (diagnostic := "Error: " +:+ Py.take 100%N (clean (str_exn env e))).
  assert (Hline : Stored.one_line diagnostic).
  { apply append_one_line; [repeat constructor; discriminate|].
    apply take_one_line, clean_one_line. }
  assert (Hlen : (String.length diagnostic <= 107)%nat).
  { subst diagnostic. rewrite append_length.
    pose proof (take_length 100%N (clean (str_exn env e))) as H.
    change (N.to_nat 100) with 100%nat in H. simpl String.length at 1. lia. }
  destruct (index mod 5 =? 0)%nat; eexists _, _, diagnostic;
    (split; [reflexivity|]);
    (split; [rewrite list_lookup_alter_eq, Hrow; reflexivity | auto]).
Qed.

End HarvesterDiagnostic.

Lemma failed_row_note_one_line_witness :
  let env := Fixtures.harvester_env (λ _ _, Harvester.Parsed Fixtures.empty_feed)
               (λ _, Harvester.Written) in
  let row := Fixtures.rss_row (Some "https://example.org/feed") in
  ∃ df' st' diagnostic,
    Harvester.process_row env 0 row [row] (Harvester.init None) = (None, df', st') ∧
    Registry.notes <$> df' !! 0%nat
    = Some (Some ("[2025-01-01 10:00] Failed - " +:+ diagnostic)) ∧
    Stored.one_line diagnostic.
Proof.
  intros env row.
  destruct (failed_row_note_one_line env 0%nat row [row] (Harvester.init None)
              "https://example.org/feed"
              (Harvester.RetryError
                 (Harvester.ValueError "RSS parsed but found no entries (Empty Feed)."))
              (Harvester._fetch_rss env "https://example.org/feed"
                 (Harvester.logger Harvester.INFO "Processing: ESMA" (Harvester.init None))).2)
    as (df' & st' & diagnostic & Hp & Hn & Hl & _).
  - reflexivity.
  - reflexivity.
  - reflexivity.
  - vm_compute. reflexivity.
  - reflexivity.
  - exists df', st', diagnostic. auto.
Defined.

(** ** The Analyst: documents that are not classified *)

Section AnalystSkips.

Import Analyst.

Context (env : Env).

(** X12: a document whose text is missing or has fewer than 100 characters
    is skipped with a warning: no engine call, no record. *)
Theorem short_document_never_classified filename data results st :
  match Json.get "content_clean" data with
  | None => True
  | Some (Json.Str content) => (String.length content < 100)%nat
  | Some _ => False
  end →
  intelligence st !! filename = None →
  ∃ st',
    analyse_file env filename (Json.Object data) results st = (Returned results, st') ∧
    trace st' = trace st ∧
    intelligence st' = intelligence st ∧
    (WARNING, "Content too short.") ∈ log st'.
Proof.
  intros Hcontent Hnew. rewrite (analyse_file_new env filename data results st Hnew).
  unfold analyse_document, screen_length.
  destruct (Json.get "content_clean" data) as [v|]; cbn [default from_option id].
  - destruct v as [| | |content| |]; try contradiction.
    apply Nat.ltb_lt in Hcontent. rewrite Hcontent, orb_true_r.
    eexists. repeat split. apply list_elem_of_here.
  - eexists. repeat split. apply list_elem_of_here.
Qed.

(** X13: of the errors of reading a file the loop catches those of the JSON
    syntax only.  A file that is text but no JSON, be it a document or a
    record, costs an error in the log and nothing else, and the loop goes on
    with the next file.  A file that cannot be opened or decoded, and a
    document that holds JSON of another kind than an object, end the loop
    with their exception, before anything is done for the files that
    follow. *)
Theorem loop_catches_json_errors_only filename file rest results st :
  (intelligence st !! filename = Some Json.Corrupted ∨
   (intelligence st !! filename = None ∧ file = Json.Corrupted) →
   ∃ msg,
     let st' := logger ERROR msg st in
     analyse_file env filename file results st = (Returned results, st') ∧
     analyse_files env ((filename, file) :: rest) results st
     = analyse_files env rest results st') ∧
  (∀ msg,
     intelligence st !! filename = Some (Json.Unreadable msg) ∨
     (intelligence st !! filename = None ∧ file = Json.Unreadable msg) →
     analyse_files env ((filename, file) :: rest) results st
     = (Raised (ReadError msg), st)) ∧
  (∀ v,
     intelligence st !! filename = None → file = Json.Parsed v →
     (∀ data, v ≠ Json.Obj data) →
     analyse_files env ((filename, file) :: rest) results st
     = (Raised (AttributeError "object has no attribute 'get'"), st)).
Proof.
  split; [|split].
  - intros [H|[H ->]]; unfold analyse_files, analyse_file; rewrite H;
      eexists; split; reflexivity.
  - intros msg [H|[H ->]]; unfold analyse_files, analyse_file; now rewrite H.
  - intros v H -> Hv. unfold analyse_files, analyse_file. rewrite H. cbn [load].
    destruct v; try reflexivity. now destruct (Hv o).
Qed.

(** X14: without credentials the engine is the mock, which always answers:
    a document that passes the filters gets its record, with the mock's
    score of 5 and the engine name MOCK, and keeps the fields of the raw
    document that the mock does not name. *)
Theorem mock_engine_always_classifies filename data content results st :
  truthy (GEMINI_API_KEY env) = false →
  truthy (OPENAI_API_KEY env) = false →
  intelligence st !! filename = None →
  screen_length data = Text content →
  is_blocked content = false →
  ∃ record st',
    analyse_file env filename (Json.Object data) results st
    = (Returned (results ++ [Json.Obj record]), st') ∧
    intelligence st' !! filename = Some (Json.Object record) ∧
    Json.get "engine" record = Some (Json.Str "MOCK") ∧
    Json.get "impact_score" record = Some (Json.Num 5) ∧
    Json.get "url" record = Json.get "url" data ∧
    Json.get "source" record = Json.get "source" data ∧
    trace st'
    = ESleep 4000 :: EWriteRecord filename :: ESleep 500
        :: EEngineCall MOCK content :: trace st.
Proof.
  intros Hg Ho Hnew Hlen Hok.
  assert (Hengine : ENGINE env = MOCK) by (unfold ENGINE; now rewrite Hg, Ho).
  rewrite (analyse_file_new env filename data results st Hnew).
  unfold analyse_document. rewrite Hlen, Hok.
  unfold classify, analyze. rewrite Hengine.
  unfold _mock_analysis. cbn [forallb required_keys Json.has Json.get decide].
  eexists _, _. split; [reflexivity|].
  split; [cbn; apply lookup_insert_eq|].
  split; [apply get_merge_engine_name|].
  split; [apply get_merge_engine; [compute_done | reflexivity | discriminate..]|].
  split; [apply get_merge_raw; [reflexivity | discriminate..]|].
  split; [apply get_merge_raw; [reflexivity | discriminate..]|].
  reflexivity.
Qed.

(** The three attempts of the Gemini engine, whatever the third yields. *)
Lemma gemini_third_attempt content st msg1 msg2 :
  generate_content env (tick st) (Py.take 30000%N content) = EngineFailed msg1 →
  generate_content env (S (tick st)) (Py.take 30000%N content) = EngineFailed msg2 →
  _analyze_with_gemini env content st
  = (match engine_result
             (generate_content env (S (S (tick st))) (Py.take 30000%N content)) with
     | Returned v => Returned v
     | Raised e => Raised (RetryError e)
     end,
     emit (EEngineCall GEMINI (Py.take 30000%N content))
       (advance
          (emit (ESleep (wait_exponential env 2 2 20 2))
             (emit (EEngineCall GEMINI (Py.take 30000%N content))
                (advance
                   (emit (ESleep (wait_exponential env 2 2 20 1))
                      (emit (EEngineCall GEMINI (Py.take 30000%N content))
                         (advance st)))))))).
Proof.
  intros H1 H2.
  unfold _analyze_with_gemini, retry. cbn [Nat.sub attempt].
  unfold gemini_body at 1. rewrite H1. cbn [engine_result is_Exception].
  unfold gemini_body at 1. cbn [tick pause emit advance]. rewrite H2.
  cbn [engine_result is_Exception].
  unfold gemini_body at 1. cbn [tick pause emit advance].
  now destruct (engine_result _).
Qed.

(** X15: an engine that fails at its three attempts costs the document its
    record for this run and nothing more: the three calls are made, with a
    pause after the first and after the second, an error is logged and the
    loop goes on. *)
Theorem engine_failure_is_not_fatal filename data content rest results st msg1 msg2 msg3 :
  ENGINE env = GEMINI →
  intelligence st !! filename = None →
  screen_length data = Text content →
  is_blocked content = false →
  generate_content env (tick st) (Py.take 30000%N content) = EngineFailed msg1 →
  generate_content env (S (tick st)) (Py.take 30000%N content) = EngineFailed msg2 →
  generate_content env (S (S (tick st))) (Py.take 30000%N content) = EngineFailed msg3 →
  ∃ st',
    analyse_file env filename (Json.Object data) results st = (Returned results, st') ∧
    intelligence st' = intelligence st ∧
    trace st'
    = EEngineCall GEMINI (Py.take 30000%N content)
        :: ESleep (wait_exponential env 2 2 20 2)
        :: EEngineCall GEMINI (Py.take 30000%N content)
        :: ESleep (wait_exponential env 2 2 20 1)
        :: EEngineCall GEMINI (Py.take 30000%N content) :: trace st ∧
    (ERROR, "Analysis failed") ∈ log st' ∧
    analyse_files env ((filename, Json.Object data) :: rest) results st
    = analyse_files env rest results st'.
Proof.
  intros Hengine Hnew Hlen Hok H1 H2 H3.
  assert (Hfile : ∃ st',
    analyse_file env filename (Json.Object data) results st = (Returned results, st') ∧
    intelligence st' = intelligence st ∧
    trace st'
    = EEngineCall GEMINI (Py.take 30000%N content)
        :: ESleep (wait_exponential env 2 2 20 2)
        :: EEngineCall GEMINI (Py.take 30000%N content)
        :: ESleep (wait_exponential env 2 2 20 1)
        :: EEngineCall GEMINI (Py.take 30000%N content) :: trace st ∧
    (ERROR, "Analysis failed") ∈ log st').
  { rewrite (analyse_file_new env filename data results st Hnew).
    unfold analyse_document. rewrite Hlen, Hok.
    unfold classify, analyze. rewrite Hengine.
    rewrite (gemini_third_attempt content (logger INFO "Analyzing" st) msg1 msg2 H1 H2).
    cbn [tick logger]. rewrite H3. cbn [engine_result].
    eexists. split; [reflexivity|]. split; [reflexivity|].
    split; [reflexivity | apply list_elem_of_here]. }
  destruct Hfile as (st' & Hfile & Hi & Ht & Hl).
  exists st'. repeat split; try assumption.
  simpl analyse_files. now rewrite Hfile.
Qed.

(** X16: the answer of a third attempt is used: after two failed calls the
    object the engine then returns is merged with the document and saved as
    the record, which holds every field of the answer with the engine's
    value, the fields of the document that the answer does not name, the
    moment of the third answer and the name of the engine. *)
Theorem engine_third_attempt_is_used filename data content results st msg1 msg2 analysis :
  ENGINE env = GEMINI →
  intelligence st !! filename = None →
  screen_length data = Text content →
  is_blocked content = false →
  generate_content env (tick st) (Py.take 30000%N content) = EngineFailed msg1 →
  generate_content env (S (tick st)) (Py.take 30000%N content) = EngineFailed msg2 →
  generate_content env (S (S (tick st))) (Py.take 30000%N content)
    = EngineAnswered (Json.Obj analysis) →
  NoDup (Json.keys analysis) →
  ∃ record st',
    analyse_file env filename (Json.Object data) results st
    = (Returned (results ++ [Json.Obj record]), st') ∧
    intelligence st' !! filename = Some (Json.Object record) ∧
    (∀ k v, Json.get k analysis = Some v → k ≠ "analyzed_at" → k ≠ "engine" →
            Json.get k record = Some v) ∧
    (∀ k, Json.get k analysis = None → k ≠ "analyzed_at" → k ≠ "engine" →
          Json.get k record = Json.get k data) ∧
    Json.get "analyzed_at" record = Some (Json.Str (now env (S (S (S (tick st)))))) ∧
    Json.get "engine" record = Some (Json.Str "GEMINI") ∧
    engine_calls (trace st')
    = EEngineCall GEMINI (Py.take 30000%N content)
        :: EEngineCall GEMINI (Py.take 30000%N content)
        :: EEngineCall GEMINI (Py.take 30000%N content)
        :: engine_calls (trace st).
Proof.
  intros Hengine Hnew Hlen Hok H1 H2 H3 Hnd.
  rewrite (analyse_file_new env filename data results st Hnew).
  unfold analyse_document. rewrite Hlen, Hok.
  unfold classify, analyze. rewrite Hengine.
  rewrite (gemini_third_attempt content (logger INFO "Analyzing" st) msg1 msg2 H1 H2).
  cbn [tick logger]. rewrite H3. cbn [engine_result].
  set (record := merge data analysis (now env (S (S (S (tick st))))) GEMINI).
  assert (Hcontent :
    (∀ k v, Json.get k analysis = Some v → k ≠ "analyzed_at" → k ≠ "engine" →
            Json.get k record = Some v) ∧
    (∀ k, Json.get k analysis = None → k ≠ "analyzed_at" → k ≠ "engine" →
          Json.get k record = Json.get k data) ∧
    Json.get "analyzed_at" record = Some (Json.Str (now env (S (S (S (tick st)))))) ∧
    Json.get "engine" record = Some (Json.Str "GEMINI")).
  { split; [intros k v Hk Ha He; now apply get_merge_engine|].
    split; [intros k Hk Ha He; now apply get_merge_raw|].
    split; [apply get_merge_analyzed_at | apply get_merge_engine_name]. }
  destruct Hcontent as (Hc1 & Hc2 & Hc3 & Hc4).
  exists record.
  destruct (forallb _ required_keys); eexists;
    (split; [reflexivity|]); (split; [cbn; apply lookup_insert_eq|]);
    repeat (split; [assumption|]); reflexivity.
Qed.

End AnalystSkips.

Lemma short_document_never_classified_witness :
  let env := Fixtures.gemini_env (λ _ _, Analyst.EngineAnswered (Json.Obj Fixtures.full_answer)) in
  ∃ st',
    Analyst.analyse_file env "s.json" (Json.Object Samples.short_document) []
      Fixtures.analyst_start = (Returned [], st') ∧
    Analyst.trace st' = [] ∧
    Analyst.intelligence st' = ∅.
Proof.
  intros env.
  destruct (short_document_never_classified env "s.json" Samples.short_document []
              Fixtures.analyst_start) as (st' & Hrun & Ht & Hi & _).
  - apply Nat.ltb_lt. vm_compute. reflexivity.
  - reflexivity.
  - exists st'. auto.
Defined.

Lemma loop_catches_json_errors_only_witness :
  let env := Fixtures.gemini_env (λ _ _, Analyst.EngineAnswered (Json.Obj Fixtures.full_answer)) in
  let listing :=
    [("broken.json", Json.Corrupted);
     ("latin1.json", Json.Unreadable "'utf-8' codec can't decode byte 0xe9");
     ("a.json", Json.Object Fixtures.raw_document)] in
  ∃ st',
    Analyst.run env (Some listing) Fixtures.analyst_start
    = (Raised (Analyst.ReadError "'utf-8' codec can't decode byte 0xe9"), st') ∧
    Analyst.log st'
    = [(Analyst.ERROR, "Corrupted input file");
       (Analyst.INFO, "Found articles to analyze.")] ∧
    Analyst.trace st' = [] ∧
    Analyst.intelligence st' = ∅ ∧
    Analyst.report st' = None.
Proof.
  intros env listing.
  set (st0 := Analyst.logger Analyst.INFO "Found articles to analyze." Fixtures.analyst_start).
  destruct (loop_catches_json_errors_only env "broken.json" Json.Corrupted
              [("latin1.json", Json.Unreadable "'utf-8' codec can't decode byte 0xe9");
               ("a.json", Json.Object Fixtures.raw_document)] [] st0)
    as (Hskip & _ & _).
  destruct Hskip as (msg & Hfile & Hrest); [right; split; reflexivity|].
  injection Hfile as Hmsg.
  destruct (loop_catches_json_errors_only env "latin1.json"
              (Json.Unreadable "'utf-8' codec can't decode byte 0xe9")
              [("a.json", Json.Object Fixtures.raw_document)] []
              (Analyst.logger Analyst.ERROR msg st0))
    as (_ & Hraise & _).
  specialize (Hraise "'utf-8' codec can't decode byte 0xe9"
                ltac:(right; split; reflexivity)).
  exists (Analyst.logger Analyst.ERROR msg st0).
  split.
  - unfold Analyst.run, listing. cbn [filter]. fold st0.
    change (filter _ _) with listing. unfold listing.
    rewrite Hrest, Hraise. reflexivity.
  - rewrite <- Hmsg. repeat split.
Defined.

Lemma mock_engine_always_classifies_witness :
  ∃ record st',
    Analyst.analyse_file Samples.mock_env "a.json" (Json.Object Fixtures.raw_document) []
      Fixtures.analyst_start = (Returned ([] ++ [Json.Obj record]), st') ∧
    Analyst.intelligence st' !! "a.json" = Some (Json.Object record) ∧
    Json.get "engine" record = Some (Json.Str "MOCK") ∧
    Json.get "impact_score" record = Some (Json.Num 5).
Proof.
  destruct (mock_engine_always_classifies Samples.mock_env "a.json" Fixtures.raw_document
              Fixtures.article_text [] Fixtures.analyst_start)
    as (record & st' & Hrun & Hs & He & Hi & _); try reflexivity.
  exists record, st'. auto.
Defined.

Lemma engine_failure_is_not_fatal_witness :
  let env := Fixtures.gemini_env Fixtures.flaky_engine in
  ∃ st',
    Analyst.analyse_file env "a.json" (Json.Object Fixtures.raw_document) []
      Fixtures.analyst_start = (Returned [], st') ∧
    Analyst.intelligence st' = ∅ ∧
    (Analyst.ERROR, "Analysis failed") ∈ Analyst.log st'.
Proof.
  intros env.
  destruct (engine_failure_is_not_fatal env "a.json" Fixtures.raw_document
              Fixtures.article_text [] [] Fixtures.analyst_start
              "503 Service Unavailable" "503 Service Unavailable" "503 Service Unavailable")
    as (st' & Hrun & Hi & _ & Hl & _); try reflexivity.
  exists st'. auto.
Defined.

Lemma engine_third_attempt_is_used_witness :
  let env := Fixtures.gemini_env Samples.slow_engine in
  ∃ record st',
    Analyst.analyse_file env "a.json" (Json.Object Fixtures.raw_document) []
      Fixtures.analyst_start = (Returned ([] ++ [Json.Obj record]), st') ∧
    Analyst.intelligence st' !! "a.json" = Some (Json.Object record) ∧
    Json.get "summary" record = Some (Json.Str "Guidelines published.") ∧
    Json.get "impact_score" record = Some (Json.Num 7) ∧
    Json.get "url" record = Some (Json.Str "https://www.esma.europa.eu/news") ∧
    Json.get "engine" record = Some (Json.Str "GEMINI") ∧
    length (Analyst.engine_calls (Analyst.trace st')) = 3%nat.
Proof.
  intros env.
  destruct (engine_third_attempt_is_used env "a.json" Fixtures.raw_document
              Fixtures.article_text [] Fixtures.analyst_start
              "503 Service Unavailable" "503 Service Unavailable" Fixtures.full_answer)
    as (record & st' & Hrun & Hs & Hengine & Hraw & _ & Hname & Hc);
    try reflexivity; [compute_done|].
  exists record, st'. split; [exact Hrun|]. split; [exact Hs|].
  split; [apply Hengine; [reflexivity | discriminate..]|].
  split; [apply Hengine; [reflexivity | discriminate..]|].
  split; [rewrite Hraw; [reflexivity | reflexivity | discriminate..]|].
  split; [exact Hname|].
  now rewrite Hc.
Defined.

(** ** The report: its columns and its rows *)

Section ReportShape.

Import Analyst.

Lemma add_column_NoDup cols k : NoDup cols → NoDup (add_column cols k).
Proof.
  intros H. unfold add_column. case_bool_decide as Hk; [exact H|].
  apply NoDup_app. repeat split; [exact H | | apply NoDup_singleton].
  intros x Hx Hx'. apply list_elem_of_singleton in Hx'. now subst x.
Qed.

Lemma dataframe_columns_NoDup results : NoDup (dataframe_columns results).
Proof.
  unfold dataframe_columns.
  assert (H : ∀ l acc, NoDup acc → NoDup (fold_left add_column l acc)).
  { induction l as [|k l IH]; intros acc Hacc; simpl; [exact Hacc|].
    apply IH, add_column_NoDup, Hacc. }
  apply H. constructor.
Qed.

Lemma elem_of_dataframe_columns c results :
  c ∈ dataframe_columns results ↔ ∃ r, r ∈ results ∧ c ∈ Json.keys r.
Proof.
  unfold dataframe_columns. rewrite elem_of_add_columns, elem_of_nil.
  rewrite list_elem_of_In, in_concat. split.
  - intros [[]|(keys & Hkeys & Hc)].
    apply in_map_iff in Hkeys as (r & <- & Hr).
    exists r. now rewrite !list_elem_of_In.
  - intros (r & Hr & Hc). right. exists (Json.keys r).
    split; [apply in_map; now apply list_elem_of_In | now apply list_elem_of_In].
Qed.

Context (env : Env).

(** The columns of the table, as [_generate_csv_report] orders them. *)
Lemma report_columns results st st' :
  results ≠ [] →
  _generate_csv_report env (Json.Obj <$> results) st = (Returned (), st') →
  ∃ table,
    report st' = Some table ∧
    columns table
    = filter (λ c, c ∈ dataframe_columns results) priority_cols
      ++ filter (λ c, c ∉ filter (λ c, c ∈ dataframe_columns results) priority_cols)
           (dataframe_columns results) ∧
    rows table ≡ₚ results.
Proof.
  intros Hne. rewrite (generate_csv_report_records env results st Hne).
  unfold report_of_records.
  case_bool_decide; [destruct (forallb _ _); [|discriminate]|];
    intros [= <-]; eexists; (split; [reflexivity|]); (split; [reflexivity|]); cbn [rows].
  - apply merge_sort_Permutation.
  - reflexivity.
Qed.

(** X17: the table of the report has one column for every field that some
    record has, each once, and the columns date, source, impact_score,
    summary, tags and url, as far as they occur, come first and in this
    order. *)
Theorem report_columns_priority_first results st st' :
  results ≠ [] →
  _generate_csv_report env (Json.Obj <$> results) st = (Returned (), st') →
  ∃ table,
    report st' = Some table ∧
    NoDup (columns table) ∧
    (∀ c, c ∈ columns table ↔ ∃ r, r ∈ results ∧ c ∈ Json.keys r) ∧
    ∃ others,
      columns table = filter (λ c, c ∈ columns table) priority_cols ++ others ∧
      Forall (λ c, c ∉ priority_cols) others.
Proof.
  intros Hne Hrun.
  destruct (report_columns results st st' Hne Hrun) as (table & Hrep & Hcols & _).
  exists table. split; [exact Hrep|].
  set (cols := dataframe_columns results) in *.
  set (first := filter (λ c, c ∈ cols) priority_cols) in *.
  assert (Hfirst : ∀ c, c ∈ first ↔ c ∈ priority_cols ∧ c ∈ cols).
  { intros c. subst first. rewrite list_elem_of_filter. tauto. }
  assert (Hmem : ∀ c, c ∈ columns table ↔ c ∈ cols).
  { intros c. rewrite Hcols, elem_of_app, list_elem_of_filter, Hfirst.
    destruct (decide (c ∈ priority_cols)); tauto. }
  split; [|split].
  - rewrite Hcols. apply NoDup_app. repeat split.
    + apply NoDup_filter. compute_done.
    + intros c Hc Hc'. apply list_elem_of_filter in Hc' as [Hc' _]. contradiction.
    + apply NoDup_filter, dataframe_columns_NoDup.
  - intros c. rewrite Hmem. apply elem_of_dataframe_columns.
  - exists (filter (λ c, c ∉ first) cols). split.
    + rewrite Hcols at 1. f_equal. subst first.
      apply list_filter_iff. intros c. now rewrite Hmem.
    + apply Forall_forall. intros c Hc.
      apply list_elem_of_filter in Hc as [Hc Hc'].
      intros Hp. apply Hc, Hfirst. auto.
Qed.

Lemma persisted_mono records records' r :
  records ⊆ records' → Stored.persisted records r → Stored.persisted records' r.
Proof.
  intros Hsub [name Hname]. exists name.
  now apply (lookup_weaken records).
Qed.

Lemma analyze_report content st :
  report (analyze env content st).2 = report st.
Proof.
  unfold analyze, _analyze_with_gemini, _analyze_with_openai, retry.
  destruct (ENGINE env); [reflexivity|..];
    apply (attempt_preserves _ _ _ _ report); reflexivity.
Qed.

Lemma analyse_document_report filename data results st :
  report (analyse_document env filename data results st).2 = report st.
Proof.
  unfold analyse_document.
  destruct (screen_length data) as [|content|e]; [reflexivity| |reflexivity].
  destruct (is_blocked content); [reflexivity|].
  unfold classify.
  pose proof (analyze_report content (logger INFO "Analyzing" st)) as Hr.
  destruct (analyze env content (logger INFO "Analyzing" st)) as [[v|e] st1];
    cbn [snd] in Hr; [|exact Hr].
  destruct v; try exact Hr.
  destruct (forallb _ required_keys); exact Hr.
Qed.

Lemma analyse_file_report filename file results st :
  report (analyse_file env filename file results st).2 = report st.
Proof.
  unfold analyse_file.
  destruct (intelligence st !! filename) as [output|].
  { destruct (load output) as [v|e]; [reflexivity | now destruct e]. }
  destruct (load file) as [v|e]; [|now destruct e].
  destruct v; try reflexivity. apply analyse_document_report.
Qed.

Lemma analyse_files_report files results st :
  report (analyse_files env files results st).2 = report st.
Proof.
  revert results st. induction files as [|[filename file] files IH];
    intros results st; simpl; [reflexivity|].
  pose proof (analyse_file_report filename file results st) as Hstep.
  destruct (analyse_file env filename file results st) as [[results'|e] st'];
    simpl in *; [|assumption].
  now rewrite IH.
Qed.

Lemma object_records_insert records name record :
  Stored.object_records records →
  Stored.object_records (<[name := Json.Object record]> records).
Proof.
  intros Hobj name' v. destruct (decide (name = name')) as [<-|Hne].
  - rewrite lookup_insert_eq. intros [= <-]. now exists record.
  - rewrite lookup_insert_ne by exact Hne. apply Hobj.
Qed.

Lemma analyse_file_object_records filename file results st :
  Stored.object_records (intelligence st) →
  Stored.object_records (intelligence (analyse_file env filename file results st).2).
Proof.
  intros Hobj.
  destruct (analyse_file_intelligence env filename file results st)
    as [->|(_ & record & ->)]; [exact Hobj | now apply object_records_insert].
Qed.

(** What the loop appends for a document is the record it has stored. *)
Lemma analyse_document_persisted filename data records st results' st' :
  analyse_document env filename data (Json.Obj <$> records) st = (Returned results', st') →
  results' = Json.Obj <$> records ∨
  ∃ record,
    results' = Json.Obj <$> (records ++ [record]) ∧
    intelligence st' !! filename = Some (Json.Object record).
Proof.
  unfold analyse_document.
  destruct (screen_length data) as [|content|e]; [intros [= <- <-]; now left| |discriminate].
  destruct (is_blocked content); [intros [= <- <-]; now left|].
  unfold classify.
  destruct (analyze env content (logger INFO "Analyzing" st)) as [[v|e] st1];
    [|intros [= <- <-]; now left].
  destruct v; try (intros [= <- <-]; now left).
  intros [= <- <-]. right. eexists. split; [now rewrite fmap_app|].
  cbn. apply lookup_insert_eq.
Qed.

(** What a turn of the loop appends to the results is a record of the
    store. *)
Lemma analyse_file_persisted filename file records st results' st' :
  Stored.object_records (intelligence st) →
  analyse_file env filename file (Json.Obj <$> records) st = (Returned results', st') →
  Forall (Stored.persisted (intelligence st)) records →
  ∃ records',
    results' = Json.Obj <$> records' ∧
    Forall (Stored.persisted (intelligence st')) records'.
Proof.
  intros Hobj Hrun Hold.
  pose proof (analyse_file_grows env filename file (Json.Obj <$> records) st) as Hsub.
  rewrite Hrun in Hsub. cbn [snd] in Hsub.
  assert (Hold' : Forall (Stored.persisted (intelligence st')) records).
  { eapply Forall_impl; [exact Hold|]. intros r. now apply persisted_mono. }
  revert Hrun. unfold analyse_file.
  destruct (intelligence st !! filename) as [output|] eqn:Hfile.
  - destruct output as [msg| |v]; cbn [load].
    + discriminate.
    + intros [= <- <-]. now exists records.
    + destruct (Hobj filename v Hfile) as [record ->].
      intros [= <- <-]. exists (records ++ [record]). split; [now rewrite fmap_app|].
      apply Forall_app. split; [exact Hold|].
      constructor; [now exists filename | constructor].
  - destruct file as [msg| |v]; cbn [load].
    + discriminate.
    + intros [= <- <-]. now exists records.
    + destruct v; try discriminate. intros Hdoc.
      destruct (analyse_document_persisted filename _ records st results' st' Hdoc)
        as [->|(record & -> & Hrec)]; [now exists records|].
      exists (records ++ [record]). split; [reflexivity|].
      apply Forall_app. split; [exact Hold'|].
      constructor; [now exists filename | constructor].
Qed.

Lemma analyse_files_persisted files records st results' st' :
  Stored.object_records (intelligence st) →
  analyse_files env files (Json.Obj <$> records) st = (Returned results', st') →
  Forall (Stored.persisted (intelligence st)) records →
  ∃ records',
    results' = Json.Obj <$> records' ∧
    Forall (Stored.persisted (intelligence st')) records'.
Proof.
  revert records st. induction files as [|[filename file] files IH];
    intros records st Hobj; simpl.
  - intros [= <- <-] Hold. now exists records.
  - pose proof (analyse_file_object_records filename file (Json.Obj <$> records) st Hobj)
      as Hobj1.
    destruct (analyse_file env filename file (Json.Obj <$> records) st)
      as [[results1|e] st1] eqn:Hstep; [|discriminate].
    cbn [snd] in Hobj1. intros Hrest Hold.
    destruct (analyse_file_persisted filename file records st results1 st1 Hobj Hstep Hold)
      as (records1 & -> & Hold1).
    now apply (IH records1 st1 Hobj1).
Qed.

(** X18: when every file of data/intelligence that parses holds a JSON
    object, a run of the analyst that comes to its end leaves the report as
    it was, or writes a report each of whose rows is a record that
    data/intelligence holds when the run is over. *)
Theorem report_rows_are_stored_records processed st st' :
  Stored.object_records (intelligence st) →
  run env processed st = (Returned (), st') →
  report st' = report st ∨
  ∃ table,
    report st' = Some table ∧
    rows table ≠ [] ∧
    Forall (Stored.persisted (intelligence st')) (rows table).
Proof.
  intros Hobj.
  unfold run. destruct processed as [listing|]; [|intros [= <-]; now left].
  destruct (filter _ listing) as [|f files] eqn:Hfiles; [intros [= <-]; now left|].
  set (st0 := logger INFO "Found articles to analyze." st).
  pose proof (analyse_files_report (f :: files) [] st0) as Hrep.
  destruct (analyse_files env (f :: files) [] st0) as [[results|e] st1] eqn:Hloop;
    [|discriminate].
  cbn [snd] in Hrep. intros Hcsv.
  destruct (analyse_files_persisted (f :: files) [] st0 results st1 Hobj Hloop)
    as (records & -> & Hold); [constructor|].
  destruct records as [|r records].
  { left. injection Hcsv as <-. exact Hrep. }
  right.
  destruct (report_columns (r :: records) st1 st' ltac:(discriminate) Hcsv)
    as (table & Htable & _ & Hrows).
  exists table. split; [exact Htable|]. split.
  { intros Hnil. rewrite Hnil in Hrows. now apply Permutation_nil_cons in Hrows. }
  rewrite Hrows.
  pose proof (generate_csv_report_intelligence env (Json.Obj <$> r :: records) st1) as Hi.
  rewrite Hcsv in Hi. cbn [snd] in Hi. now rewrite Hi.
Qed.

End ReportShape.

Lemma report_columns_priority_first_witness :
  let env := Fixtures.gemini_env (λ _ _, Analyst.EngineFailed "no call") in
  let results := [Fixtures.raw_document; Fixtures.full_answer] in
  let st' := (Analyst._generate_csv_report env (Json.Obj <$> results)
                Fixtures.analyst_start).2 in
  ∃ table,
    Analyst.report st' = Some table ∧
    NoDup (Analyst.columns table) ∧
    Analyst.columns table
    = ["date"; "source"; "impact_score"; "summary"; "tags"; "url";
       "downloaded_at"; "content_clean"].
Proof.
  intros env results st'.
  destruct (report_columns_priority_first env results Fixtures.analyst_start st')
    as (table & Hrep & Hnodup & _); [discriminate | vm_compute; reflexivity |].
  exists table. split; [exact Hrep|]. split; [exact Hnodup|].
  assert (Hst : Analyst.report st' = Some
            {| Analyst.columns :=
                 ["date"; "source"; "impact_score"; "summary"; "tags"; "url";
                  "downloaded_at"; "content_clean"];
               Analyst.rows := Analyst.sort_values results |})
    by (vm_compute; reflexivity).
  rewrite Hst in Hrep. now injection Hrep as <-.
Defined.

Lemma report_rows_are_stored_records_witness :
  let env := Fixtures.gemini_env (λ _ _, Analyst.EngineAnswered (Json.Obj Fixtures.full_answer)) in
  let listing := Some [("a.json", Json.Object Fixtures.raw_document);
                       ("b.json", Json.Object Fixtures.blocked_document)] in
  let st' := (Analyst.run env listing (Analyst.init env ∅)).2 in
  ∃ table,
    Analyst.report st' = Some table ∧
    Forall (Stored.persisted (Analyst.intelligence st')) (Analyst.rows table).
Proof.
  intros env listing st'.
  destruct (report_rows_are_stored_records env listing (Analyst.init env ∅) st')
    as [Hsame|(table & Hrep & _ & Hrows)];
    [intros name v Hv; discriminate Hv | vm_compute; reflexivity | |].
  - exfalso. assert (Hsome : is_Some (Analyst.report st'))
      by (eexists; vm_compute; reflexivity).
    rewrite Hsame in Hsome. destruct Hsome as [x Hx]. discriminate.
  - exists table. split; assumption.
Defined.

(** ** The patch of the registry *)

Section RegistryPatch.

Import Registry UpdateUrls.

Lemma apply_update_rows df update :
  apply_update df update = map (λ r, update_row r update) df.
Proof.
  destruct update as [source new_url]. unfold apply_update, update_row, loc_set.
  destruct (existsb _ df) eqn:Hany.
  - case_bool_decide.
    + rewrite map_map. apply map_ext. intros r.
      destruct (bool_decide (source_name r = source)) eqn:Hm;
        cbn [source_name set_url]; rewrite Hm; reflexivity.
    + reflexivity.
  - induction df as [|r df IH]; simpl in *; [reflexivity|].
    apply orb_false_iff in Hany as [Hr Hdf]. rewrite Hr. f_equal. now apply IH.
Qed.

Lemma patch_with_rows updates df :
  patch_with updates df = map (λ r, fold_left update_row updates r) df.
Proof.
  unfold patch_with. revert df.
  induction updates as [|update updates IH]; intros df; simpl.
  - symmetry. apply map_id.
  - now rewrite IH, apply_update_rows, map_map.
Qed.

Lemma patch_rows df : patch df = map patch_row df.
Proof. apply patch_with_rows. Qed.

(** The row of a listed source, patched with the URL [u]. *)
Local Abbreviation patched u r :=
  (if bool_decide (source_name r = "DNB (Netherlands)")
   then set_strategy "Web Scrape" (set_url u r)
   else set_url u r).

Lemma update_row_name r update : source_name (update_row r update) = source_name r.
Proof.
  destruct update as [source new_url]. unfold update_row.
  repeat case_bool_decide; reflexivity.
Qed.

Lemma update_row_notes r update : notes (update_row r update) = notes r.
Proof.
  destruct update as [source new_url]. unfold update_row.
  repeat case_bool_decide; reflexivity.
Qed.

Lemma fold_update_row_keeps {A} (field : Row → A) updates r :
  (∀ r update, field (update_row r update) = field r) →
  field (fold_left update_row updates r) = field r.
Proof.
  intros Hstep. revert r. induction updates as [|update updates IH]; intros r; simpl;
    [reflexivity|]. now rewrite IH, Hstep.
Qed.

Lemma fold_update_row_out updates r :
  source_name r ∉ (fst <$> updates) → fold_left update_row updates r = r.
Proof.
  revert r. induction updates as [|[source new_url] updates IH]; intros r Hout;
    [reflexivity|].
  cbn in Hout. apply not_elem_of_cons in Hout as [Hne Hout].
  cbn [fold_left update_row]. rewrite bool_decide_eq_false_2 by exact Hne.
  now apply IH.
Qed.

Lemma fold_update_row_in updates r u :
  NoDup (fst <$> updates) → (source_name r, u) ∈ updates →
  fold_left update_row updates r = patched u r.
Proof.
  revert r. induction updates as [|[source new_url] updates IH]; intros r Hnodup Hin.
  - now apply elem_of_nil in Hin.
  - cbn in Hnodup. apply NoDup_cons in Hnodup as [Hfresh Hnodup].
    apply elem_of_cons in Hin as [[= Hs Hu]|Hin].
    + subst source new_url. cbn [fold_left update_row].
      rewrite bool_decide_eq_true_2 by reflexivity.
      rewrite fold_update_row_out; [reflexivity|].
      now case_bool_decide.
    + assert (Hne : source_name r ≠ source).
      { intros <-. apply Hfresh. apply (list_elem_of_fmap_2 fst) in Hin. exact Hin. }
      cbn [fold_left update_row]. rewrite bool_decide_eq_false_2 by exact Hne.
      now apply IH.
Qed.

Lemma updates_NoDup : NoDup (fst <$> updates).
Proof. compute_done. Qed.

Lemma listed_or_not r :
  source_name r ∉ (fst <$> updates) ∨ ∃ u, (source_name r, u) ∈ updates.
Proof.
  destruct (decide (source_name r ∈ (fst <$> updates))) as [Hin|Hout]; [right|now left].
  apply list_elem_of_fmap in Hin as ([source u] & Hs & Hin). cbn in Hs. subst source.
  now exists u.
Qed.

(** X19: the patch changes a row of a listed source only, and of such a row
    the URL (and for the Dutch central bank the strategy, to a scrape);
    names and notes stay, and every row of a listed source has the listed
    URL afterwards. *)
Theorem patch_touches_listed_sources_only df :
  Forall2 (λ r r',
      source_name r' = source_name r ∧
      notes r' = notes r ∧
      (source_name r ∉ (fst <$> updates) → r' = r) ∧
      (∀ u, (source_name r, u) ∈ updates → target_url r' = Some u) ∧
      extraction_strategy r'
      = if bool_decide (source_name r = "DNB (Netherlands)")
        then "Web Scrape" else extraction_strategy r)
    df (patch df).
Proof.
  rewrite patch_rows. apply Forall2_fmap_r, Forall_Forall2_diag, Forall_forall.
  intros r _. cbv beta. unfold patch_row.
  split; [apply (fold_update_row_keeps source_name), update_row_name|].
  split; [apply (fold_update_row_keeps notes), update_row_notes|].
  split; [apply fold_update_row_out|].
  split.
  - intros u Hu. rewrite (fold_update_row_in _ _ u updates_NoDup Hu).
    now case_bool_decide.
  - destruct (listed_or_not r) as [Hout|[u Hu]].
    + rewrite fold_update_row_out by exact Hout.
      case_bool_decide as Hd; [|reflexivity].
      exfalso. apply Hout. rewrite Hd. compute_done.
    + rewrite (fold_update_row_in _ _ u updates_NoDup Hu).
      now case_bool_decide.
Qed.

(** X20: the patch applied to a patched registry changes nothing, and the
    patch keeps the number of rows. *)
Theorem patch_idempotent df :
  patch (patch df) = patch df ∧ length (patch df) = length df.
Proof.
  rewrite !patch_rows. split; [|apply length_map].
  rewrite map_map. apply map_ext. intros r. unfold patch_row.
  destruct (listed_or_not r) as [Hout|[u Hu]].
  - rewrite (fold_update_row_out updates r Hout). now apply fold_update_row_out.
  - rewrite (fold_update_row_in _ r u updates_NoDup Hu).
    rewrite (fold_update_row_in _ _ u updates_NoDup).
    + destruct (bool_decide (source_name r = "DNB (Netherlands)")) eqn:Hd;
        cbn [source_name set_url set_strategy]; rewrite Hd; reflexivity.
    + destruct (bool_decide (source_name r = "DNB (Netherlands)")); exact Hu.
Qed.

End RegistryPatch.
